(** * post-automation: slide-deck editing, rule-based rewriting and AI detection

    A shallow embedding of the Python package [post_automation]:
    - [core/ppt_modifier.py]      ([PPTModifier])
    - [core/ppt_analyzer.py]      ([PPTAnalyzer])
    - [core/content_generator.py] ([ContentGenerator])
    - [core/ai_detector.py]       ([AIDetector], [get_detector])
    - [api/routes/detection.py], [api/routes/modification.py]
    - [models/ppt.py], [models/detection.py]

    Conventions.  A Python [str] is a [string] whose characters are the code
    points below 256.  A Python [int] is a [Z].  A Python [float] is a binary64
    [float].  An exception is a value of [exn] carried by [result].  In-place
    mutation of the document is explicit state passing: every operation
    returns the document it leaves behind, also when it raises.

    Two builtins treat characters beyond code point 255 in a way no
    character below it is treated: [int(s, 16)] reads every Unicode decimal
    digit (a fullwidth "1" as 1), and [re.IGNORECASE] lets U+0130 and U+0131
    match "i", U+017F match "s" and U+212A match "k".  What is stated of
    [int16] and of the patterns of [re] is stated of texts of code points
    below 256, where the models are exact. *)

From Stdlib Require Import String Ascii List ZArith Bool Arith Lia.
From Stdlib Require Import Floats.PrimFloat.
Import ListNotations.

#[local] Open Scope string_scope.
#[local] Open Scope list_scope.
#[local] Set Warnings "-register-all".

(* ===================================================================== *)
(** ** Python strings *)
(* ===================================================================== *)

Module PyStr.

(** [str.isspace] on one character (also the class [\s] of [re]). *)
Definition isspace (c : ascii) : bool :=
  let n := nat_of_ascii c in
  ((9 <=? n)%nat && (n <=? 13)%nat) || ((28 <=? n)%nat && (n <=? 32)%nat)
  || (n =? 133)%nat || (n =? 160)%nat.

(** Truthiness of a [str]: the empty string is false. *)
Definition truthy (s : string) : bool :=
  match s with EmptyString => false | String _ _ => true end.

(** Truthiness of an [Optional[str]]. *)
Definition truthy_opt (o : option string) : bool :=
  match o with None => false | Some s => truthy s end.

Fixpoint lstrip_with (p : ascii -> bool) (s : string) : string :=
  match s with
  | EmptyString => EmptyString
  | String c s' => if p c then lstrip_with p s' else s
  end.

Fixpoint rev_onto (s acc : string) : string :=
  match s with
  | EmptyString => acc
  | String c s' => rev_onto s' (String c acc)
  end.

Definition reverse (s : string) : string := rev_onto s EmptyString.

Definition rstrip_with (p : ascii -> bool) (s : string) : string :=
  reverse (lstrip_with p (reverse s)).

(** [s.strip()] *)
Definition strip (s : string) : string :=
  rstrip_with isspace (lstrip_with isspace s).

(** [s.lstrip(chars)] for a one-character [chars]. *)
Definition lstrip_char (ch : ascii) (s : string) : string :=
  lstrip_with (Ascii.eqb ch) s.

(** [sub in s] *)
Fixpoint contains (sub s : string) : bool :=
  String.prefix sub s
  || match s with
     | EmptyString => false
     | String _ s' => contains sub s'
     end.

(** The scan of [s.replace(old, new)] for a non-empty [old]: [skip] counts
    the characters of the current occurrence still to be dropped. *)
Fixpoint replace_from (old new : string) (skip : nat) (s : string) : string :=
  match s with
  | EmptyString => EmptyString
  | String c s' =>
      match skip with
      | S k => replace_from old new k s'
      | O =>
          if String.prefix old s
          then new ++ replace_from old new (String.length old - 1) s'
          else String c (replace_from old new 0 s')
      end
  end.

Fixpoint follow_each (new s : string) : string :=
  match s with
  | EmptyString => EmptyString
  | String c s' => String c (new ++ follow_each new s')
  end.

(** [s.replace(old, new)]: every non-overlapping occurrence, left to right;
    an empty [old] matches before every character and at the end. *)
Definition replace (old new s : string) : string :=
  match old with
  | EmptyString => new ++ follow_each new s
  | String _ _ => replace_from old new 0 s
  end.

(** [sep.join(parts)] *)
Fixpoint join (sep : string) (parts : list string) : string :=
  match parts with
  | [] => EmptyString
  | [p] => p
  | p :: ps => p ++ sep ++ join sep ps
  end.

(** [s[i:j]] for [0 <= i <= j]. *)
Definition slice (i j : nat) (s : string) : string :=
  String.substring i (Nat.min j (String.length s) - i) s.

End PyStr.

(* ===================================================================== *)
(** ** Exceptions *)
(* ===================================================================== *)

Inductive exn : Type :=
| IndexError
| ValueError
| ValidationError        (* pydantic: a field constraint is violated *)
| InputValidationError   (* utils.validators.ValidationError *)
| OSError.               (* a model or tokenizer could not be loaded *)

Inductive result (A : Type) : Type :=
| Ok (a : A)
| Raise (e : exn).

Arguments Ok {A} a.
Arguments Raise {A} e.

Definition bind {A B : Type} (r : result A) (k : A -> result B) : result B :=
  match r with
  | Ok a => k a
  | Raise e => Raise e
  end.

(* ===================================================================== *)
(** ** [int(s, 16)] *)
(* ===================================================================== *)

Module PyInt.

(** The white space [int] strips: the ASCII white space of C, and the
    characters above 127 that [str.isspace] accepts. *)
Definition int_space (c : ascii) : bool :=
  let n := nat_of_ascii c in
  ((9 <=? n)%nat && (n <=? 13)%nat) || (n =? 32)%nat
  || (n =? 133)%nat || (n =? 160)%nat.

(** The value of a digit in base 16.  Below code point 256 the decimal
    digits are "0" to "9" only. *)
Definition hex_value (c : ascii) : option Z :=
  let n := nat_of_ascii c in
  if ((48 <=? n)%nat && (n <=? 57)%nat) then Some (Z.of_nat (n - 48))
  else if ((97 <=? n)%nat && (n <=? 102)%nat) then Some (Z.of_nat (n - 87))
  else if ((65 <=? n)%nat && (n <=? 70)%nat) then Some (Z.of_nat (n - 55))
  else None.

Definition is_hex_digit (c : ascii) : bool :=
  match hex_value c with Some _ => true | None => false end.

Inductive digit_state : Type := AtStart | AfterDigit | AfterUnderscore.

(** Digits with single underscores between them. *)
Fixpoint digits16 (st : digit_state) (acc : Z) (s : string) : result Z :=
  match s with
  | EmptyString =>
      match st with AfterDigit => Ok acc | _ => Raise ValueError end
  | String c s' =>
      match hex_value c with
      | Some v => digits16 AfterDigit (acc * 16 + v)%Z s'
      | None =>
          if Ascii.eqb c "_" then
            match st with
            | AfterDigit => digits16 AfterUnderscore acc s'
            | _ => Raise ValueError
            end
          else Raise ValueError
      end
  end.

(** After the sign: an optional [0x] or [0X], one optional underscore
    after it, then the digits. *)
Definition unsigned16 (s : string) : result Z :=
  match s with
  | String "0" (String x s') =>
      if Ascii.eqb x "x" || Ascii.eqb x "X" then
        match s' with
        | String "_" s'' => digits16 AtStart 0%Z s''
        | _ => digits16 AtStart 0%Z s'
        end
      else digits16 AtStart 0%Z s
  | _ => digits16 AtStart 0%Z s
  end.

(** [int(s, 16)] *)
Definition int16 (s : string) : result Z :=
  let s := PyStr.rstrip_with int_space (PyStr.lstrip_with int_space s) in
  match s with
  | String "+" s' => unsigned16 s'
  | String "-" s' => bind (unsigned16 s') (fun v => Ok (- v)%Z)
  | _ => unsigned16 s
  end.

End PyInt.

(** Python indexing [l[i]]: a negative index counts from the end; the
    result is the position reached, or nothing for an [IndexError]. *)
Definition py_index {A : Type} (l : list A) (i : Z) : option nat :=
  let n := Z.of_nat (length l) in
  if (0 <=? i)%Z then (if (i <? n)%Z then Some (Z.to_nat i) else None)
  else if (- n <=? i)%Z then Some (Z.to_nat (n + i))
  else None.

(** The list with its [i]-th element replaced by its image under [f]. *)
Fixpoint alter_nth {A : Type} (f : A -> A) (i : nat) (l : list A) : list A :=
  match l, i with
  | [], _ => []
  | x :: xs, O => f x :: xs
  | x :: xs, S k => x :: alter_nth f k xs
  end.

(* ===================================================================== *)
(** ** The document object model (python-pptx, as far as the code uses it) *)
(* ===================================================================== *)

Module Pptx.

(** [font.color]: no colour, an explicit RGB colour ([color.type == 1]) or
    a theme colour ([color.type == 2]). *)
Inductive ColorFormat : Type :=
| NoColor
| RGB (r g b : Z)
| Theme (index : Z).

(** [run.font]; a size is a length in EMU. *)
Record Font : Type := mkFont {
  font_name : option string;
  font_size : option Z;
  font_bold : option bool;
  font_italic : option bool;
  font_color : ColorFormat
}.

Record Run : Type := mkRun {
  run_text : string;
  run_font : Font
}.

Record Paragraph : Type := mkParagraph { runs : list Run }.

Record TextFrame : Type := mkTextFrame { paragraphs : list Paragraph }.

Record Cell : Type := mkCell { cell_text_frame : option TextFrame }.

Record Row : Type := mkRow { cells : list Cell }.

Record Table : Type := mkTable { rows : list Row }.

(** A shape: each of the attributes [text_frame], [table] and [shapes] may
    be there or not ([hasattr]). *)
Inductive Shape : Type :=
| mkShape (text_frame : option TextFrame) (table : option Table)
          (shapes : option (list Shape)).

Definition shape_text_frame (s : Shape) : option TextFrame :=
  match s with mkShape tf _ _ => tf end.

Definition shape_table (s : Shape) : option Table :=
  match s with mkShape _ tb _ => tb end.

Definition shape_shapes (s : Shape) : option (list Shape) :=
  match s with mkShape _ _ sub => sub end.

Record Slide : Type := mkSlide { slide_shapes : list Shape }.

Record Presentation : Type := mkPresentation { slides : list Slide }.

(** Setters: each changes one attribute and nothing else. *)
Definition set_text (r : Run) (t : string) : Run :=
  mkRun t (run_font r).

Definition set_font_name (r : Run) (n : string) : Run :=
  let f := run_font r in
  mkRun (run_text r)
        (mkFont (Some n) (font_size f) (font_bold f) (font_italic f) (font_color f)).

Definition set_font_size (r : Run) (sz : Z) : Run :=
  let f := run_font r in
  mkRun (run_text r)
        (mkFont (font_name f) (Some sz) (font_bold f) (font_italic f) (font_color f)).

Definition set_font_bold (r : Run) (b : bool) : Run :=
  let f := run_font r in
  mkRun (run_text r)
        (mkFont (font_name f) (font_size f) (Some b) (font_italic f) (font_color f)).

Definition set_font_italic (r : Run) (b : bool) : Run :=
  let f := run_font r in
  mkRun (run_text r)
        (mkFont (font_name f) (font_size f) (font_bold f) (Some b) (font_color f)).

Definition set_font_color_rgb (r : Run) (c : Z * Z * Z) : Run :=
  let f := run_font r in
  let '(cr, cg, cb) := c in
  mkRun (run_text r)
        (mkFont (font_name f) (font_size f) (font_bold f) (font_italic f) (RGB cr cg cb)).

(** [paragraph.text] *)
Definition paragraph_text (p : Paragraph) : string :=
  String.concat "" (map run_text (runs p)).

(** [text_frame.text] *)
Definition text_frame_text (tf : TextFrame) : string :=
  String.concat (String "010" "") (map paragraph_text (paragraphs tf)).

(** [cell.text] *)
Definition cell_text (c : Cell) : string :=
  match cell_text_frame c with
  | Some tf => text_frame_text tf
  | None => ""
  end.

(** [Pt(n)]: points to EMU. *)
Definition Pt (n : Z) : Z := (n * 12700)%Z.

(** The runs of a text frame, of a table and of a shape's own text frame
    and table, in encounter order. *)
Definition frame_runs (tf : TextFrame) : list Run :=
  flat_map runs (paragraphs tf).

Definition opt_frame_runs (o : option TextFrame) : list Run :=
  match o with Some tf => frame_runs tf | None => [] end.

Definition table_runs (tb : Table) : list Run :=
  flat_map (fun r => flat_map (fun c => opt_frame_runs (cell_text_frame c)) (cells r))
           (rows tb).

Definition opt_table_runs (o : option Table) : list Run :=
  match o with Some tb => table_runs tb | None => [] end.

Definition shape_runs (s : Shape) : list Run :=
  opt_frame_runs (shape_text_frame s) ++ opt_table_runs (shape_table s).

(** The runs a walk over [slide.shapes] meets: text frames and table cells
    of the slide's direct shapes. *)
Definition slide_runs (s : Slide) : list Run :=
  flat_map shape_runs (slide_shapes s).

Definition presentation_runs (p : Presentation) : list Run :=
  flat_map slide_runs (slides p).

End Pptx.

(* ===================================================================== *)
(** ** models/detection.py, models/ppt.py *)
(* ===================================================================== *)

Module Models.

Record DetectionResult : Type := mkDetectionResult {
  is_ai_generated : bool;
  confidence : float;
  label : string;
  model_name : string
}.

(** The constraint [ge=0.0, le=1.0] of the field [confidence]; a NaN
    satisfies neither comparison. *)
Definition in_unit_interval (x : float) : bool :=
  PrimFloat.leb 0%float x && PrimFloat.leb x 1%float.

(** The validating constructor [DetectionResult(...)]. *)
Definition new_DetectionResult (is_ai : bool) (conf : float) (lbl model : string)
    : result DetectionResult :=
  if in_unit_interval conf then Ok (mkDetectionResult is_ai conf lbl model)
  else Raise ValidationError.

(** [SlideText]; [slide_number] and [shape_count] are declared [ge=0]. *)
Record SlideText : Type := mkSlideText {
  slide_number : Z;
  text : string;
  shape_count : Z
}.

Record SlideDetection : Type := mkSlideDetection {
  sd_slide_number : Z;
  sd_text : string;
  detection : DetectionResult
}.

Record PresentationDetection : Type := mkPresentationDetection {
  file_name : string;
  total_slides : Z;
  ai_slides : Z;
  human_slides : Z;
  pd_slides : list SlideDetection
}.

(** The validating constructor [PresentationDetection(...)]: the three
    counts are declared [ge=0]. *)
Definition new_PresentationDetection (name : string) (total ai human : Z)
    (sl : list SlideDetection) : result PresentationDetection :=
  if ((0 <=? total) && (0 <=? ai) && (0 <=? human))%Z
  then Ok (mkPresentationDetection name total ai human sl)
  else Raise ValidationError.

(** [Replacement]; the field [slide_num] is declared [ge=0]. *)
Record Replacement : Type := mkReplacement {
  slide_num : Z;
  old_text : string;
  new_text : string
}.

Definition Replacement_valid (r : Replacement) : Prop := (0 <= slide_num r)%Z.

Record ColorScheme : Type := mkColorScheme {
  text_color : option string;
  background_color : option string
}.

(** [StyleConfig]; [font_size] is declared [ge=8, le=72]. *)
Record StyleConfig : Type := mkStyleConfig {
  font_name : option string;
  font_size : option Z;
  color_scheme : option ColorScheme
}.

End Models.

(* ===================================================================== *)
(** ** core/ppt_modifier.py: content replacement *)
(* ===================================================================== *)

Module PPTModifier.
Import Pptx Models.

(** The body of the [if old_text in run.text:] branch: snapshot the font,
    assign the text, put back what was captured. *)
Definition replace_in_run (old new : string) (run : Run) : Run :=
  if PyStr.contains old (run_text run) then
    let font_name := Pptx.font_name (run_font run) in
    let font_size := Pptx.font_size (run_font run) in
    let font_bold := Pptx.font_bold (run_font run) in
    let font_italic := Pptx.font_italic (run_font run) in
    let font_color :=
      match Pptx.font_color (run_font run) with
      | RGB r g b => Some (r, g, b)
      | _ => None
      end in
    let run := set_text run (PyStr.replace old new (run_text run)) in
    let run := match font_name with
               | Some n => if PyStr.truthy n then set_font_name run n else run
               | None => run
               end in
    let run := match font_size with
               | Some sz => if (sz =? 0)%Z then run else set_font_size run sz
               | None => run
               end in
    let run := match font_bold with
               | Some b => set_font_bold run b
               | None => run
               end in
    let run := match font_italic with
               | Some b => set_font_italic run b
               | None => run
               end in
    let run := match font_color with
               | Some c => set_font_color_rgb run c
               | None => run
               end in
    run
  else run.

Definition _replace_text_in_frame (old new : string) (tf : TextFrame) : TextFrame :=
  mkTextFrame
    (map (fun p => mkParagraph (map (replace_in_run old new) (runs p)))
         (paragraphs tf)).

Definition _replace_text_in_table (old new : string) (tb : Table) : Table :=
  mkTable
    (map (fun row =>
            mkRow (map (fun cell =>
                          mkCell (option_map (_replace_text_in_frame old new)
                                             (cell_text_frame cell)))
                       (cells row)))
         (rows tb)).

(** One turn of the loop [for shape in slide.shapes]. *)
Definition replace_in_shape (old new : string) (s : Shape) : Shape :=
  mkShape (option_map (_replace_text_in_frame old new) (shape_text_frame s))
          (option_map (_replace_text_in_table old new) (shape_table s))
          (shape_shapes s).

Definition replace_in_shapes (old new : string) (s : Slide) : Slide :=
  mkSlide (map (replace_in_shape old new) (slide_shapes s)).

Definition _replace_in_slide (prs : Presentation) (slide_num : Z)
    (old new : string) : result Presentation :=
  if (slide_num >=? Z.of_nat (length (slides prs)))%Z then Ok prs
  else
    match py_index (slides prs) slide_num with
    | None => Raise IndexError
    | Some i => Ok (mkPresentation (alter_nth (replace_in_shapes old new) i (slides prs)))
    end.

(** [replace_content]: an exception of one replacement is logged and the
    loop goes on with the document as it is. *)
Fixpoint replace_content (prs : Presentation) (replacements : list Replacement)
    : Presentation :=
  match replacements with
  | [] => prs
  | r :: rest =>
      match _replace_in_slide prs (slide_num r) (old_text r) (new_text r) with
      | Ok prs' => replace_content prs' rest
      | Raise _ => replace_content prs rest
      end
  end.

End PPTModifier.

(* ===================================================================== *)
(** ** core/ppt_modifier.py: style overrides *)
(* ===================================================================== *)

Module PPTStyles.
Import Pptx Models.

(** A loop whose body mutates its element in place and may raise: the
    elements already visited keep their new state, the one that raised
    keeps what was done to it, the rest is not reached. *)
Fixpoint for_each {A : Type} (body : A -> A * option exn) (l : list A)
    : list A * option exn :=
  match l with
  | [] => ([], None)
  | x :: xs =>
      match body x with
      | (x', Some e) => (x' :: xs, Some e)
      | (x', None) =>
          let '(xs', r) := for_each body xs in (x' :: xs', r)
      end
  end.

(** The loop [for x in a.xs: body(x)] over the children of [a]. *)
Definition for_each_in {A B : Type} (children : A -> list B) (rebuild : list B -> A)
    (body : B -> B * option exn) (a : A) : A * option exn :=
  let '(l, r) := for_each body (children a) in (rebuild l, r).

Definition _hex_to_rgb (hex_color : string) : result (Z * Z * Z) :=
  let hex_color := PyStr.lstrip_char "#" hex_color in
  bind (PyInt.int16 (PyStr.slice 0 2 hex_color)) (fun r =>
  bind (PyInt.int16 (PyStr.slice 2 4 hex_color)) (fun g =>
  bind (PyInt.int16 (PyStr.slice 4 6 hex_color)) (fun b =>
  Ok (r, g, b)))).

(** [RGBColor(r, g, b)]: each value must be an integer in 0..255. *)
Definition RGBColor (rgb : Z * Z * Z) : result (Z * Z * Z) :=
  let '(r, g, b) := rgb in
  let byte v := ((0 <=? v) && (v <=? 255))%Z in
  if byte r && byte g && byte b then Ok rgb else Raise ValueError.

(** The three steps of the loop body of [_apply_styles_to_frame]. *)
Definition apply_font_name (cfg : StyleConfig) (run : Run) : Run :=
  match Models.font_name cfg with
  | Some n => if PyStr.truthy n then set_font_name run n else run
  | None => run
  end.

Definition apply_font_size (cfg : StyleConfig) (run : Run) : Run :=
  match Models.font_size cfg with
  | Some n => if (n =? 0)%Z then run else set_font_size run (Pt n)
  | None => run
  end.

(** The colour the configuration asks for, if it asks for one. *)
Definition requested_color (cfg : StyleConfig) : option string :=
  match color_scheme cfg with
  | Some cs =>
      match text_color cs with
      | Some tc => if PyStr.truthy tc then Some tc else None
      | None => None
      end
  | None => None
  end.

Definition apply_color (cfg : StyleConfig) (run : Run) : Run * option exn :=
  match requested_color cfg with
  | Some tc =>
      match bind (_hex_to_rgb tc) RGBColor with
      | Ok rgb => (set_font_color_rgb run rgb, None)
      | Raise e => (run, Some e)
      end
  | None => (run, None)
  end.

Definition apply_styles_to_run (cfg : StyleConfig) (run : Run) : Run * option exn :=
  apply_color cfg (apply_font_size cfg (apply_font_name cfg run)).

Definition apply_styles_to_paragraph (cfg : StyleConfig) (p : Paragraph)
    : Paragraph * option exn :=
  for_each_in runs mkParagraph (apply_styles_to_run cfg) p.

Definition _apply_styles_to_frame (cfg : StyleConfig) (tf : TextFrame)
    : TextFrame * option exn :=
  for_each_in paragraphs mkTextFrame (apply_styles_to_paragraph cfg) tf.

Definition apply_styles_to_cell (cfg : StyleConfig) (c : Cell) : Cell * option exn :=
  match cell_text_frame c with
  | Some tf =>
      let '(tf', r) := _apply_styles_to_frame cfg tf in (mkCell (Some tf'), r)
  | None => (c, None)
  end.

Definition apply_styles_to_row (cfg : StyleConfig) (row : Row) : Row * option exn :=
  for_each_in cells mkRow (apply_styles_to_cell cfg) row.

(** The [try] of [_apply_styles_to_table] swallows the exception: the
    table keeps what was done before it. *)
Definition _apply_styles_to_table (cfg : StyleConfig) (tb : Table) : Table :=
  fst (for_each_in rows mkTable (apply_styles_to_row cfg) tb).

Definition apply_styles_to_shape (cfg : StyleConfig) (s : Shape) : Shape * option exn :=
  match shape_text_frame s with
  | Some tf =>
      match _apply_styles_to_frame cfg tf with
      | (tf', Some e) => (mkShape (Some tf') (shape_table s) (shape_shapes s), Some e)
      | (tf', None) =>
          (mkShape (Some tf')
                   (option_map (_apply_styles_to_table cfg) (shape_table s))
                   (shape_shapes s), None)
      end
  | None =>
      (mkShape None (option_map (_apply_styles_to_table cfg) (shape_table s))
               (shape_shapes s), None)
  end.

Definition apply_styles_to_slide (cfg : StyleConfig) (slide : Slide)
    : Slide * option exn :=
  for_each_in slide_shapes mkSlide (apply_styles_to_shape cfg) slide.

Definition modify_styles (cfg : StyleConfig) (prs : Presentation)
    : Presentation * option exn :=
  for_each_in slides mkPresentation (apply_styles_to_slide cfg) prs.

End PPTStyles.

(* ===================================================================== *)
(** ** core/ppt_analyzer.py *)
(* ===================================================================== *)

Module PPTAnalyzer.
Import Pptx Models.

(** The test [if t.strip():] *)
Definition nonblank (t : string) : bool := PyStr.truthy (PyStr.strip t).

Definition _extract_table_text (tb : Table) : string :=
  PyStr.join " "
    (filter PyStr.truthy
       (flat_map (fun row => map (fun cell => PyStr.strip (cell_text cell)) (cells row))
                 (rows tb))).

Fixpoint _extract_text_from_shape (shape : Shape) : string :=
  match shape with
  | mkShape tf tb sub =>
      let from_frame :=
        match tf with
        | Some tf =>
            filter PyStr.truthy
                   (map (fun p => PyStr.strip (paragraph_text p)) (paragraphs tf))
        | None => []
        end in
      let from_table :=
        match tb with
        | Some tb => filter PyStr.truthy [_extract_table_text tb]
        | None => []
        end in
      let from_group :=
        match sub with
        | Some l => filter nonblank (map _extract_text_from_shape l)
        | None => []
        end in
      PyStr.join " " (from_frame ++ from_table ++ from_group)
  end.

Definition slide_text (i : nat) (slide : Slide) : SlideText :=
  mkSlideText (Z.of_nat i)
    (PyStr.join " " (filter nonblank (map _extract_text_from_shape (slide_shapes slide))))
    (Z.of_nat (length (slide_shapes slide))).

(** [enumerate(prs.slides)] from a given first index. *)
Fixpoint extract_from (i : nat) (l : list Slide) : list SlideText :=
  match l with
  | [] => []
  | slide :: rest => slide_text i slide :: extract_from (S i) rest
  end.

Definition extract_text_from_pptx (prs : Presentation) : list SlideText :=
  extract_from 0 (slides prs).

End PPTAnalyzer.

(* ===================================================================== *)
(** ** The fragment of [re] the rewriter uses *)
(* ===================================================================== *)

Module PyRe.

(** The class [\w]. *)
Definition is_word (c : ascii) : bool :=
  let n := nat_of_ascii c in
  let between a b := ((a <=? n)%nat && (n <=? b)%nat) in
  between 48 57 || between 65 90 || (n =? 95)%nat || between 97 122
  || (n =? 170)%nat || between 178 179 || (n =? 181)%nat || between 185 186
  || between 188 190 || between 192 214 || between 216 246 || between 248 255.

(** Case folding under [re.IGNORECASE], of the code points below 256: the
    capitals of ASCII and of Latin-1. *)
Definition lower (c : ascii) : ascii :=
  let n := nat_of_ascii c in
  if ((65 <=? n)%nat && (n <=? 90)%nat)
     || ((192 <=? n)%nat && (n <=? 214)%nat)
     || ((216 <=? n)%nat && (n <=? 222)%nat)
  then ascii_of_nat (n + 32) else c.

(** [pat] matches at the start of [s], ignoring case. *)
Fixpoint prefix_ci (pat s : string) : bool :=
  match pat, s with
  | EmptyString, _ => true
  | String a pat', String b s' => Ascii.eqb (lower a) (lower b) && prefix_ci pat' s'
  | String _ _, EmptyString => false
  end.

Fixpoint drop (n : nat) (s : string) : string :=
  match n, s with
  | O, _ => s
  | S k, String _ s' => drop k s'
  | S _, EmptyString => EmptyString
  end.

(** The character before position [n] of [s], [prev] when [n] is 0. *)
Definition char_before (prev : option ascii) (n : nat) (s : string) : option ascii :=
  match n with
  | O => prev
  | S k => String.get k s
  end.

Definition head (s : string) : option ascii := String.get 0 s.

Definition word_at (c : option ascii) : bool :=
  match c with Some c => is_word c | None => false end.

(** The length of the longest prefix of [s] inside the class [cls]. *)
Fixpoint span (cls : ascii -> bool) (s : string) : nat :=
  match s with
  | String c s' => if cls c then S (span cls s') else 0
  | EmptyString => 0
  end.

(** Patterns: a sequence of atoms; [Open] and [Close] delimit group 1. *)
Inductive atom : Type :=
| Lit (s : string)
| WordBoundary
| Plus (cls : ascii -> bool)
| Open
| Close.

(** The outcome of a match: its length and the span of group 1. *)
Definition matched : Type := nat * option (nat * nat).

(** Greedy choice with backtracking: the candidates [k], [k-1], ..., 1. *)
Fixpoint longest_first (k : nat) (try : nat -> option matched) : option matched :=
  match k with
  | O => None
  | S k' =>
      match try k with
      | Some m => Some m
      | None => longest_first k' try
      end
  end.

(** [match_atoms p prev s n gs g]: match [p] at a position whose previous
    character is [prev] and whose remaining text is [s]; [n] characters
    of the match are consumed already, group 1 opened at [gs]. *)
Fixpoint match_atoms (p : list atom) (prev : option ascii) (s : string)
    (n gs : nat) (g : option (nat * nat)) : option matched :=
  match p with
  | [] => Some (n, g)
  | Lit l :: p' =>
      if prefix_ci l s
      then match_atoms p' (char_before prev (String.length l) s)
                       (drop (String.length l) s) (n + String.length l) gs g
      else None
  | WordBoundary :: p' =>
      if xorb (word_at prev) (word_at (head s))
      then match_atoms p' prev s n gs g
      else None
  | Plus cls :: p' =>
      longest_first (span cls s)
        (fun j => match_atoms p' (char_before prev j s) (drop j s) (n + j) gs g)
  | Open :: p' => match_atoms p' prev s n n g
  | Close :: p' => match_atoms p' prev s n gs (Some (gs, n))
  end.

(** Replacement templates: text and the back-reference [\1]. *)
Inductive piece : Type :=
| Text (s : string)
| Group1.

Definition expand (tmpl : list piece) (s : string) (g : option (nat * nat)) : string :=
  String.concat ""
    (map (fun pc =>
            match pc with
            | Text t => t
            | Group1 =>
                match g with
                | Some (a, b) => String.substring a (b - a) s
                | None => ""
                end
            end) tmpl).

(** The scan of [re.sub]: leftmost matches, left to right, none
    overlapping; [skip] counts the characters of the current match still to
    be passed.  The patterns used here match no empty string. *)
Fixpoint sub_from (p : list atom) (tmpl : list piece) (skip : nat)
    (prev : option ascii) (s : string) : string :=
  match s with
  | EmptyString => EmptyString
  | String c s' =>
      match skip with
      | S k => sub_from p tmpl k (Some c) s'
      | O =>
          match match_atoms p prev s 0 0 None with
          | Some (S len, g) => expand tmpl s g ++ sub_from p tmpl len (Some c) s'
          | _ => String c (sub_from p tmpl 0 (Some c) s')
          end
      end
  end.

(** [re.sub(pattern, repl, text, flags=re.IGNORECASE)] *)
Definition sub (p : list atom) (tmpl : list piece) (s : string) : string :=
  sub_from p tmpl 0 None s.

End PyRe.

(* ===================================================================== *)
(** ** core/content_generator.py *)
(* ===================================================================== *)

Module ContentGenerator.
Import PyRe.

(** The dict [word_replacements], in insertion order. *)
Definition word_replacements : list (string * string) :=
  [ ("utilize", "use");
    ("in order to", "to");
    ("due to the fact that", "because");
    ("at this point in time", "now");
    ("in the event that", "if");
    ("for the purpose of", "to");
    ("prior to", "before");
    ("subsequent to", "after");
    ("in close proximity to", "near");
    ("is able to", "can");
    ("has the ability to", "can");
    ("in spite of", "despite");
    ("on a regular basis", "regularly");
    ("in the near future", "soon");
    ("at the present time", "currently");
    ("make a decision", "decide");
    ("give consideration to", "consider");
    ("make an assumption", "assume");
    ("conduct an investigation", "investigate");
    ("perform an analysis", "analyze") ].

(** [\bthat\s+that\b] *)
Definition that_that : list atom :=
  [WordBoundary; Lit "that"; Plus PyStr.isspace; Lit "that"; WordBoundary].

(** [\bis being\s+(\w+ed)\b] *)
Definition is_being : list atom :=
  [WordBoundary; Lit "is being"; Plus PyStr.isspace;
   Open; Plus is_word; Lit "ed"; Close; WordBoundary].

(** [\bvery\s+very\b] *)
Definition very_very : list atom :=
  [WordBoundary; Lit "very"; Plus PyStr.isspace; Lit "very"; WordBoundary].

Definition _simplify_sentences (text : string) : string :=
  let text := sub that_that [Text "that"] text in
  let text := sub is_being [Text "is "; Group1] text in
  let text := sub very_very [Text "very"] text in
  text.

(** One turn of the loop over the table:
    [re.compile(re.escape(phrase), re.IGNORECASE).sub(replacement, text)]. *)
Definition replace_phrase (modified_text : string) (entry : string * string) : string :=
  let '(phrase, replacement) := entry in
  sub [Lit phrase] [Text replacement] modified_text.

Definition generate (text : string) : string :=
  let modified_text := fold_left replace_phrase word_replacements text in
  _simplify_sentences modified_text.

End ContentGenerator.

(* ===================================================================== *)
(** ** core/ai_detector.py *)
(* ===================================================================== *)

Module Detector.
Import Models.

(** What lies outside the repository: the settings, the model hub and
    the classifier.  [ai_probability m t] is
    the float read from [probabilities[0][1]] after tokenizing [t] and
    running the model, for the model and tokenizer named [m]. *)
Record Env : Type := mkEnv {
  hf_model_name : string;
  from_pretrained : string -> bool;
  ai_probability : string -> string -> float
}.

(** An [AIDetector]: its tokenizer and model are those of [self.model_name]. *)
Record AIDetector : Type := mkAIDetector { self_model_name : string }.

(** The state of the process: the module global [_detector_instance], and
    two traces, the models loaded and the texts the classifier ran on. *)
Record World : Type := mkWorld {
  _detector_instance : option AIDetector;
  loads : list string;
  inferences : list string
}.

Definition fresh : World := mkWorld None [] [].

(** Computations that read and write the process state and may raise. *)
Definition M (A : Type) : Type := World -> result A * World.

Definition ret {A : Type} (a : A) : M A := fun w => (Ok a, w).

Definition raise {A : Type} (e : exn) : M A := fun w => (Raise e, w).

Definition lift {A : Type} (r : result A) : M A := fun w => (r, w).

Definition bindM {A B : Type} (m : M A) (k : A -> M B) : M B :=
  fun w =>
    match m w with
    | (Ok a, w') => k a w'
    | (Raise e, w') => (Raise e, w')
    end.

Notation "x <- m ;; k" := (bindM m (fun x => k))
  (at level 61, m at next level, right associativity).

(** [model_name or settings.hf_model_name] *)
Definition name_or_default (E : Env) (model_name : option string) : string :=
  match model_name with
  | Some n => if PyStr.truthy n then n else hf_model_name E
  | None => hf_model_name E
  end.

(** [AIDetector.__init__] *)
Definition new_AIDetector (E : Env) (model_name : option string) : M AIDetector :=
  fun w =>
    let name := name_or_default E model_name in
    if from_pretrained E name
    then (Ok (mkAIDetector name),
          mkWorld (_detector_instance w) (loads w ++ [name]) (inferences w))
    else (Raise OSError, w).

(** The classifier run of [detect]. *)
Definition run_model (E : Env) (self : AIDetector) (text : string) : M float :=
  fun w =>
    (Ok (ai_probability E (self_model_name self) text),
     mkWorld (_detector_instance w) (loads w) (inferences w ++ [text])).

(** [AIDetector.detect] *)
Definition detect (E : Env) (self : AIDetector) (text : string) : M DetectionResult :=
  ai_probability <- run_model E self text ;;
  let is_ai := PrimFloat.ltb 0.5%float ai_probability in
  let label := if is_ai then "AI" else "Human" in
  lift (new_DetectionResult is_ai ai_probability label (self_model_name self)).

(** [get_detector] *)
Definition get_detector (E : Env) (model_name : option string) : M AIDetector :=
  fun w =>
    match _detector_instance w with
    | None =>
        match new_AIDetector E model_name w with
        | (Ok d, w') => (Ok d, mkWorld (Some d) (loads w') (inferences w'))
        | (Raise e, w') => (Raise e, w')
        end
    | Some d => (Ok d, w)
    end.

(** A sequence of calls to [get_detector], one per requested identifier. *)
Fixpoint get_detectors (E : Env) (requests : list (option string)) (w : World)
    : list (result AIDetector) * World :=
  match requests with
  | [] => ([], w)
  | m :: rest =>
      let '(r, w') := get_detector E m w in
      let '(rs, w'') := get_detectors E rest w' in
      (r :: rs, w'')
  end.

End Detector.

(* ===================================================================== *)
(** ** api/routes/detection.py, api/routes/modification.py *)
(* ===================================================================== *)

Module Routes.
Import Pptx Models Detector.

(** The entry of an empty slide. *)
Definition empty_slide_detection (detector : AIDetector) (st : SlideText)
    : result SlideDetection :=
  bind (new_DetectionResult false 0.0%float "Human" (self_model_name detector))
       (fun d => Ok (mkSlideDetection (slide_number st) "" d)).

(** The loop [for slide_text in slides_text] of [detect_pptx], from a given
    state of [slide_detections] and [ai_count]. *)
Fixpoint detect_slides (E : Env) (detector : AIDetector) (slides_text : list SlideText)
    (slide_detections : list SlideDetection) (ai_count : Z)
    : M (list SlideDetection * Z) :=
  match slides_text with
  | [] => ret (slide_detections, ai_count)
  | st :: rest =>
      if PPTAnalyzer.nonblank (text st) then
        detection <- detect E detector (text st) ;;
        let slide_detections :=
          slide_detections ++ [mkSlideDetection (slide_number st) (text st) detection] in
        let ai_count :=
          if is_ai_generated detection then (ai_count + 1)%Z else ai_count in
        detect_slides E detector rest slide_detections ai_count
      else
        sd <- lift (empty_slide_detection detector st) ;;
        detect_slides E detector rest (slide_detections ++ [sd]) ai_count
  end.

(** [detect_pptx], from the parsed upload on. *)
Definition detect_pptx (E : Env) (filename : string) (prs : Presentation)
    : M PresentationDetection :=
  let slides_text := PPTAnalyzer.extract_text_from_pptx prs in
  detector <- get_detector E None ;;
  out <- detect_slides E detector slides_text [] 0%Z ;;
  let '(slide_detections, ai_count) := out in
  let n := Z.of_nat (length slides_text) in
  lift (new_PresentationDetection filename n ai_count (n - ai_count)%Z slide_detections).

(** The loop of step 1 of [modify_pptx], from a given state of
    [replacements]. *)
Fixpoint collect_replacements (E : Env) (detector : AIDetector)
    (confidence_threshold : float) (slides_text : list SlideText)
    (replacements : list Replacement) : M (list Replacement) :=
  match slides_text with
  | [] => ret replacements
  | st :: rest =>
      if negb (PPTAnalyzer.nonblank (text st)) then
        collect_replacements E detector confidence_threshold rest replacements
      else
        detection <- detect E detector (text st) ;;
        if is_ai_generated detection
           && PrimFloat.leb confidence_threshold (confidence detection)
        then
          let new_text := ContentGenerator.generate (text st) in
          collect_replacements E detector confidence_threshold rest
            (replacements ++ [mkReplacement (slide_number st) (text st) new_text])
        else
          collect_replacements E detector confidence_threshold rest replacements
  end.

(** The list [replacements] step 1 builds; none when the step is skipped. *)
Definition created_replacements (E : Env) (prs : Presentation)
    (replace_ai_content : bool) (confidence_threshold : float)
    : M (list Replacement) :=
  if replace_ai_content then
    let slides_text := PPTAnalyzer.extract_text_from_pptx prs in
    detector <- get_detector E None ;;
    collect_replacements E detector confidence_threshold slides_text []
  else ret [].

(** The [StyleConfig] step 2 builds. *)
Definition style_config_of (font_name text_color : option string) : StyleConfig :=
  let color_scheme :=
    if PyStr.truthy_opt text_color then Some (mkColorScheme text_color None) else None in
  mkStyleConfig font_name None color_scheme.

(** Step 2: style changes, if requested. *)
Definition style_step (font_name text_color : option string) (prs : Presentation)
    : result Presentation :=
  if PyStr.truthy_opt font_name || PyStr.truthy_opt text_color then
    match PPTStyles.modify_styles (style_config_of font_name text_color) prs with
    | (prs', None) => Ok prs'
    | (_, Some e) => Raise e
    end
  else Ok prs.

(** [modify_pptx], from the parsed upload to the document that is saved. *)
Definition modify_pptx (E : Env) (prs : Presentation) (replace_ai_content : bool)
    (font_name text_color : option string) (confidence_threshold : float)
    : M Presentation :=
  prs1 <- (if replace_ai_content then
             let slides_text := PPTAnalyzer.extract_text_from_pptx prs in
             detector <- get_detector E None ;;
             replacements <-
               collect_replacements E detector confidence_threshold slides_text [] ;;
             match replacements with
             | [] => ret prs
             | _ :: _ => ret (PPTModifier.replace_content prs replacements)
             end
           else ret prs) ;;
  lift (style_step font_name text_color prs1).

End Routes.

(* ===================================================================== *)
(** ** Measures used in the statements, and sample inputs *)
(* ===================================================================== *)

Module Samples.
Import Pptx Models Detector.

(** How many runs have another text after an operation than before. *)
Definition changed_runs (before after : list Run) : nat :=
  length (filter (fun ab => negb (String.eqb (run_text (fst ab)) (run_text (snd ab))))
                 (combine before after)).

(** How many entries of a per-slide list are detected as AI. *)
Definition count_ai (l : list SlideDetection) : Z :=
  Z.of_nat (length (filter (fun sd => is_ai_generated (detection sd)) l)).

(** What a visit of [_replace_text_in_frame] leaves of a run. *)
Definition replaced_run (old new : string) (r : Run) : Run :=
  if PyStr.contains old (run_text r)
  then set_text r (PyStr.replace old new (run_text r))
  else r.

(** What a visit of [_apply_styles_to_frame] leaves of a run. *)
Definition styled_run (cfg : StyleConfig) (r : Run) : Run :=
  fst (PPTStyles.apply_styles_to_run cfg r).

(** The detection reported for an empty slide. *)
Definition placeholder (detector : AIDetector) : DetectionResult :=
  mkDetectionResult false 0.0%float "Human" (self_model_name detector).

(** The entry [sd] of the per-slide list is the one of the slide text [st]. *)
Definition slide_entry (E : Env) (detector : AIDetector)
    (st : SlideText) (sd : SlideDetection) : Prop :=
  sd_slide_number sd = slide_number st
  /\ if PPTAnalyzer.nonblank (text st)
     then sd_text sd = text st
          /\ forall w, fst (detect E detector (text st) w) = Ok (detection sd)
     else sd_text sd = "" /\ detection sd = placeholder detector.


(** The characters [int(s, 16)] can accept in a string of one or two
    characters: hexadecimal digits, a sign, white space. *)
Definition int16_accepts (c : ascii) : bool :=
  PyInt.is_hex_digit c || PyInt.int_space c || Ascii.eqb c "+" || Ascii.eqb c "-".

(** The colour step of the configuration cannot raise: no colour is
    asked for, or the one asked for converts. *)
Definition color_applies (cfg : StyleConfig) : bool :=
  match PPTStyles.requested_color cfg with
  | Some tc =>
      match bind (PPTStyles._hex_to_rgb tc) PPTStyles.RGBColor with
      | Ok _ => true
      | Raise _ => false
      end
  | None => true
  end.


(** What [modify_styles] may change of a run, and what it may not: the
    text, bold and italic stay, and so does each attribute whose field of
    the configuration is null. *)
Definition style_untouched (cfg : StyleConfig) (r r' : Run) : Prop :=
  run_text r' = run_text r
  /\ font_bold (run_font r') = font_bold (run_font r)
  /\ font_italic (run_font r') = font_italic (run_font r)
  /\ (Models.font_name cfg = None ->
      Pptx.font_name (run_font r') = Pptx.font_name (run_font r))
  /\ (Models.font_size cfg = None ->
      Pptx.font_size (run_font r') = Pptx.font_size (run_font r))
  /\ (color_scheme cfg = None ->
      font_color (run_font r') = font_color (run_font r))
  /\ (forall cs, color_scheme cfg = Some cs -> text_color cs = None ->
      font_color (run_font r') = font_color (run_font r)).

(** The value of a hexadecimal digit, and of two of them. *)
Definition hex_digit (c : ascii) : Z :=
  match PyInt.hex_value c with Some v => v | None => 0%Z end.

Definition hex_byte (c1 c2 : ascii) : Z := (16 * hex_digit c1 + hex_digit c2)%Z.

Definition is_value_error (r : result Z) : bool :=
  match r with Raise ValueError => true | _ => false end.

(** Checks on [int(s, 16)] for the strings of one and of two characters. *)
Definition pair_hex_ok (c1 c2 : ascii) : bool :=
  if PyInt.is_hex_digit c1 && PyInt.is_hex_digit c2 then
    match PyInt.int16 (String c1 (String c2 EmptyString)) with
    | Ok v => (v =? hex_byte c1 c2)%Z && (0 <=? v)%Z && (v <=? 255)%Z
    | Raise _ => false
    end
  else true.

Definition pair_bad_ok (c1 c2 : ascii) : bool :=
  if int16_accepts c1 && int16_accepts c2 then true
  else is_value_error (PyInt.int16 (String c1 (String c2 EmptyString))).

Definition single_bad_ok (c : ascii) : bool :=
  if int16_accepts c then true
  else is_value_error (PyInt.int16 (String c EmptyString)).

(** The 256 characters. *)
Definition all_ascii : list ascii := map ascii_of_nat (seq 0 256).

Definition plain : Font := mkFont None None None None NoColor.

Definition titled : Font := mkFont (Some "Calibri") (Some (Pt 18)) (Some true) None (Theme 1).

Definition text_shape (rs : list Run) : Shape :=
  mkShape (Some (mkTextFrame [mkParagraph rs])) None None.

Definition table_shape (rs : list Run) : Shape :=
  mkShape None (Some (mkTable [mkRow [mkCell (Some (mkTextFrame [mkParagraph rs]))]])) None.

(** One slide, one text frame, two runs that both contain "AI". *)
Definition two_run_deck : Presentation :=
  mkPresentation
    [mkSlide [text_shape [mkRun "AI text" plain; mkRun "more AI text" titled]]].

(** Three slides: a sentence, an empty slide, a table cell. *)
Definition three_slide_deck : Presentation :=
  mkPresentation
    [ mkSlide [text_shape [mkRun "In order to utilize the system" titled]];
      mkSlide [text_shape [mkRun "   " plain]];
      mkSlide [table_shape [mkRun "written by hand" plain]] ].

(** A classifier that finds every text containing "utilize" AI-generated
    (0.875) and every other text human (0.125); every model loads. *)
Definition keyword_env : Env :=
  mkEnv "roberta-base-openai-detector"
        (fun _ => true)
        (fun _ t => if PyStr.contains "utilize" t then 0.875%float else 0.125%float).


Definition arial_red : StyleConfig :=
  mkStyleConfig (Some "Arial") None (Some (mkColorScheme (Some "#FF0000") None)).

End Samples.

(* ===================================================================== *)
(** ** More of Python: [str.split], [str.lower], [pathlib] *)
(* ===================================================================== *)

Module PyText.

(** The scan of [s.split(sep)] for a one-character [sep]: [cur] is the
    piece being read, in reverse. *)
Fixpoint split_from (sep : ascii) (cur : string) (s : string) : list string :=
  match s with
  | EmptyString => [PyStr.reverse cur]
  | String c s' =>
      if Ascii.eqb c sep
      then PyStr.reverse cur :: split_from sep EmptyString s'
      else split_from sep (String c cur) s'
  end.

(** [s.split(sep)] for a one-character [sep]. *)
Definition split (sep : ascii) (s : string) : list string :=
  split_from sep EmptyString s.

(** [str.lower] on one character. *)
Definition lower_char (c : ascii) : ascii :=
  let n := nat_of_ascii c in
  if ((65 <=? n)%nat && (n <=? 90)%nat)
     || ((192 <=? n)%nat && (n <=? 214)%nat)
     || ((216 <=? n)%nat && (n <=? 222)%nat)
  then ascii_of_nat (n + 32) else c.

(** [s.lower()] *)
Fixpoint lower (s : string) : string :=
  match s with
  | EmptyString => EmptyString
  | String c s' => String (lower_char c) (lower s')
  end.

(** [x in l] for a list of strings. *)
Definition mem (x : string) (l : list string) : bool :=
  existsb (String.eqb x) l.

(** The position of the last [ch] in [s], counted from [i]. *)
Fixpoint rfind_from (ch : ascii) (i : nat) (s : string) : option nat :=
  match s with
  | EmptyString => None
  | String c s' =>
      match rfind_from ch (S i) s' with
      | Some j => Some j
      | None => if Ascii.eqb c ch then Some i else None
      end
  end.

(** [s.rfind(ch)], nothing for -1. *)
Definition rfind (ch : ascii) (s : string) : option nat := rfind_from ch 0 s.

(** [PurePosixPath(p).name]: the last component that is neither empty nor
    ".". *)
Definition path_name (p : string) : string :=
  last (filter (fun x => PyStr.truthy x && negb (String.eqb x "."))
               (split "/" p))
       EmptyString.

(** [PurePosixPath(p).suffix] *)
Definition path_suffix (p : string) : string :=
  let name := path_name p in
  match rfind "." name with
  | Some i =>
      if ((0 <? i)%nat && (i <? String.length name - 1)%nat)
      then String.substring i (String.length name - i) name
      else EmptyString
  | None => EmptyString
  end.

End PyText.

(* ===================================================================== *)
(** ** utils/config.py, utils/validators.py, utils/file_handler.py *)
(* ===================================================================== *)

Module Validators.

(** The settings the validators read. *)
Record Settings : Type := mkSettings {
  max_upload_size_mb : Z;
  allowed_ppt_extensions : string
}.

(** The defaults of [Settings]. *)
Definition default_settings : Settings := mkSettings 10 ".pptx,.ppt".

Definition max_upload_size_bytes (s : Settings) : Z :=
  (max_upload_size_mb s * 1024 * 1024)%Z.

Definition allowed_extensions_list (s : Settings) : list string :=
  map PyStr.strip (PyText.split "," (allowed_ppt_extensions s)).

Definition validate_file_size (s : Settings) (file_size : Z) : result unit :=
  if (file_size >? max_upload_size_bytes s)%Z
  then Raise InputValidationError
  else Ok tt.

Definition validate_pptx_file (s : Settings) (filename : string) (file_size : Z)
    : result unit :=
  let ext := PyText.lower (PyText.path_suffix filename) in
  if negb (PyText.mem ext (allowed_extensions_list s))
  then Raise InputValidationError
  else validate_file_size s file_size.

(** [file_handler.validate_file_extension] *)
Definition validate_file_extension (s : Settings) (filename : string) : bool :=
  let ext := PyText.lower (PyText.path_suffix filename) in
  PyText.mem ext (allowed_extensions_list s).

Definition validate_text_input (text : string) (min_length max_length : Z)
    : result unit :=
  if negb (PyStr.truthy text) || negb (PyStr.truthy (PyStr.strip text))
  then Raise InputValidationError
  else
    let text_length := Z.of_nat (String.length (PyStr.strip text)) in
    if (text_length <? min_length)%Z then Raise InputValidationError
    else if (text_length >? max_length)%Z then Raise InputValidationError
    else Ok tt.

End Validators.

(* ===================================================================== *)
(** ** core/ai_detector.py: [detect_batch]; api/routes/detection.py: [detect_text] *)
(* ===================================================================== *)

Module TextDetection.
Import Models Detector.

(** The loop of [detect_batch], from a given state of [results]. *)
Fixpoint detect_batch_from (E : Env) (self : AIDetector) (texts : list string)
    (results : list DetectionResult) : M (list DetectionResult) :=
  match texts with
  | [] => ret results
  | text :: rest =>
      result <- detect E self text ;;
      detect_batch_from E self rest (results ++ [result])
  end.

(** [AIDetector.detect_batch] *)
Definition detect_batch (E : Env) (self : AIDetector) (texts : list string)
    : M (list DetectionResult) :=
  detect_batch_from E self texts [].

(** What a route answers: its value, or an [HTTPException]. *)
Inductive http (A : Type) : Type :=
| Response (a : A)
| HTTPException (status_code : Z).

Arguments Response {A} a.
Arguments HTTPException {A} status_code.

(** [TextDetectionRequest] *)
Record TextDetectionRequest : Type := mkTextDetectionRequest {
  request_text : string;
  request_model : option string
}.

(** The two [except] clauses of a route. *)
Definition handle {A : Type} (r : result A) : http A :=
  match r with
  | Ok a => Response a
  | Raise InputValidationError => HTTPException 400
  | Raise _ => HTTPException 500
  end.

(** [detect_text] *)
Definition detect_text (E : Env) (request : TextDetectionRequest)
    : World -> http DetectionResult * World :=
  fun w =>
    let '(r, w') :=
      (_ <- lift (Validators.validate_text_input (request_text request) 10 100000) ;;
       detector <- get_detector E (request_model request) ;;
       detect E detector (request_text request)) w in
    (handle r, w').

End TextDetection.

(* ===================================================================== *)
(** ** utils/file_handler.py and the two document routes, from the upload on *)
(* ===================================================================== *)

Module Uploads.
Import Pptx Models Detector TextDetection.

(** What lies outside the repository: the path [generate_temp_filename]
    makes of its n-th uuid and an extension, the parser behind
    [Presentation(path)] (nothing when it raises) and the serializer behind
    [presentation.save] (nothing when it raises, no file being written
    then). *)
Record Files : Type := mkFiles {
  temp_name : nat -> string -> string;
  parse : string -> option Presentation;
  serialize : Presentation -> option string
}.

(** The files of the temporary directory, each with its content. *)
Definition Disk : Type := list (string * string).

Definition delete (path : string) (d : Disk) : Disk :=
  filter (fun entry => negb (String.eqb (fst entry) path)) d.

Definition write (path content : string) (d : Disk) : Disk :=
  (path, content) :: delete path d.

Definition read (path : string) (d : Disk) : option string :=
  option_map snd (find (fun entry => String.eqb (fst entry) path) d).

(** The server: the process state, the disk, the uuids drawn so far. *)
Record Server : Type := mkServer {
  process : World;
  disk : Disk;
  issued : nat
}.

(** [file.filename or default] *)
Definition filename_or (filename : option string) (default : string) : string :=
  match filename with
  | Some n => if PyStr.truthy n then n else default
  | None => default
  end.

(** [generate_temp_filename] *)
Definition generate_temp_filename (F : Files) (extension : string) (s : Server)
    : string * Server :=
  (temp_name F (issued s) extension,
   mkServer (process s) (disk s) (S (issued s))).

(** [save_uploaded_file] *)
Definition save_uploaded_file (F : Files) (file_content original_filename : string)
    (s : Server) : string * Server :=
  let ext := PyText.path_suffix original_filename in
  let '(temp_path, s) := generate_temp_filename F ext s in
  (temp_path, mkServer (process s) (write temp_path file_content (disk s)) (issued s)).

(** [cleanup_file] *)
Definition cleanup_file (file_path : string) (s : Server) : Server :=
  mkServer (process s) (delete file_path (disk s)) (issued s).

(** The [finally] clause: [if temp_path: cleanup_file(temp_path)]. *)
Definition finally_cleanup (temp_path : string) (s : Server) : Server :=
  if PyStr.truthy temp_path then cleanup_file temp_path s else s.

(** [Presentation(path)] *)
Definition open_presentation (F : Files) (path : string) (s : Server)
    : result Presentation :=
  match read path (disk s) with
  | Some content =>
      match parse F content with
      | Some prs => Ok prs
      | None => Raise OSError
      end
  | None => Raise OSError
  end.

(** [detect_pptx], the whole route. *)
Definition detect_pptx (F : Files) (E : Env) (S : Validators.Settings)
    (filename : option string) (file_content : string) (s : Server)
    : http PresentationDetection * Server :=
  match Validators.validate_pptx_file S (filename_or filename "unknown.pptx")
          (Z.of_nat (String.length file_content)) with
  | Raise e => (handle (Raise e), s)
  | Ok _ =>
      let '(temp_path, s) :=
        save_uploaded_file F file_content (filename_or filename "upload.pptx") s in
      let '(r, s) :=
        match open_presentation F temp_path s with
        | Raise e => (Raise e, s)
        | Ok prs =>
            let '(r, w) :=
              Routes.detect_pptx E (filename_or filename "unknown.pptx") prs
                                 (process s) in
            (r, mkServer w (disk s) (issued s))
        end in
      (handle r, finally_cleanup temp_path s)
  end.

(** [FileResponse(path, filename=...)] *)
Record FileResponse : Type := mkFileResponse {
  response_path : string;
  response_filename : string
}.

(** [modify_pptx], the whole route. *)
Definition modify_pptx (F : Files) (E : Env) (S : Validators.Settings)
    (filename : option string) (file_content : string)
    (replace_ai_content : bool) (font_name text_color : option string)
    (confidence_threshold : float) (s : Server)
    : http FileResponse * Server :=
  match Validators.validate_pptx_file S (filename_or filename "unknown.pptx")
          (Z.of_nat (String.length file_content)) with
  | Raise e => (handle (Raise e), s)
  | Ok _ =>
      let '(temp_input, s) :=
        save_uploaded_file F file_content (filename_or filename "upload.pptx") s in
      let '(r, s) :=
        match open_presentation F temp_input s with
        | Raise e => (Raise e, s)
        | Ok prs =>
            let '(r, w) :=
              Routes.modify_pptx E prs replace_ai_content font_name text_color
                                 confidence_threshold (process s) in
            let s := mkServer w (disk s) (issued s) in
            match r with
            | Raise e => (Raise e, s)
            | Ok out =>
                let '(temp_output, s) := generate_temp_filename F ".pptx" s in
                match serialize F out with
                | None => (Raise OSError, s)
                | Some bytes =>
                    (Ok (mkFileResponse temp_output
                           ("modified_" ++ filename_or filename "presentation.pptx")),
                     mkServer (process s) (write temp_output bytes (disk s)) (issued s))
                end
            end
        end in
      (handle r, finally_cleanup temp_input s)
  end.

End Uploads.

(* ===================================================================== *)
(** ** Notions used in the further statements *)
(* ===================================================================== *)

Module Notions.
Import Pptx Models Detector.

(** The list with its first element, if any, replaced by its image. *)
Definition touch_first {A : Type} (f : A -> A) (l : list A) : list A :=
  match l with
  | [] => []
  | x :: xs => f x :: xs
  end.

(** The runs of the text frames of the direct shapes of a document: the
    ones whose walk an exception of [modify_styles] escapes from. *)
Definition text_frame_runs (prs : Presentation) : list Run :=
  flat_map (fun slide =>
              flat_map (fun sh => opt_frame_runs (shape_text_frame sh))
                       (slide_shapes slide))
           (slides prs).

(** What [_apply_styles_to_frame] does to a run before the colour step. *)
Definition font_steps (cfg : StyleConfig) (r : Run) : Run :=
  PPTStyles.apply_font_size cfg (PPTStyles.apply_font_name cfg r).

(** The run [r'] is [r] with every override of the configuration on it:
    the text kept, the font name, the size and the colour as asked. *)
Definition styled_as (cfg : StyleConfig) (r r' : Run) : Prop :=
  run_text r' = run_text r
  /\ (forall n, Models.font_name cfg = Some n -> PyStr.truthy n = true ->
        Pptx.font_name (run_font r') = Some n)
  /\ (forall z, Models.font_size cfg = Some z -> z <> 0%Z ->
        Pptx.font_size (run_font r') = Some (Pt z))
  /\ (forall tc cr cg cb,
        PPTStyles.requested_color cfg = Some tc ->
        bind (PPTStyles._hex_to_rgb tc) PPTStyles.RGBColor = Ok (cr, cg, cb) ->
        font_color (run_font r') = RGB cr cg cb).

(** A font name with a colour word that is no hex colour. *)
Definition arial_crimson : StyleConfig :=
  mkStyleConfig (Some "Arial") None (Some (mkColorScheme (Some "crimson") None)).

(** A table of two cells, one run each, and a deck holding it after a
    text frame of two runs. *)
Definition two_cell_table : Table :=
  mkTable [mkRow [mkCell (Some (mkTextFrame [mkParagraph [mkRun "a" Samples.plain]]));
                  mkCell (Some (mkTextFrame [mkParagraph [mkRun "b" Samples.plain]]))]].

Definition frame_and_table_deck : Presentation :=
  mkPresentation
    [mkSlide [mkShape None (Some two_cell_table) None;
              Samples.text_shape [mkRun "c" Samples.plain; mkRun "d" Samples.plain]]].

(** The shapes grouped in the shapes of each slide. *)
Definition grouped (prs : Presentation) : list (list (option (list Shape))) :=
  map (fun s => map shape_shapes (slide_shapes s)) (slides prs).

(** The result [detect] builds from the classifier's value. *)
Definition verdict (E : Env) (self : AIDetector) (text : string) : DetectionResult :=
  let p := ai_probability E (self_model_name self) text in
  mkDetectionResult (PrimFloat.ltb 0.5%float p) p
                    (if PrimFloat.ltb 0.5%float p then "AI" else "Human")
                    (self_model_name self).

(** The classifier's value for a text is a probability. *)
Definition probable (E : Env) (self : AIDetector) (text : string) : bool :=
  in_unit_interval (ai_probability E (self_model_name self) text).

(** A server that has drawn no uuid and holds no file, and an outside
    world whose n-th path is made of the digit n, in which every upload
    parses to the same three slides and every document saves. *)
Definition empty_server : Uploads.Server := Uploads.mkServer fresh [] 0.

Definition sample_files : Uploads.Files :=
  Uploads.mkFiles
    (fun n ext => ("/tmp/post-automation/" ++ String (ascii_of_nat (48 + n)) ext)%string)
    (fun _ => Some Samples.three_slide_deck)
    (fun _ => Some "PK").

(** A replacement aims at a slide of the document. *)
Definition in_range (prs : Presentation) (r : Replacement) : bool :=
  ((0 <=? slide_num r) && (slide_num r <? Z.of_nat (length (slides prs))))%Z.

(** The first request of a sequence whose model loads. *)
Definition first_loadable (E : Env) (requests : list (option string))
    : option string :=
  find (from_pretrained E) (map (name_or_default E) requests).

(** The requests up to and including the first whose model loads. *)
Fixpoint failed_before (E : Env) (requests : list (option string)) : nat :=
  match requests with
  | [] => 0
  | m :: rest =>
      if from_pretrained E (name_or_default E m) then 0
      else S (failed_before E rest)
  end.

(** A text some character of which is no white space. *)
Fixpoint has_ink (s : string) : bool :=
  match s with
  | EmptyString => false
  | String c s' => negb (PyStr.isspace c) || has_ink s'
  end.

(** [phrase] occurs in [s], ignoring case. *)
Fixpoint contains_ci (phrase s : string) : bool :=
  PyRe.prefix_ci phrase s
  || match s with
     | EmptyString => false
     | String _ s' => contains_ci phrase s'
     end.

(** The literals without which no rule of the rewriter can match: the
    phrases of the table, and one of each clean-up pattern. *)
Definition triggers : list string :=
  map fst ContentGenerator.word_replacements ++ ["that"; "is being"; "very"].

End Notions.

(* ===================================================================== *)
(** * Properties *)
(* ===================================================================== *)

(** ** Lists and strings *)

Section ListFacts.
Context {A B : Type}.

Lemma flat_map_map_commute (f : B -> B) (h : A -> A) (g : A -> list B) :
  (forall x, g (h x) = map f (g x)) ->
  forall l, flat_map g (map h l) = map f (flat_map g l).
Proof.
  intros Hg l. induction l as [|x l IH]; simpl.
  - reflexivity.
  - rewrite Hg, IH, map_app. reflexivity.
Qed.

Lemma nth_error_alter_nth_eq (f : A -> A) (l : list A) :
  forall i x, nth_error l i = Some x ->
  nth_error (alter_nth f i l) i = Some (f x).
Proof.
  induction l as [|y l IH]; intros [|i] x H; simpl in *; try discriminate.
  - congruence.
  - apply IH. assumption.
Qed.

Lemma nth_error_alter_nth_ne (f : A -> A) (l : list A) :
  forall i j, i <> j -> nth_error (alter_nth f i l) j = nth_error l j.
Proof.
  induction l as [|y l IH]; intros [|i] [|j] H; simpl; try reflexivity.
  - contradiction.
  - apply IH. congruence.
Qed.

Lemma length_alter_nth (f : A -> A) (l : list A) :
  forall i, length (alter_nth f i l) = length l.
Proof.
  induction l as [|y l IH]; intros [|i]; simpl; try reflexivity.
  rewrite IH. reflexivity.
Qed.

End ListFacts.

Section StringFacts.

Lemma prefix_empty (s : string) : String.prefix "" s = true.
Proof. destruct s; reflexivity. Qed.

Lemma contains_empty (s : string) : PyStr.contains "" s = true.
Proof. destruct s; reflexivity. Qed.

Lemma replace_from_absent (old new : string) :
  forall s, PyStr.contains old s = false -> PyStr.replace_from old new 0 s = s.
Proof.
  induction s as [|c s IH]; intros H.
  - reflexivity.
  - cbn [PyStr.contains] in H. apply orb_false_iff in H as [Hp Hc].
    cbn [PyStr.replace_from]. rewrite Hp, (IH Hc). reflexivity.
Qed.

(** [s.replace(old, new)] is [s] when [old] does not occur in [s]. *)
Lemma replace_absent (old new s : string) :
  PyStr.contains old s = false -> PyStr.replace old new s = s.
Proof.
  destruct old as [|a old].
  - rewrite contains_empty. discriminate.
  - apply replace_from_absent.
Qed.

End StringFacts.

(** ** Content replacement *)

Section Replacement.
Import Pptx Models PPTModifier.

(** Snapshot and restore give the run its own font back. *)
Lemma replace_in_run_keeps_font (old new : string) (r : Run) :
  replace_in_run old new r = Samples.replaced_run old new r.
Proof.
  unfold replace_in_run, Samples.replaced_run.
  destruct (PyStr.contains old (run_text r)); [|reflexivity].
  destruct r as [t [n sz b i c]]; cbn.
  destruct n as [[|? ?]|]; destruct sz as [sz|];
    try destruct (sz =? 0)%Z; destruct b, i, c; reflexivity.
Qed.

Lemma frame_runs_replace (old new : string) (tf : TextFrame) :
  frame_runs (_replace_text_in_frame old new tf)
  = map (replace_in_run old new) (frame_runs tf).
Proof.
  unfold frame_runs, _replace_text_in_frame. cbn [paragraphs].
  apply flat_map_map_commute. reflexivity.
Qed.

Lemma opt_frame_runs_replace (old new : string) (o : option TextFrame) :
  opt_frame_runs (option_map (_replace_text_in_frame old new) o)
  = map (replace_in_run old new) (opt_frame_runs o).
Proof.
  destruct o; simpl; [apply frame_runs_replace | reflexivity].
Qed.

Lemma table_runs_replace (old new : string) (tb : Table) :
  table_runs (_replace_text_in_table old new tb)
  = map (replace_in_run old new) (table_runs tb).
Proof.
  unfold table_runs, _replace_text_in_table. cbn [rows].
  apply flat_map_map_commute. intros row. cbn [cells].
  apply flat_map_map_commute. intros cell. cbn [cell_text_frame].
  apply opt_frame_runs_replace.
Qed.

Lemma shape_runs_replace (old new : string) (s : Shape) :
  shape_runs (replace_in_shape old new s)
  = map (replace_in_run old new) (shape_runs s).
Proof.
  unfold shape_runs, replace_in_shape. cbn [shape_text_frame shape_table].
  rewrite map_app, opt_frame_runs_replace.
  destruct (shape_table s); simpl; [rewrite table_runs_replace|]; reflexivity.
Qed.

Lemma slide_runs_replace (old new : string) (s : Slide) :
  slide_runs (replace_in_shapes old new s)
  = map (replace_in_run old new) (slide_runs s).
Proof.
  unfold slide_runs, replace_in_shapes. cbn [slide_shapes].
  apply flat_map_map_commute. apply shape_runs_replace.
Qed.

Lemma py_index_in_range {X : Type} (l : list X) (n : nat) :
  (n < length l)%nat -> py_index l (Z.of_nat n) = Some n.
Proof.
  intros H. unfold py_index.
  destruct (Z.leb_spec 0 (Z.of_nat n)); [|lia].
  destruct (Z.ltb_spec (Z.of_nat n) (Z.of_nat (length l))); [|lia].
  rewrite Nat2Z.id. reflexivity.
Qed.

Lemma replace_in_slide_in_range (prs : Presentation) (n : nat) (old new : string) :
  (n < length (slides prs))%nat ->
  _replace_in_slide prs (Z.of_nat n) old new
  = Ok (mkPresentation (alter_nth (replace_in_shapes old new) n (slides prs))).
Proof.
  intros H. unfold _replace_in_slide.
  destruct (Z.geb_spec (Z.of_nat n) (Z.of_nat (length (slides prs)))); [lia|].
  rewrite (py_index_in_range _ _ H). reflexivity.
Qed.

(** C1, as the code has it: on the target slide every run of a text frame
    or table cell of the slide's shapes whose text contains [old_text] has
    every occurrence replaced (its font kept), every run whose text does
    not contain it is left as it is, nested shapes and the other slides
    are not touched. *)
Theorem replace_in_slide_every_matching_run
    (prs : Presentation) (n : nat) (old new : string) (slide : Slide) :
  nth_error (slides prs) n = Some slide ->
  exists prs' slide',
    _replace_in_slide prs (Z.of_nat n) old new = Ok prs'
    /\ nth_error (slides prs') n = Some slide'
    /\ slide_runs slide' = map (Samples.replaced_run old new) (slide_runs slide)
    /\ (forall r, PyStr.contains old (run_text r) = true ->
          run_text (Samples.replaced_run old new r) = PyStr.replace old new (run_text r)
          /\ run_font (Samples.replaced_run old new r) = run_font r)
    /\ (forall r, PyStr.contains old (run_text r) = false ->
          Samples.replaced_run old new r = r)
    /\ map shape_shapes (slide_shapes slide') = map shape_shapes (slide_shapes slide)
    /\ (forall m, m <> n -> nth_error (slides prs') m = nth_error (slides prs) m).
Proof.
  intros Hn.
  assert (Hlt : (n < length (slides prs))%nat).
  { apply nth_error_Some. congruence. }
  exists (mkPresentation (alter_nth (replace_in_shapes old new) n (slides prs))).
  exists (replace_in_shapes old new slide).
  split; [apply replace_in_slide_in_range; assumption|].
  split; [cbn [slides]; apply nth_error_alter_nth_eq; assumption|].
  split.
  { rewrite slide_runs_replace. apply map_ext. apply replace_in_run_keeps_font. }
  split.
  { intros r Hr. unfold Samples.replaced_run. rewrite Hr. split; reflexivity. }
  split.
  { intros r Hr. unfold Samples.replaced_run. rewrite Hr. reflexivity. }
  split.
  { unfold replace_in_shapes. cbn [slide_shapes]. rewrite map_map.
    apply map_ext. intros s. reflexivity. }
  intros m Hm. cbn [slides]. apply nth_error_alter_nth_ne. congruence.
Qed.

Lemma replace_in_slide_every_matching_run_witness :
  nth_error (slides Samples.two_run_deck) 0
  = Some (mkSlide [Samples.text_shape [mkRun "AI text" Samples.plain;
                                       mkRun "more AI text" Samples.titled]])
  /\ exists prs' slide',
       _replace_in_slide Samples.two_run_deck (Z.of_nat 0) "more" "less" = Ok prs'
       /\ nth_error (slides prs') 0 = Some slide'
       /\ map run_text (slide_runs slide') = ["AI text"; "less AI text"].
Proof.
  split; [reflexivity|].
  destruct (replace_in_slide_every_matching_run
              Samples.two_run_deck 0 "more" "less" _ eq_refl)
    as (prs' & slide' & H1 & H2 & H3 & _).
  exists prs', slide'. split; [exact H1|]. split; [exact H2|].
  rewrite H3. reflexivity.
Defined.

(** C1 as stated fails: both runs of the slide contain "AI" and both are
    rewritten, the second as well as the first. *)
Lemma replace_in_slide_changes_two_runs :
  exists prs',
    _replace_in_slide Samples.two_run_deck 0 "AI" "plain" = Ok prs'
    /\ map run_text (presentation_runs prs') = ["plain text"; "more plain text"]
    /\ Samples.changed_runs (presentation_runs Samples.two_run_deck)
                            (presentation_runs prs') = 2%nat
    /\ ~ (Samples.changed_runs (presentation_runs Samples.two_run_deck)
                               (presentation_runs prs') <= 1)%nat.
Proof.
  eexists. split; [reflexivity|]. split; [reflexivity|].
  split; [reflexivity|]. vm_compute. lia.
Qed.

(** C3: a replacement whose slide index is past the last slide raises
    nothing and leaves the document as it is. *)
Theorem replace_out_of_range_is_noop (prs : Presentation) (r : Replacement) :
  Replacement_valid r ->
  py_index (slides prs) (slide_num r) = None ->
  _replace_in_slide prs (slide_num r) (old_text r) (new_text r) = Ok prs
  /\ replace_content prs [r] = prs
  /\ forall rest, replace_content prs (r :: rest) = replace_content prs rest.
Proof.
  unfold Replacement_valid. intros Hv Hout.
  assert (Hge : (slide_num r >=? Z.of_nat (length (slides prs)))%Z = true).
  { unfold py_index in Hout.
    destruct (Z.leb_spec 0 (slide_num r)); [|lia].
    destruct (Z.ltb_spec (slide_num r) (Z.of_nat (length (slides prs))));
      [discriminate|].
    apply Z.geb_le. lia. }
  assert (H1 : _replace_in_slide prs (slide_num r) (old_text r) (new_text r) = Ok prs).
  { unfold _replace_in_slide. rewrite Hge. reflexivity. }
  split; [exact H1|]. split.
  - cbn [replace_content]. rewrite H1. reflexivity.
  - intros rest. cbn [replace_content]. rewrite H1. reflexivity.
Qed.

Lemma replace_out_of_range_is_noop_witness :
  Replacement_valid (mkReplacement 7 "AI" "plain")
  /\ py_index (slides Samples.two_run_deck) 7 = None
  /\ replace_content Samples.two_run_deck [mkReplacement 7 "AI" "plain"]
     = Samples.two_run_deck.
Proof.
  assert (Hv : Replacement_valid (mkReplacement 7 "AI" "plain")).
  { unfold Replacement_valid. simpl. lia. }
  split; [exact Hv|]. split; [reflexivity|].
  exact (proj1 (proj2 (replace_out_of_range_is_noop
                         Samples.two_run_deck (mkReplacement 7 "AI" "plain")
                         Hv eq_refl))).
Defined.

End Replacement.

(** ** The rule-based rewriter *)

Section Rewriter.
Import ContentGenerator.

(** The table is applied in its listed order, then the clean-up. *)
Lemma generate_unfold (text : string) :
  generate text
  = _simplify_sentences (fold_left replace_phrase word_replacements text).
Proof. reflexivity. Qed.

(** C4: the sample sentence is rewritten to a text that contains the
    expected phrase. *)
Theorem generate_sample_sentence :
  generate "In order to utilize the system, prior to deployment, one must conduct an investigation,"
  = "to use the system, before deployment, one must investigate,"
  /\ PyStr.contains "to use the system, before deployment, one must investigate"
       (generate "In order to utilize the system, prior to deployment, one must conduct an investigation,")
     = true
  /\ fold_left replace_phrase word_replacements
       "In order to utilize the system, prior to deployment, one must conduct an investigation,"
     = "to use the system, before deployment, one must investigate,".
Proof.
  split; [vm_compute; reflexivity|].
  split; vm_compute; reflexivity.
Qed.

End Rewriter.

(** ** The detector *)

Section DetectorFacts.
Import Models Detector.
Variable E : Env.

(** The run of the classifier never fails and only extends the trace. *)
Lemma detect_unfold (self : AIDetector) (text : string) (w : World) :
  detect E self text w
  = (new_DetectionResult
       (PrimFloat.ltb 0.5%float (ai_probability E (self_model_name self) text))
       (ai_probability E (self_model_name self) text)
       (if PrimFloat.ltb 0.5%float (ai_probability E (self_model_name self) text)
        then "AI" else "Human")
       (self_model_name self),
     mkWorld (_detector_instance w) (loads w) (inferences w ++ [text])).
Proof.
  unfold detect, bindM, run_model, lift.
  destruct (new_DetectionResult _ _ _ _); reflexivity.
Qed.

(** C5: the result [detect] returns has a confidence in [0,1], is flagged
    AI exactly when the confidence exceeds 0.5, and is labelled
    accordingly; it returns one whenever the classifier's probability lies
    in [0,1], and otherwise the result model refuses the value. *)
Theorem detect_confidence_and_label
    (self : AIDetector) (text : string) (w : World) :
  (10 <= String.length text)%nat ->
  (forall r, fst (detect E self text w) = Ok r ->
     in_unit_interval (confidence r) = true
     /\ confidence r = ai_probability E (self_model_name self) text
     /\ is_ai_generated r = PrimFloat.ltb 0.5%float (confidence r)
     /\ (label r = "AI" <-> is_ai_generated r = true)
     /\ (label r = "Human" <-> is_ai_generated r = false)
     /\ model_name r = self_model_name self)
  /\ (in_unit_interval (ai_probability E (self_model_name self) text) = true ->
      exists r, fst (detect E self text w) = Ok r)
  /\ (in_unit_interval (ai_probability E (self_model_name self) text) = false ->
      fst (detect E self text w) = Raise ValidationError).
Proof.
  intros _. rewrite detect_unfold. cbn [fst]. unfold new_DetectionResult.
  set (p := ai_probability E (self_model_name self) text).
  destruct (in_unit_interval p) eqn:Hp.
  - split; [|split; [eauto | discriminate]].
    intros r Hr. injection Hr as <-. cbn.
    split; [exact Hp|]. split; [reflexivity|]. split; [reflexivity|].
    destruct (PrimFloat.ltb 0.5%float p); repeat split; intros; congruence.
  - split; [discriminate|]. split; [discriminate | reflexivity].
Qed.

End DetectorFacts.

Lemma detect_confidence_and_label_witness :
  (10 <= String.length "Please utilize the form.")%nat
  /\ exists r,
       fst (Detector.detect Samples.keyword_env (Detector.mkAIDetector "m")
              "Please utilize the form." Detector.fresh) = Ok r
       /\ Models.is_ai_generated r = true
       /\ Models.label r = "AI".
Proof.
  assert (Hlen : (10 <= String.length "Please utilize the form.")%nat).
  { vm_compute. repeat constructor. }
  split; [exact Hlen|].
  destruct (detect_confidence_and_label Samples.keyword_env
              (Detector.mkAIDetector "m") "Please utilize the form."
              Detector.fresh Hlen) as (Hsound & Hret & _).
  destruct (Hret eq_refl) as [r Hr].
  exists r. split; [exact Hr|].
  pose proof (Hsound r Hr) as (_ & Hc & Hai & Hl & _).
  assert (Hai' : Models.is_ai_generated r = true).
  { rewrite Hai, Hc. reflexivity. }
  split; [exact Hai'|]. apply Hl. exact Hai'.
Defined.

(** ** The shared detector *)

Section SharedDetector.
Import Models Detector.
Variable E : Env.

Lemma get_detector_existing (d : AIDetector) (m : option string) (w : World) :
  _detector_instance w = Some d -> get_detector E m w = (Ok d, w).
Proof. intros H. unfold get_detector. rewrite H. reflexivity. Qed.

Lemma get_detectors_existing (d : AIDetector) (requests : list (option string)) :
  forall w, _detector_instance w = Some d ->
  get_detectors E requests w = (map (fun _ => Ok d) requests, w).
Proof.
  induction requests as [|m rest IH]; intros w H; simpl.
  - reflexivity.
  - rewrite (get_detector_existing d m w H), (IH w H). reflexivity.
Qed.

Lemma get_detector_first (m : option string) (w : World) :
  _detector_instance w = None ->
  from_pretrained E (name_or_default E m) = true ->
  get_detector E m w
  = (Ok (mkAIDetector (name_or_default E m)),
     mkWorld (Some (mkAIDetector (name_or_default E m)))
             (loads w ++ [name_or_default E m]) (inferences w)).
Proof.
  intros Hnone Hload. unfold get_detector, new_AIDetector.
  rewrite Hnone, Hload. reflexivity.
Qed.

(** A load that fails leaves no instance behind. *)
Lemma get_detector_load_fails (m : option string) (w : World) :
  _detector_instance w = None ->
  from_pretrained E (name_or_default E m) = false ->
  get_detector E m w = (Raise OSError, w).
Proof.
  intros Hnone Hload. unfold get_detector, new_AIDetector.
  rewrite Hnone, Hload. reflexivity.
Qed.

(** C2, as the code has it: the detector is one shared instance, not keyed.
    The first call loads the model it names (the configured one when it
    names none), once; every later call, whatever identifier it asks for,
    returns that same instance and loads nothing. *)
Theorem get_detector_single_instance
    (m : option string) (requests : list (option string)) (w : World) :
  _detector_instance w = None ->
  from_pretrained E (name_or_default E m) = true ->
  get_detectors E (m :: requests) w
  = (Ok (mkAIDetector (name_or_default E m))
       :: map (fun _ => Ok (mkAIDetector (name_or_default E m))) requests,
     mkWorld (Some (mkAIDetector (name_or_default E m)))
             (loads w ++ [name_or_default E m]) (inferences w)).
Proof.
  intros Hnone Hload. cbn [get_detectors].
  rewrite (get_detector_first m w Hnone Hload).
  rewrite (get_detectors_existing (mkAIDetector (name_or_default E m)) requests);
    reflexivity.
Qed.

End SharedDetector.

Lemma get_detector_single_instance_witness :
  Detector._detector_instance Detector.fresh = None
  /\ Detector.from_pretrained Samples.keyword_env
       (Detector.name_or_default Samples.keyword_env None) = true
  /\ Detector.get_detectors Samples.keyword_env
       [None; Some "roberta-base-openai-detector"; None] Detector.fresh
     = ([Ok (Detector.mkAIDetector "roberta-base-openai-detector");
         Ok (Detector.mkAIDetector "roberta-base-openai-detector");
         Ok (Detector.mkAIDetector "roberta-base-openai-detector")],
        Detector.mkWorld
          (Some (Detector.mkAIDetector "roberta-base-openai-detector"))
          ["roberta-base-openai-detector"] []).
Proof.
  split; [reflexivity|]. split; [reflexivity|].
  exact (get_detector_single_instance Samples.keyword_env None
           [Some "roberta-base-openai-detector"; None] Detector.fresh
           eq_refl eq_refl).
Defined.

(** C2 as stated fails: after a call for "model-a", a call for "model-b"
    gets the instance of "model-a", and "model-b" is never loaded. *)
Lemma get_detector_ignores_second_identifier :
  exists d w',
    Detector.get_detectors Samples.keyword_env
      [Some "model-a"; Some "model-b"] Detector.fresh
    = ([Ok (Detector.mkAIDetector "model-a"); Ok d], w')
    /\ Detector.self_model_name d = "model-a"
    /\ Detector.self_model_name d <> "model-b"
    /\ Detector.loads w' = ["model-a"]
    /\ ~ In "model-b" (Detector.loads w').
Proof.
  eexists. eexists. split; [reflexivity|].
  split; [reflexivity|]. split; [discriminate|]. split; [reflexivity|].
  simpl. intros [H|[]]. discriminate.
Qed.

(** ** Detection by document *)

Section DocumentDetection.
Import Models Detector Routes.
Variable E : Env.

Lemma Forall2_nth_error {X Y : Type} (R : X -> Y -> Prop) (l : list X) (l' : list Y) :
  Forall2 R l l' ->
  forall i x, nth_error l i = Some x -> exists y, nth_error l' i = Some y /\ R x y.
Proof.
  induction 1 as [|a b l l' Hab _ IH]; intros [|i] x Hx; simpl in *; try discriminate.
  - injection Hx as <-. eauto.
  - eauto.
Qed.

Lemma count_ai_cons (sd : SlideDetection) (l : list SlideDetection) :
  Samples.count_ai (sd :: l)
  = ((if is_ai_generated (detection sd) then 1 else 0) + Samples.count_ai l)%Z.
Proof.
  unfold Samples.count_ai. cbn [filter].
  destruct (is_ai_generated (detection sd)); cbn [length]; lia.
Qed.

Lemma count_ai_bounds (l : list SlideDetection) :
  (0 <= Samples.count_ai l <= Z.of_nat (length l))%Z.
Proof.
  unfold Samples.count_ai.
  pose proof (filter_length_le (fun sd => is_ai_generated (detection sd)) l). lia.
Qed.

Lemma length_extract_from (l : list Pptx.Slide) :
  forall i, length (PPTAnalyzer.extract_from i l) = length l.
Proof.
  induction l as [|s l IH]; intros i; simpl; [reflexivity|].
  rewrite IH. reflexivity.
Qed.

Lemma empty_slide_detection_ok (d : AIDetector) (st : SlideText) :
  empty_slide_detection d st
  = Ok (mkSlideDetection (slide_number st) "" (Samples.placeholder d)).
Proof. reflexivity. Qed.

(** The loop, when it ends normally: one entry per slide text, in order. *)
Lemma detect_slides_ok (d : AIDetector) :
  forall sts acc ai w sds ai' w',
    detect_slides E d sts acc ai w = (Ok (sds, ai'), w') ->
    exists new,
      sds = acc ++ new
      /\ Forall2 (Samples.slide_entry E d) sts new
      /\ ai' = (ai + Samples.count_ai new)%Z
      /\ inferences w' = inferences w ++ filter PPTAnalyzer.nonblank (map text sts)
      /\ loads w' = loads w
      /\ _detector_instance w' = _detector_instance w.
Proof.
  induction sts as [|st rest IH]; intros acc ai w sds ai' w' H.
  - cbn in H. injection H as <- <- <-. exists [].
    rewrite !app_nil_r. repeat split; try reflexivity; [constructor|].
    unfold Samples.count_ai. cbn. lia.
  - cbn [detect_slides] in H.
    destruct (PPTAnalyzer.nonblank (text st)) eqn:Hnb.
    + unfold bindM in H. rewrite detect_unfold in H.
      destruct (new_DetectionResult _ _ _ _) as [det|e] eqn:Hd; [|discriminate].
      apply IH in H. destruct H as (new & -> & HF & -> & Hinf & Hl & Hi).
      exists (mkSlideDetection (slide_number st) (text st) det :: new).
      split; [rewrite <- app_assoc; reflexivity|].
      split.
      { constructor; [|exact HF]. unfold Samples.slide_entry.
        cbn [sd_slide_number sd_text detection]. rewrite Hnb.
        split; [reflexivity|]. split; [reflexivity|].
        intros w0. rewrite detect_unfold. exact Hd. }
      split.
      { rewrite count_ai_cons. cbn [detection].
        destruct (is_ai_generated det); lia. }
      cbn [inferences loads _detector_instance] in Hinf, Hl, Hi.
      cbn [map filter]. rewrite Hnb, Hinf, <- app_assoc.
      repeat split; assumption.
    + unfold bindM, lift in H. rewrite empty_slide_detection_ok in H.
      apply IH in H. destruct H as (new & -> & HF & -> & Hinf & Hl & Hi).
      exists (mkSlideDetection (slide_number st) "" (Samples.placeholder d) :: new).
      split; [rewrite <- app_assoc; reflexivity|].
      split.
      { constructor; [|exact HF]. unfold Samples.slide_entry.
        cbn [sd_slide_number sd_text detection]. rewrite Hnb. repeat split. }
      split.
      { rewrite count_ai_cons. cbn. lia. }
      cbn [map filter]. rewrite Hnb. repeat split; assumption.
Qed.

(** The loop, however it ends: the classifier ran on non-empty texts only. *)
Lemma detect_slides_trace (d : AIDetector) :
  forall sts acc ai w,
    exists l,
      inferences (snd (detect_slides E d sts acc ai w)) = inferences w ++ l
      /\ Forall (fun t => PPTAnalyzer.nonblank t = true) l.
Proof.
  induction sts as [|st rest IH]; intros acc ai w.
  - exists []. cbn. rewrite app_nil_r. split; constructor.
  - cbn [detect_slides].
    destruct (PPTAnalyzer.nonblank (text st)) eqn:Hnb.
    + unfold bindM. rewrite detect_unfold.
      destruct (new_DetectionResult _ _ _ _) as [det|e].
      * match goal with
        | |- context [detect_slides E d rest ?a ?c ?v] =>
            destruct (IH a c v) as (l & Hl & HF)
        end.
        exists (text st :: l). rewrite Hl. cbn [inferences].
        rewrite <- app_assoc. split; [reflexivity|]. constructor; assumption.
      * exists [text st]. cbn. split; [reflexivity|]. repeat constructor. exact Hnb.
    + unfold bindM, lift. rewrite empty_slide_detection_ok. apply IH.
Qed.

(** The loop ends normally when the classifier gives probabilities. *)
Lemma detect_slides_returns (d : AIDetector) :
  forall sts acc ai w,
    (forall st, In st sts -> PPTAnalyzer.nonblank (text st) = true ->
       in_unit_interval (ai_probability E (self_model_name d) (text st)) = true) ->
    exists out, fst (detect_slides E d sts acc ai w) = Ok out.
Proof.
  induction sts as [|st rest IH]; intros acc ai w Hp.
  - cbn. eauto.
  - cbn [detect_slides].
    destruct (PPTAnalyzer.nonblank (text st)) eqn:Hnb.
    + unfold bindM. rewrite detect_unfold. unfold new_DetectionResult.
      rewrite (Hp st (or_introl eq_refl) Hnb).
      apply IH. intros st' Hin. apply Hp. right. exact Hin.
    + unfold bindM, lift. rewrite empty_slide_detection_ok.
      apply IH. intros st' Hin. apply Hp. right. exact Hin.
Qed.

Lemma get_detector_inferences (m : option string) (w : World) :
  inferences (snd (get_detector E m w)) = inferences w.
Proof.
  unfold get_detector, new_AIDetector.
  destruct (_detector_instance w); [reflexivity|].
  destruct (from_pretrained E (name_or_default E m)); reflexivity.
Qed.

(** [detect_pptx] through its two steps. *)
Lemma detect_pptx_ok (filename : string) (prs : Pptx.Presentation) (w : World)
    (r : PresentationDetection) :
  fst (detect_pptx E filename prs w) = Ok r ->
  exists d w1 new w2,
    get_detector E None w = (Ok d, w1)
    /\ detect_slides E d (PPTAnalyzer.extract_text_from_pptx prs) [] 0%Z w1
       = (Ok (new, Samples.count_ai new), w2)
    /\ Forall2 (Samples.slide_entry E d) (PPTAnalyzer.extract_text_from_pptx prs) new
    /\ r = mkPresentationDetection filename
             (Z.of_nat (length (PPTAnalyzer.extract_text_from_pptx prs)))
             (Samples.count_ai new)
             (Z.of_nat (length (PPTAnalyzer.extract_text_from_pptx prs))
              - Samples.count_ai new)%Z
             new.
Proof.
  unfold detect_pptx, bindM. intros H.
  destruct (get_detector E None w) as [[d|e] w1] eqn:Hg; [|discriminate].
  destruct (detect_slides E d _ [] 0%Z w1) as [[[sds ai]|e] w2] eqn:Hs;
    [|discriminate].
  destruct (detect_slides_ok d _ _ _ _ _ _ _ Hs) as (new & -> & HF & -> & _).
  cbn [app] in *. rewrite Z.add_0_l in *.
  unfold lift, new_PresentationDetection in H. cbn [fst] in H.
  destruct (_ && _)%bool; [|discriminate].
  injection H as <-.
  exists d, w1, new, w2. repeat split; assumption.
Qed.

(** C6: the classifier never runs on an empty slide, and such a slide is
    reported as not AI, with confidence 0.0 and label "Human". *)
Theorem detect_pptx_empty_slides
    (filename : string) (prs : Pptx.Presentation) (w : World) :
  (exists l,
     inferences (snd (detect_pptx E filename prs w)) = inferences w ++ l
     /\ Forall (fun t => PPTAnalyzer.nonblank t = true) l)
  /\ (forall r, fst (detect_pptx E filename prs w) = Ok r ->
      forall i st,
        nth_error (PPTAnalyzer.extract_text_from_pptx prs) i = Some st ->
        PPTAnalyzer.nonblank (text st) = false ->
        exists sd,
          nth_error (pd_slides r) i = Some sd
          /\ sd_slide_number sd = slide_number st
          /\ is_ai_generated (detection sd) = false
          /\ confidence (detection sd) = 0.0%float
          /\ label (detection sd) = "Human").
Proof.
  split.
  - unfold detect_pptx, bindM.
    pose proof (get_detector_inferences None w) as Hg.
    destruct (get_detector E None w) as [[d|e] w1]; cbn [snd] in Hg.
    + destruct (detect_slides_trace d (PPTAnalyzer.extract_text_from_pptx prs)
                  [] 0%Z w1) as (l & Hl & HF).
      exists l. split; [|exact HF]. rewrite <- Hg, <- Hl.
      destruct (detect_slides E d _ [] 0%Z w1) as [[[sds ai]|e] w2];
        unfold lift; reflexivity.
    + exists []. rewrite app_nil_r. split; [exact Hg | constructor].
  - intros r Hr i st Hi Hblank.
    destruct (detect_pptx_ok _ _ _ _ Hr) as (d & w1 & new & w2 & _ & _ & HF & ->).
    destruct (Forall2_nth_error _ _ _ HF i st Hi) as (sd & Hsd & Hentry).
    exists sd. cbn [pd_slides]. split; [exact Hsd|].
    unfold Samples.slide_entry in Hentry. rewrite Hblank in Hentry.
    destruct Hentry as (Hnum & _ & Hdet). rewrite Hdet.
    repeat split. exact Hnum.
Qed.

(** C9: the counts of a detection result add up, the per-slide list has
    one entry per slide, and [ai_slides] counts the entries flagged AI; a
    result is produced whenever the detector is there and the classifier
    gives probabilities. *)
Theorem detect_pptx_counts
    (filename : string) (prs : Pptx.Presentation) (w : World) :
  (forall r, fst (detect_pptx E filename prs w) = Ok r ->
     (ai_slides r + human_slides r = total_slides r)%Z
     /\ Z.of_nat (length (pd_slides r)) = total_slides r
     /\ ai_slides r = Samples.count_ai (pd_slides r)
     /\ total_slides r = Z.of_nat (length (Pptx.slides prs)))
  /\ ((exists d,
         fst (get_detector E None w) = Ok d
         /\ forall st, In st (PPTAnalyzer.extract_text_from_pptx prs) ->
              PPTAnalyzer.nonblank (text st) = true ->
              in_unit_interval (ai_probability E (self_model_name d) (text st)) = true) ->
      exists r, fst (detect_pptx E filename prs w) = Ok r).
Proof.
  split.
  - intros r Hr.
    destruct (detect_pptx_ok _ _ _ _ Hr) as (d & w1 & new & w2 & _ & _ & HF & ->).
    cbn [ai_slides human_slides total_slides pd_slides].
    apply Forall2_length in HF.
    unfold PPTAnalyzer.extract_text_from_pptx in *.
    rewrite length_extract_from in *.
    repeat split; lia.
  - intros (d & Hd & Hp). unfold detect_pptx, bindM.
    destruct (get_detector E None w) as [[d0|e] w1]; cbn [fst] in Hd;
      [|discriminate].
    injection Hd as ->.
    destruct (detect_slides_returns d _ [] 0%Z w1 Hp) as [[sds ai] Hout].
    destruct (detect_slides E d _ [] 0%Z w1) as [[[sds' ai']|e] w2] eqn:Hs;
      cbn [fst] in Hout; [|discriminate].
    injection Hout as -> ->.
    destruct (detect_slides_ok d _ _ _ _ _ _ _ Hs) as (new & -> & HF & -> & _).
    apply Forall2_length in HF. pose proof (count_ai_bounds new) as Hb.
    unfold lift, new_PresentationDetection. cbn [app fst].
    match goal with
    | |- context [if ?c then _ else _] =>
        assert (Hc : c = true); [|rewrite Hc; eauto]
    end.
    rewrite !andb_true_iff, !Z.leb_le. lia.
Qed.

End DocumentDetection.

(** ** Style overrides *)

Section LoopFacts.
Context {A : Type}.
Variable body : A -> A * option exn.

(** Running a loop again over what it left does the same again, when its
    body does. *)
Lemma for_each_idem :
  (forall x, body (fst (body x)) = body x) ->
  forall l, PPTStyles.for_each body (fst (PPTStyles.for_each body l))
            = PPTStyles.for_each body l.
Proof.
  intros Hb l. induction l as [|x l IH]; cbn [PPTStyles.for_each].
  - reflexivity.
  - pose proof (Hb x) as Hx.
    destruct (body x) as [x' [e|]] eqn:Ex; cbn [fst] in Hx.
    + cbn [fst PPTStyles.for_each]. rewrite Hx. reflexivity.
    + destruct (PPTStyles.for_each body l) as [l' r] eqn:El.
      cbn [fst] in IH |- *. cbn [PPTStyles.for_each]. rewrite Hx, IH. reflexivity.
Qed.

Lemma for_each_no_raise :
  (forall x, snd (body x) = None) ->
  forall l, snd (PPTStyles.for_each body l) = None.
Proof.
  intros Hb l. induction l as [|x l IH]; cbn [PPTStyles.for_each].
  - reflexivity.
  - pose proof (Hb x) as Hx. destruct (body x) as [x' [e|]]; [discriminate|].
    destruct (PPTStyles.for_each body l) as [l' r]. exact IH.
Qed.

(** What a loop leaves is related to what it found, element by element:
    by the body where it went, by nothing having happened where it did not
    get. *)
Lemma for_each_rel (R : A -> A -> Prop) :
  (forall x, R x (fst (body x))) ->
  (forall x, R x x) \/ (forall x, snd (body x) = None) ->
  forall l, Forall2 R l (fst (PPTStyles.for_each body l)).
Proof.
  intros Hstep Hskip l. induction l as [|x l IH]; cbn [PPTStyles.for_each].
  - constructor.
  - pose proof (Hstep x) as Hx.
    destruct (body x) as [x' [e|]] eqn:Ex; cbn [fst] in Hx.
    + destruct Hskip as [Hrefl|Hnone].
      * cbn [fst]. constructor; [exact Hx|].
        clear IH. induction l; constructor; auto.
      * specialize (Hnone x). rewrite Ex in Hnone. discriminate.
    + destruct (PPTStyles.for_each body l) as [l' r].
      cbn [fst] in *. constructor; assumption.
Qed.

End LoopFacts.

Section NestedLoopFacts.
Context {A B : Type}.
Variable children : A -> list B.
Variable rebuild : list B -> A.
Variable body : B -> B * option exn.
Hypothesis children_rebuild : forall l, children (rebuild l) = l.

Lemma for_each_in_idem :
  (forall x, body (fst (body x)) = body x) ->
  forall a,
    PPTStyles.for_each_in children rebuild body
      (fst (PPTStyles.for_each_in children rebuild body a))
    = PPTStyles.for_each_in children rebuild body a.
Proof.
  intros Hb a. unfold PPTStyles.for_each_in.
  pose proof (for_each_idem body Hb (children a)) as H.
  destruct (PPTStyles.for_each body (children a)) as [l r].
  cbn [fst] in *. rewrite children_rebuild, H. reflexivity.
Qed.

Lemma for_each_in_no_raise :
  (forall x, snd (body x) = None) ->
  forall a, snd (PPTStyles.for_each_in children rebuild body a) = None.
Proof.
  intros Hb a. unfold PPTStyles.for_each_in.
  pose proof (for_each_no_raise body Hb (children a)) as H.
  destruct (PPTStyles.for_each body (children a)) as [l r]. exact H.
Qed.

Lemma for_each_in_rel (R : B -> B -> Prop) :
  (forall x, R x (fst (body x))) ->
  (forall x, R x x) \/ (forall x, snd (body x) = None) ->
  forall a,
    Forall2 R (children a)
            (children (fst (PPTStyles.for_each_in children rebuild body a))).
Proof.
  intros Hstep Hskip a. unfold PPTStyles.for_each_in.
  pose proof (for_each_rel body R Hstep Hskip (children a)) as H.
  destruct (PPTStyles.for_each body (children a)) as [l r].
  cbn [fst] in *. rewrite children_rebuild. exact H.
Qed.

End NestedLoopFacts.

Lemma Forall2_flat_map {X Y : Type} (R : Y -> Y -> Prop) (g : X -> list Y)
    (l l' : list X) :
  Forall2 (fun a a' => Forall2 R (g a) (g a')) l l' ->
  Forall2 R (flat_map g l) (flat_map g l').
Proof.
  induction 1; cbn [flat_map]; [constructor|].
  apply Forall2_app; assumption.
Qed.

Lemma Forall2_same {X : Type} (R : X -> X -> Prop) :
  (forall x, R x x) -> forall l, Forall2 R l l.
Proof. intros H l. induction l; constructor; auto. Qed.


Section StyleFacts.
Import Pptx Models PPTStyles.
Variable cfg : StyleConfig.

Lemma apply_styles_to_run_idem (r : Run) :
  apply_styles_to_run cfg (fst (apply_styles_to_run cfg r))
  = apply_styles_to_run cfg r.
Proof.
  unfold apply_styles_to_run, apply_color, apply_font_size, apply_font_name.
  destruct cfg as [n sz cs]. cbn [Models.font_name Models.font_size].
  destruct (requested_color _) as [tc|];
    [destruct (bind (_hex_to_rgb tc) RGBColor) as [[[cr cg] cb]|e]|];
    destruct n as [[|? ?]|]; destruct sz as [z|];
    try destruct (z =? 0)%Z; reflexivity.
Qed.

Lemma apply_styles_to_paragraph_idem (p : Paragraph) :
  apply_styles_to_paragraph cfg (fst (apply_styles_to_paragraph cfg p))
  = apply_styles_to_paragraph cfg p.
Proof.
  apply for_each_in_idem; [reflexivity | apply apply_styles_to_run_idem].
Qed.

Lemma apply_styles_to_frame_idem (tf : TextFrame) :
  _apply_styles_to_frame cfg (fst (_apply_styles_to_frame cfg tf))
  = _apply_styles_to_frame cfg tf.
Proof.
  apply for_each_in_idem; [reflexivity | apply apply_styles_to_paragraph_idem].
Qed.

Lemma apply_styles_to_cell_idem (c : Cell) :
  apply_styles_to_cell cfg (fst (apply_styles_to_cell cfg c))
  = apply_styles_to_cell cfg c.
Proof.
  unfold apply_styles_to_cell. destruct c as [[tf|]]; cbn [cell_text_frame].
  - pose proof (apply_styles_to_frame_idem tf) as H.
    destruct (_apply_styles_to_frame cfg tf) as [tf' r].
    cbn [fst cell_text_frame] in *. rewrite H. reflexivity.
  - reflexivity.
Qed.

Lemma apply_styles_to_row_idem (row : Row) :
  apply_styles_to_row cfg (fst (apply_styles_to_row cfg row))
  = apply_styles_to_row cfg row.
Proof.
  apply for_each_in_idem; [reflexivity | apply apply_styles_to_cell_idem].
Qed.

Lemma apply_styles_to_table_idem (tb : Table) :
  _apply_styles_to_table cfg (_apply_styles_to_table cfg tb)
  = _apply_styles_to_table cfg tb.
Proof.
  unfold _apply_styles_to_table.
  rewrite (for_each_in_idem rows mkTable (apply_styles_to_row cfg));
    [reflexivity | reflexivity | apply apply_styles_to_row_idem].
Qed.

Lemma apply_styles_to_shape_idem (s : Shape) :
  apply_styles_to_shape cfg (fst (apply_styles_to_shape cfg s))
  = apply_styles_to_shape cfg s.
Proof.
  unfold apply_styles_to_shape. destruct s as [[tf|] tb sub];
    cbn [shape_text_frame shape_table shape_shapes].
  - pose proof (apply_styles_to_frame_idem tf) as H.
    destruct (_apply_styles_to_frame cfg tf) as [tf' [e|]];
      cbn [fst shape_text_frame shape_table shape_shapes] in *; rewrite H.
    + reflexivity.
    + destruct tb as [tb|]; cbn [option_map];
        [rewrite apply_styles_to_table_idem|]; reflexivity.
  - cbn [fst shape_text_frame shape_table shape_shapes].
    destruct tb as [tb|]; cbn [option_map];
      [rewrite apply_styles_to_table_idem|]; reflexivity.
Qed.

Lemma apply_styles_to_slide_idem (s : Slide) :
  apply_styles_to_slide cfg (fst (apply_styles_to_slide cfg s))
  = apply_styles_to_slide cfg s.
Proof.
  apply for_each_in_idem; [reflexivity | apply apply_styles_to_shape_idem].
Qed.

Lemma modify_styles_idem (prs : Presentation) :
  modify_styles cfg (fst (modify_styles cfg prs)) = modify_styles cfg prs.
Proof.
  apply for_each_in_idem; [reflexivity | apply apply_styles_to_slide_idem].
Qed.

End StyleFacts.

Section StyleRelation.
Import Pptx Models PPTStyles.
Variable cfg : StyleConfig.

Lemma apply_styles_to_run_no_raise :
  Samples.color_applies cfg = true ->
  forall r, snd (apply_styles_to_run cfg r) = None.
Proof.
  unfold Samples.color_applies, apply_styles_to_run, apply_color. intros H r.
  destruct (requested_color cfg) as [tc|]; [|reflexivity].
  destruct (bind (_hex_to_rgb tc) RGBColor); [reflexivity | discriminate].
Qed.

Lemma apply_styles_to_paragraph_no_raise :
  Samples.color_applies cfg = true ->
  forall p, snd (apply_styles_to_paragraph cfg p) = None.
Proof.
  intros H p. apply for_each_in_no_raise. apply apply_styles_to_run_no_raise, H.
Qed.

Lemma apply_styles_to_frame_no_raise :
  Samples.color_applies cfg = true ->
  forall tf, snd (_apply_styles_to_frame cfg tf) = None.
Proof.
  intros H tf. apply for_each_in_no_raise.
  apply apply_styles_to_paragraph_no_raise, H.
Qed.

Lemma apply_styles_to_shape_no_raise :
  Samples.color_applies cfg = true ->
  forall s, snd (apply_styles_to_shape cfg s) = None.
Proof.
  intros H s. unfold apply_styles_to_shape.
  destruct (shape_text_frame s) as [tf|]; [|reflexivity].
  pose proof (apply_styles_to_frame_no_raise H tf) as Hf.
  destruct (_apply_styles_to_frame cfg tf) as [tf' [e|]];
    [discriminate | reflexivity].
Qed.

Lemma modify_styles_no_raise :
  Samples.color_applies cfg = true ->
  forall prs, snd (modify_styles cfg prs) = None.
Proof.
  intros H prs. apply for_each_in_no_raise. intros s.
  apply for_each_in_no_raise. apply apply_styles_to_shape_no_raise, H.
Qed.

(** A relation between a run before and after: it holds across a visit,
    and either across no visit or every run is visited. *)
Variable R : Run -> Run -> Prop.
Hypothesis R_step : forall r, R r (Samples.styled_run cfg r).
Hypothesis R_skip : (forall r, R r r) \/ Samples.color_applies cfg = true.

Lemma paragraph_rel (p : Paragraph) :
  Forall2 R (runs p) (runs (fst (apply_styles_to_paragraph cfg p))).
Proof.
  apply for_each_in_rel; [reflexivity | exact R_step |].
  destruct R_skip as [Hr|Hc]; [left; exact Hr | right].
  apply apply_styles_to_run_no_raise, Hc.
Qed.

Lemma frame_rel (tf : TextFrame) :
  Forall2 R (frame_runs tf) (frame_runs (fst (_apply_styles_to_frame cfg tf))).
Proof.
  unfold frame_runs. apply Forall2_flat_map.
  apply (for_each_in_rel paragraphs mkTextFrame (apply_styles_to_paragraph cfg)
           (fun _ => eq_refl) (fun p p' => Forall2 R (runs p) (runs p'))).
  - exact paragraph_rel.
  - destruct R_skip as [Hr|Hc].
    + left. intros p. apply Forall2_same, Hr.
    + right. apply apply_styles_to_paragraph_no_raise, Hc.
Qed.

Lemma cell_rel (c : Cell) :
  Forall2 R (opt_frame_runs (cell_text_frame c))
          (opt_frame_runs (cell_text_frame (fst (apply_styles_to_cell cfg c)))).
Proof.
  unfold apply_styles_to_cell. destruct c as [[tf|]]; cbn [cell_text_frame].
  - pose proof (frame_rel tf) as H.
    destruct (_apply_styles_to_frame cfg tf) as [tf' r]. exact H.
  - constructor.
Qed.

Lemma cell_skip :
  (forall c : Cell, Forall2 R (opt_frame_runs (cell_text_frame c))
                            (opt_frame_runs (cell_text_frame c)))
  \/ (forall c, snd (apply_styles_to_cell cfg c) = None).
Proof.
  destruct R_skip as [Hr|Hc].
  - left. intros c. apply Forall2_same, Hr.
  - right. intros [[tf|]]; unfold apply_styles_to_cell; cbn [cell_text_frame];
      [|reflexivity].
    pose proof (apply_styles_to_frame_no_raise Hc tf) as H.
    destruct (_apply_styles_to_frame cfg tf) as [tf' r]. exact H.
Qed.

Lemma table_rel (tb : Table) :
  Forall2 R (table_runs tb) (table_runs (_apply_styles_to_table cfg tb)).
Proof.
  unfold table_runs, _apply_styles_to_table. apply Forall2_flat_map.
  apply (for_each_in_rel rows mkTable (apply_styles_to_row cfg) (fun _ => eq_refl)
           (fun r r' =>
              Forall2 R
                (flat_map (fun c => opt_frame_runs (cell_text_frame c)) (cells r))
                (flat_map (fun c => opt_frame_runs (cell_text_frame c)) (cells r')))).
  - intros row. apply Forall2_flat_map.
    apply (for_each_in_rel cells mkRow (apply_styles_to_cell cfg) (fun _ => eq_refl)
             (fun c c' => Forall2 R (opt_frame_runs (cell_text_frame c))
                                    (opt_frame_runs (cell_text_frame c')))).
    + exact cell_rel.
    + exact cell_skip.
  - destruct cell_skip as [Hr|Hn].
    + left. intros row. apply Forall2_flat_map, Forall2_same, Hr.
    + right. intros row. apply for_each_in_no_raise, Hn.
Qed.

Lemma opt_table_rel (o : option Table) :
  Forall2 R (opt_table_runs o)
          (opt_table_runs (option_map (_apply_styles_to_table cfg) o)).
Proof.
  destruct o as [tb|]; cbn [option_map opt_table_runs];
    [apply table_rel | constructor].
Qed.

Lemma shape_rel (s : Shape) :
  Forall2 R (shape_runs s) (shape_runs (fst (apply_styles_to_shape cfg s))).
Proof.
  unfold shape_runs, apply_styles_to_shape. destruct s as [[tf|] tb sub];
    cbn [shape_text_frame shape_table shape_shapes].
  - pose proof (frame_rel tf) as H.
    pose proof (fun Hc => apply_styles_to_frame_no_raise Hc tf) as Hn.
    destruct (_apply_styles_to_frame cfg tf) as [tf' [e|]];
      cbn [fst snd shape_text_frame shape_table opt_frame_runs] in *;
      apply Forall2_app; try exact H.
    + destruct R_skip as [Hr|Hc]; [apply Forall2_same, Hr|].
      specialize (Hn Hc). discriminate.
    + apply opt_table_rel.
  - cbn [fst shape_text_frame shape_table opt_frame_runs app].
    apply opt_table_rel.
Qed.

Lemma slide_rel (s : Slide) :
  Forall2 R (slide_runs s) (slide_runs (fst (apply_styles_to_slide cfg s))).
Proof.
  unfold slide_runs. apply Forall2_flat_map.
  apply (for_each_in_rel slide_shapes mkSlide (apply_styles_to_shape cfg)
           (fun _ => eq_refl) (fun a a' => Forall2 R (shape_runs a) (shape_runs a'))).
  - exact shape_rel.
  - destruct R_skip as [Hr|Hc].
    + left. intros a. apply Forall2_same, Hr.
    + right. apply apply_styles_to_shape_no_raise, Hc.
Qed.

(** Across [modify_styles], run by run. *)
Lemma modify_styles_rel (prs : Presentation) :
  Forall2 R (presentation_runs prs)
          (presentation_runs (fst (modify_styles cfg prs))).
Proof.
  unfold presentation_runs. apply Forall2_flat_map.
  apply (for_each_in_rel slides mkPresentation (apply_styles_to_slide cfg)
           (fun _ => eq_refl) (fun a a' => Forall2 R (slide_runs a) (slide_runs a'))).
  - exact slide_rel.
  - destruct R_skip as [Hr|Hc].
    + left. intros a. apply Forall2_same, Hr.
    + right. intros a. apply for_each_in_no_raise.
      apply apply_styles_to_shape_no_raise, Hc.
Qed.

End StyleRelation.

Section StyleOverride.
Import Pptx Models PPTStyles.

Lemma styled_run_untouched (cfg : StyleConfig) (r : Run) :
  Samples.style_untouched cfg r (Samples.styled_run cfg r).
Proof.
  unfold Samples.style_untouched, Samples.styled_run, apply_styles_to_run,
    apply_color, apply_font_size, apply_font_name, requested_color.
  destruct cfg as [n sz cs]. destruct r as [t [fn fs fb fi fc]].
  cbn [Models.font_name Models.font_size color_scheme].
  destruct cs as [[tc bg]|]; cbn [text_color];
    [destruct tc as [tc|];
     [destruct (PyStr.truthy tc);
      [destruct (bind (_hex_to_rgb tc) RGBColor) as [[[cr cg] cb]|e]|]|]|];
    destruct n as [[|? ?]|]; destruct sz as [z|];
    try destruct (z =? 0)%Z; cbn;
    repeat split; try reflexivity; try discriminate;
    intros cs' Hcs Htc; injection Hcs as <-; cbn in Htc; discriminate.
Qed.

Lemma style_untouched_refl (cfg : StyleConfig) (r : Run) :
  Samples.style_untouched cfg r r.
Proof. unfold Samples.style_untouched. repeat split; reflexivity. Qed.

(** C8: applying a style override a second time changes nothing more,
    neither in the document nor in the outcome, and a field left null in
    the configuration leaves its attribute as it was on every run. *)
Theorem modify_styles_idempotent (cfg : StyleConfig) (prs : Presentation) :
  modify_styles cfg (fst (modify_styles cfg prs)) = modify_styles cfg prs
  /\ fst (modify_styles cfg (fst (modify_styles cfg prs))) = fst (modify_styles cfg prs)
  /\ Forall2 (Samples.style_untouched cfg)
             (presentation_runs prs)
             (presentation_runs (fst (modify_styles cfg prs))).
Proof.
  split; [apply modify_styles_idem|].
  split; [rewrite modify_styles_idem; reflexivity|].
  apply modify_styles_rel.
  - apply styled_run_untouched.
  - left. apply style_untouched_refl.
Qed.


End StyleOverride.

Lemma modify_styles_idempotent_witness :
  PPTStyles.modify_styles Samples.arial_red
    (fst (PPTStyles.modify_styles Samples.arial_red Samples.three_slide_deck))
  = PPTStyles.modify_styles Samples.arial_red Samples.three_slide_deck
  /\ map (fun r => Pptx.font_color (Pptx.run_font r))
         (Pptx.presentation_runs
            (fst (PPTStyles.modify_styles Samples.arial_red Samples.three_slide_deck)))
     = [Pptx.RGB 255 0 0; Pptx.RGB 255 0 0; Pptx.RGB 255 0 0].
Proof.
  split; [|reflexivity].
  exact (proj1 (modify_styles_idempotent Samples.arial_red Samples.three_slide_deck)).
Defined.

(** ** Modification by document *)

Section Modification.
Import Pptx Models Detector Routes.
Variable E : Env.





(** [modify_pptx] is step 1, then step 2 on what step 1 left. *)
Lemma modify_pptx_unfold (prs : Presentation) (flag : bool)
    (fn tc : option string) (thr : float) (w : World) :
  modify_pptx E prs flag fn tc thr w
  = match created_replacements E prs flag thr w with
    | (Ok reps, w') =>
        (style_step fn tc (PPTModifier.replace_content prs reps), w')
    | (Raise e, w') => (Raise e, w')
    end.
Proof.
  unfold modify_pptx, created_replacements, bindM, ret, lift.
  destruct flag; [|reflexivity].
  destruct (get_detector E None w) as [[d|e] w1]; [|reflexivity].
  destruct (collect_replacements E d thr _ [] w1) as [[[|r reps]|e] w2];
    reflexivity.
Qed.


End Modification.


(** ** Hex colours *)

Section HexColour.
Import Pptx Models PPTStyles.

Lemma all_ascii_complete (c : ascii) : In c Samples.all_ascii.
Proof.
  unfold Samples.all_ascii. rewrite <- (ascii_nat_embedding c).
  apply in_map, in_seq. pose proof (nat_ascii_bounded c). lia.
Qed.

Lemma forall_ascii (P : ascii -> bool) :
  forallb P Samples.all_ascii = true -> forall c, P c = true.
Proof.
  intros H c. rewrite forallb_forall in H. apply H, all_ascii_complete.
Qed.

Lemma forall_ascii_pairs (P : ascii -> ascii -> bool) :
  forallb (fun c1 => forallb (P c1) Samples.all_ascii) Samples.all_ascii = true ->
  forall c1 c2, P c1 c2 = true.
Proof.
  intros H c1 c2.
  apply (forall_ascii (P c1)). apply (forall_ascii _ H c1).
Qed.

(** Two hexadecimal digits are read as the byte they write. *)
Lemma int16_hex_pair (c1 c2 : ascii) :
  PyInt.is_hex_digit c1 = true -> PyInt.is_hex_digit c2 = true ->
  PyInt.int16 (String c1 (String c2 "")) = Ok (Samples.hex_byte c1 c2)
  /\ (0 <= Samples.hex_byte c1 c2 <= 255)%Z.
Proof.
  intros H1 H2.
  assert (H : Samples.pair_hex_ok c1 c2 = true).
  { apply forall_ascii_pairs. vm_compute. reflexivity. }
  unfold Samples.pair_hex_ok in H. rewrite H1, H2 in H. cbn [andb] in H.
  destruct (PyInt.int16 _) as [v|e]; [|discriminate].
  rewrite !andb_true_iff, Z.eqb_eq, !Z.leb_le in H.
  destruct H as [[-> ?] ?]. split; [reflexivity | lia].
Qed.

(** A character that is no digit, sign or white space spoils a string of
    one or two characters. *)
Lemma int16_bad_pair (c1 c2 : ascii) :
  Samples.int16_accepts c1 = false \/ Samples.int16_accepts c2 = false ->
  PyInt.int16 (String c1 (String c2 "")) = Raise ValueError.
Proof.
  intros Hbad.
  assert (H : Samples.pair_bad_ok c1 c2 = true).
  { apply forall_ascii_pairs. vm_compute. reflexivity. }
  unfold Samples.pair_bad_ok in H.
  assert (Hc : (Samples.int16_accepts c1 && Samples.int16_accepts c2)%bool = false).
  { apply andb_false_iff. exact Hbad. }
  rewrite Hc in H.
  destruct (PyInt.int16 _) as [v|[]]; try discriminate. reflexivity.
Qed.

Lemma int16_bad_single (c : ascii) :
  Samples.int16_accepts c = false ->
  PyInt.int16 (String c "") = Raise ValueError.
Proof.
  intros Hbad.
  assert (H : Samples.single_bad_ok c = true).
  { apply forall_ascii. vm_compute. reflexivity. }
  unfold Samples.single_bad_ok in H. rewrite Hbad in H.
  destruct (PyInt.int16 _) as [v|[]]; try discriminate. reflexivity.
Qed.

(** [int(s, 16)] raises nothing but [ValueError]. *)
Lemma digits16_exn (s : string) :
  forall st acc e, PyInt.digits16 st acc s = Raise e -> e = ValueError.
Proof.
  induction s as [|c s IH]; intros st acc e; cbn [PyInt.digits16].
  - destruct st; congruence.
  - destruct (PyInt.hex_value c); [apply IH|].
    destruct (Ascii.eqb c "_"); [|congruence].
    destruct st; try congruence. apply IH.
Qed.

Lemma unsigned16_exn (s : string) (e : exn) :
  PyInt.unsigned16 s = Raise e -> e = ValueError.
Proof.
  unfold PyInt.unsigned16.
  repeat match goal with
         | |- context [match ?x with _ => _ end] => destruct x
         end; apply digits16_exn.
Qed.

Lemma int16_exn (s : string) (e : exn) :
  PyInt.int16 s = Raise e -> e = ValueError.
Proof.
  unfold PyInt.int16.
  destruct (PyStr.rstrip_with _ _) as [|c s'].
  - apply unsigned16_exn.
  - destruct c as [[|] [|] [|] [|] [|] [|] [|] [|]];
      first
        [ apply unsigned16_exn
        | unfold bind; destruct (PyInt.unsigned16 s') eqn:Hu;
          [ discriminate
          | intros H; injection H as <-; exact (unsigned16_exn _ _ Hu) ] ].
Qed.

(** A pair that cannot be read makes the conversion raise. *)
Lemma hex_to_rgb_raises (s : string) :
  let h := PyStr.lstrip_char "#" s in
  PyInt.int16 (PyStr.slice 0 2 h) = Raise ValueError
  \/ PyInt.int16 (PyStr.slice 2 4 h) = Raise ValueError
  \/ PyInt.int16 (PyStr.slice 4 6 h) = Raise ValueError ->
  _hex_to_rgb s = Raise ValueError.
Proof.
  cbv zeta. unfold _hex_to_rgb, bind. intros H.
  destruct (PyInt.int16 (PyStr.slice 0 2 _)) as [r|e] eqn:H1.
  - destruct (PyInt.int16 (PyStr.slice 2 4 _)) as [g|e] eqn:H2.
    + destruct (PyInt.int16 (PyStr.slice 4 6 _)) as [b|e] eqn:H3.
      * destruct H as [H|[H|H]]; discriminate.
      * rewrite (int16_exn _ _ H3). reflexivity.
    + rewrite (int16_exn _ _ H2). reflexivity.
  - rewrite (int16_exn _ _ H1). reflexivity.
Qed.

End HexColour.

Section HexColourPartial.
Import Pptx Models PPTStyles.

Lemma font_steps_keep_color (cfg : StyleConfig) (r : Run) :
  font_color (run_font (apply_font_size cfg (apply_font_name cfg r)))
  = font_color (run_font r).
Proof.
  unfold apply_font_size, apply_font_name.
  destruct (Models.font_name cfg) as [[|? ?]|];
    destruct (Models.font_size cfg) as [z|];
    try destruct (z =? 0)%Z; reflexivity.
Qed.

Lemma apply_styles_to_run_raises (cfg : StyleConfig) (tc : string) (r : Run) :
  requested_color cfg = Some tc ->
  _hex_to_rgb tc = Raise ValueError ->
  apply_styles_to_run cfg r
  = (apply_font_size cfg (apply_font_name cfg r), Some ValueError).
Proof.
  intros Hreq Herr. unfold apply_styles_to_run, apply_color.
  rewrite Hreq, Herr. reflexivity.
Qed.

Lemma substring_none (s : string) : String.substring 0 0 s = "".
Proof. destruct s; reflexivity. Qed.

Ltac slices :=
  unfold PyStr.slice; cbn [String.length Nat.min Nat.sub String.substring];
  rewrite ?substring_none.

(** C10, as the code has it, for colour strings of code points below 256.
    Six hexadecimal digits ("0" to "9", "a" to "f", "A" to "F") after the
    leading "#"s give their three bytes.  Fewer than five characters, or a
    character among the first six that is no hexadecimal digit, sign or
    white space, raise a ValueError; the style step then fails on a run
    and changes no colour.  (Beyond code point 255 [int(s, 16)] reads the
    other Unicode decimal digits as well, so that six fullwidth digits
    give a colour too: the third part does not extend to such strings.) *)
Theorem hex_to_rgb_partial (s : string) :
  let h := PyStr.lstrip_char "#" s in
  (forall c1 c2 c3 c4 c5 c6,
     h = String c1 (String c2 (String c3 (String c4 (String c5 (String c6 ""))))) ->
     PyInt.is_hex_digit c1 = true -> PyInt.is_hex_digit c2 = true ->
     PyInt.is_hex_digit c3 = true -> PyInt.is_hex_digit c4 = true ->
     PyInt.is_hex_digit c5 = true -> PyInt.is_hex_digit c6 = true ->
     _hex_to_rgb s
     = Ok (Samples.hex_byte c1 c2, Samples.hex_byte c3 c4, Samples.hex_byte c5 c6)
     /\ RGBColor (Samples.hex_byte c1 c2, Samples.hex_byte c3 c4, Samples.hex_byte c5 c6)
        = Ok (Samples.hex_byte c1 c2, Samples.hex_byte c3 c4, Samples.hex_byte c5 c6))
  /\ ((String.length h < 5)%nat -> _hex_to_rgb s = Raise ValueError)
  /\ (forall k c, (k < 6)%nat -> String.get k h = Some c ->
        Samples.int16_accepts c = false -> _hex_to_rgb s = Raise ValueError)
  /\ (_hex_to_rgb s = Raise ValueError ->
      forall cfg, requested_color cfg = Some s ->
        (forall r, apply_styles_to_run cfg r
                   = (apply_font_size cfg (apply_font_name cfg r), Some ValueError))
        /\ forall prs,
             Forall2 (fun r r' => font_color (run_font r') = font_color (run_font r))
                     (presentation_runs prs)
                     (presentation_runs (fst (modify_styles cfg prs)))).
Proof.
  cbv zeta. split; [|split; [|split]].
  - intros c1 c2 c3 c4 c5 c6 Hh H1 H2 H3 H4 H5 H6.
    destruct (int16_hex_pair c1 c2 H1 H2) as [E12 B12].
    destruct (int16_hex_pair c3 c4 H3 H4) as [E34 B34].
    destruct (int16_hex_pair c5 c6 H5 H6) as [E56 B56].
    split.
    + unfold _hex_to_rgb. rewrite Hh. slices.
      rewrite E12, E34, E56. reflexivity.
    + unfold RGBColor.
      assert (Hb : forall v, (0 <= v <= 255)%Z -> ((0 <=? v) && (v <=? 255))%Z = true).
      { intros v Hv. rewrite andb_true_iff, !Z.leb_le. exact Hv. }
      rewrite (Hb _ B12), (Hb _ B34), (Hb _ B56). reflexivity.
  - intros Hlen. apply hex_to_rgb_raises. cbv zeta. right. right.
    destruct (PyStr.lstrip_char "#" s) as [|c1 [|c2 [|c3 [|c4 [|c5 rest]]]]];
      cbn [String.length] in Hlen; try lia; reflexivity.
  - intros k c Hk Hget Hbad. apply hex_to_rgb_raises. cbv zeta.
    destruct (PyStr.lstrip_char "#" s) as [|c1 [|c2 [|c3 [|c4 [|c5 [|c6 rest]]]]]];
      destruct k as [|[|[|[|[|[|k]]]]]]; try lia;
      cbn [String.get] in Hget; try discriminate;
      injection Hget as ->; slices;
      first
        [ left; solve [ apply int16_bad_pair; auto | apply int16_bad_single; auto ]
        | right; left;
          solve [ apply int16_bad_pair; auto | apply int16_bad_single; auto ]
        | right; right;
          solve [ apply int16_bad_pair; auto | apply int16_bad_single; auto ] ].
  - intros Herr cfg Hreq. split.
    + intros r. apply (apply_styles_to_run_raises cfg s r Hreq Herr).
    + intros prs. apply modify_styles_rel.
      * intros r. unfold Samples.styled_run.
        rewrite (apply_styles_to_run_raises cfg s r Hreq Herr).
        apply font_steps_keep_color.
      * left. reflexivity.
Qed.

End HexColourPartial.

Lemma hex_to_rgb_partial_witness :
  PPTStyles._hex_to_rgb "#FF5733" = Ok (255, 87, 51)%Z
  /\ PPTStyles._hex_to_rgb "#FFF" = Raise ValueError
  /\ PPTStyles._hex_to_rgb "#GG0000" = Raise ValueError.
Proof.
  pose proof (hex_to_rgb_partial "#FF5733") as (H6 & _).
  pose proof (hex_to_rgb_partial "#FFF") as (_ & Hshort & _).
  pose proof (hex_to_rgb_partial "#GG0000") as (_ & _ & Hbad & _).
  split; [exact (proj1 (H6 _ _ _ _ _ _ eq_refl eq_refl eq_refl eq_refl
                             eq_refl eq_refl eq_refl))|].
  split.
  - apply Hshort. vm_compute. repeat constructor.
  - apply (Hbad 0%nat "G"%char); [lia | reflexivity | reflexivity].
Defined.

(** C10 as stated fails: five hexadecimal digits are fewer than six and
    raise nothing, the fifth alone giving the blue value, and a sign is no
    hexadecimal digit and is read; the colour is then applied to the run. *)
Lemma hex_to_rgb_accepts_five_digits :
  PPTStyles._hex_to_rgb "#FFFFF" = Ok (255, 255, 15)%Z
  /\ String.length (PyStr.lstrip_char "#" "#FFFFF") = 5%nat
  /\ PPTStyles._hex_to_rgb "+F+F+F" = Ok (15, 15, 15)%Z
  /\ PyInt.is_hex_digit "+" = false
  /\ PPTStyles.apply_styles_to_run
       (Models.mkStyleConfig None None
          (Some (Models.mkColorScheme (Some "#FFFFF") None)))
       (Pptx.mkRun "title" Samples.plain)
     = (Pptx.mkRun "title"
          (Pptx.mkFont None None None None (Pptx.RGB 255 255 15)), None).
Proof. repeat split. Qed.

(* ===================================================================== *)
(** * Further properties *)
(* ===================================================================== *)

(** ** Content replacement, continued *)

Section ReplacementMore.
Import Pptx Models PPTModifier.

Lemma nth_error_Some_lt {X : Type} (l : list X) (i : nat) (x : X) :
  nth_error l i = Some x -> (i < length l)%nat.
Proof. intros H. apply nth_error_Some. congruence. Qed.

Lemma alter_nth_id {X : Type} (f : X -> X) (l : list X) :
  forall i, (forall x, nth_error l i = Some x -> f x = x) -> alter_nth f i l = l.
Proof.
  induction l as [|y l IH]; intros [|i] H; cbn; try reflexivity.
  - rewrite (H y eq_refl). reflexivity.
  - rewrite IH; [reflexivity | exact H].
Qed.

Lemma alter_nth_comm {X : Type} (f g : X -> X) (l : list X) :
  forall i j, i <> j ->
  alter_nth f i (alter_nth g j l) = alter_nth g j (alter_nth f i l).
Proof.
  induction l as [|y l IH]; intros [|i] [|j] H; cbn; try reflexivity.
  - contradiction.
  - rewrite IH; [reflexivity | congruence].
Qed.

Lemma map_fixes {X : Type} (f : X -> X) (l : list X) :
  (forall x, In x l -> f x = x) -> map f l = l.
Proof.
  intros H. induction l as [|x l IH]; cbn; [reflexivity|].
  rewrite (H x (or_introl eq_refl)), IH; [reflexivity|].
  intros y Hy. apply H. right. exact Hy.
Qed.

(** With a slide index that is not negative, the operation is one
    rewriting of the slide at that position, if there is one. *)
Lemma replace_in_slide_nonneg (prs : Presentation) (n : Z) (old new : string) :
  (0 <= n)%Z ->
  _replace_in_slide prs n old new
  = Ok (mkPresentation
          (alter_nth (replace_in_shapes old new) (Z.to_nat n) (slides prs))).
Proof.
  intros Hn. unfold _replace_in_slide, py_index.
  destruct (Z.geb_spec n (Z.of_nat (length (slides prs)))) as [Hge|Hlt].
  - rewrite alter_nth_id; [destruct prs; reflexivity|].
    intros x Hx. apply nth_error_Some_lt in Hx. lia.
  - destruct (Z.leb_spec 0 n); [|lia].
    destruct (Z.ltb_spec n (Z.of_nat (length (slides prs)))); [|lia].
    reflexivity.
Qed.

Lemma replace_in_frame_absent (old new : string) (tf : TextFrame) :
  Forall (fun r => PyStr.contains old (run_text r) = false) (frame_runs tf) ->
  _replace_text_in_frame old new tf = tf.
Proof.
  rewrite Forall_forall. intros H. destruct tf as [ps].
  unfold _replace_text_in_frame. cbn [paragraphs]. f_equal.
  apply map_fixes. intros [rs] Hp. f_equal. cbn [runs].
  apply map_fixes. intros r Hr.
  rewrite replace_in_run_keeps_font. unfold Samples.replaced_run.
  rewrite H; [reflexivity|].
  unfold frame_runs. cbn [paragraphs]. apply in_flat_map.
  exists (mkParagraph rs). split; assumption.
Qed.

Lemma replace_in_table_absent (old new : string) (tb : Table) :
  Forall (fun r => PyStr.contains old (run_text r) = false) (table_runs tb) ->
  _replace_text_in_table old new tb = tb.
Proof.
  rewrite Forall_forall. intros H. destruct tb as [rws].
  unfold _replace_text_in_table. cbn [rows]. f_equal.
  apply map_fixes. intros [cs] Hrow. f_equal. cbn [cells].
  apply map_fixes. intros [[tf|]] Hcell; cbn [cell_text_frame option_map];
    [|reflexivity].
  f_equal. f_equal. apply replace_in_frame_absent. apply Forall_forall.
  intros r Hr. apply H. unfold table_runs. cbn [rows].
  apply in_flat_map. exists (mkRow cs). split; [exact Hrow|].
  cbn [cells]. apply in_flat_map. exists (mkCell (Some tf)).
  split; [exact Hcell | exact Hr].
Qed.

Lemma replace_in_shapes_absent (old new : string) (slide : Slide) :
  Forall (fun r => PyStr.contains old (run_text r) = false) (slide_runs slide) ->
  replace_in_shapes old new slide = slide.
Proof.
  rewrite Forall_forall. intros H. destruct slide as [shs].
  unfold replace_in_shapes. cbn [slide_shapes]. f_equal.
  apply map_fixes. intros [tf tb sub] Hsh. unfold replace_in_shape.
  cbn [shape_text_frame shape_table shape_shapes].
  assert (Hin : forall r, In r (shape_runs (mkShape tf tb sub)) ->
                          PyStr.contains old (run_text r) = false).
  { intros r Hr. apply H. unfold slide_runs. cbn [slide_shapes].
    apply in_flat_map. exists (mkShape tf tb sub). split; assumption. }
  unfold shape_runs in Hin. cbn [shape_text_frame shape_table] in Hin.
  f_equal.
  - destruct tf as [tf|]; cbn [option_map]; [|reflexivity]. f_equal.
    apply replace_in_frame_absent, Forall_forall. intros r Hr.
    apply Hin, in_or_app. left. exact Hr.
  - destruct tb as [tb|]; cbn [option_map]; [|reflexivity]. f_equal.
    apply replace_in_table_absent, Forall_forall. intros r Hr.
    apply Hin, in_or_app. right. exact Hr.
Qed.

(** X1: a replacement whose [old_text] is in no single run of the slide
    (for one, because a deck editor split it over two runs) leaves the
    whole document exactly as it is. *)
Theorem replace_in_slide_absent_is_noop
    (prs : Presentation) (n : nat) (old new : string) (slide : Slide) :
  nth_error (slides prs) n = Some slide ->
  Forall (fun r => PyStr.contains old (run_text r) = false) (slide_runs slide) ->
  _replace_in_slide prs (Z.of_nat n) old new = Ok prs
  /\ replace_content prs [mkReplacement (Z.of_nat n) old new] = prs.
Proof.
  intros Hn Habs.
  assert (H : _replace_in_slide prs (Z.of_nat n) old new = Ok prs).
  { rewrite replace_in_slide_nonneg by lia. rewrite Nat2Z.id.
    rewrite alter_nth_id; [destruct prs; reflexivity|].
    intros x Hx. rewrite Hn in Hx. injection Hx as <-.
    apply replace_in_shapes_absent, Habs. }
  split; [exact H|]. cbn. rewrite H. reflexivity.
Qed.

Lemma replace_in_slide_absent_is_noop_witness :
  PyStr.contains "textmore" "AI textmore AI text" = true
  /\ _replace_in_slide Samples.two_run_deck (Z.of_nat 0) "textmore" "x"
     = Ok Samples.two_run_deck.
Proof.
  split; [reflexivity|].
  refine (proj1 (replace_in_slide_absent_is_noop Samples.two_run_deck 0
                   "textmore" "x" _ eq_refl _)).
  repeat constructor.
Defined.

Lemma flat_map_alter_nth {X Y W : Type} (h : Y -> W) (g : X -> list Y) (f : X -> X) :
  (forall x, map h (g (f x)) = map h (g x)) ->
  forall l i, map h (flat_map g (alter_nth f i l)) = map h (flat_map g l).
Proof.
  intros H. induction l as [|x l IH]; intros [|i]; cbn; try reflexivity.
  - rewrite !map_app, H. reflexivity.
  - rewrite !map_app, IH. reflexivity.
Qed.

Lemma replace_in_slide_cases (prs : Presentation) (n : Z) (old new : string) :
  _replace_in_slide prs n old new = Raise IndexError
  \/ exists i,
       _replace_in_slide prs n old new
       = Ok (mkPresentation (alter_nth (replace_in_shapes old new) i (slides prs))).
Proof.
  unfold _replace_in_slide.
  destruct (n >=? Z.of_nat (length (slides prs)))%Z.
  - right. exists (length (slides prs)). rewrite alter_nth_id.
    + destruct prs; reflexivity.
    + intros x Hx. apply nth_error_Some_lt in Hx. lia.
  - destruct (py_index (slides prs) n) as [i|]; [right; eauto | left; reflexivity].
Qed.

Lemma replace_content_invariants (rs : list Replacement) :
  forall prs,
    map run_font (presentation_runs (replace_content prs rs))
    = map run_font (presentation_runs prs)
    /\ length (presentation_runs (replace_content prs rs))
       = length (presentation_runs prs)
    /\ length (slides (replace_content prs rs)) = length (slides prs).
Proof.
  induction rs as [|r rs IH]; intros prs; cbn [replace_content].
  - repeat split.
  - destruct (replace_in_slide_cases prs (slide_num r) (old_text r) (new_text r))
      as [->|(i & ->)]; [apply IH|].
    destruct (IH (mkPresentation
                    (alter_nth (replace_in_shapes (old_text r) (new_text r)) i
                               (slides prs)))) as (Hf & Hl & Hs).
    assert (Hfont : map run_font
                      (presentation_runs
                         (mkPresentation
                            (alter_nth (replace_in_shapes (old_text r) (new_text r))
                                       i (slides prs))))
                    = map run_font (presentation_runs prs)).
    { unfold presentation_runs. cbn [slides]. apply flat_map_alter_nth.
      intros s. rewrite slide_runs_replace, map_map. apply map_ext.
      intros x. rewrite replace_in_run_keeps_font. unfold Samples.replaced_run.
      destruct (PyStr.contains _ _); reflexivity. }
    split; [rewrite Hf; exact Hfont|]. split.
    + rewrite Hl. rewrite <- (length_map run_font), Hfont, length_map. reflexivity.
    + rewrite Hs. cbn [slides]. apply length_alter_nth.
Qed.

(** X2: whatever the list of replacements, [replace_content] leaves the
    font of every run as it was, and adds or removes no run and no slide. *)
Theorem replace_content_keeps_formatting
    (rs : list Replacement) (prs : Presentation) :
  map run_font (presentation_runs (replace_content prs rs))
  = map run_font (presentation_runs prs)
  /\ length (presentation_runs (replace_content prs rs))
     = length (presentation_runs prs)
  /\ length (slides (replace_content prs rs)) = length (slides prs).
Proof. apply replace_content_invariants. Qed.

Lemma in_range_length (prs prs' : Presentation) (r : Replacement) :
  length (slides prs') = length (slides prs) ->
  Notions.in_range prs' r = Notions.in_range prs r.
Proof. intros H. unfold Notions.in_range. rewrite H. reflexivity. Qed.

(** X3: among replacements with valid slide numbers, those past the last
    slide count for nothing: the document ends as if they had not been in
    the list. *)
Theorem replace_content_skips_out_of_range (rs : list Replacement) :
  forall prs,
    Forall Replacement_valid rs ->
    replace_content prs rs = replace_content prs (filter (Notions.in_range prs) rs).
Proof.
  induction rs as [|r rs IH]; intros prs Hv; [reflexivity|].
  inversion Hv as [|? ? Hr Hrs]; subst. unfold Replacement_valid in Hr.
  cbn [replace_content filter].
  rewrite replace_in_slide_nonneg by exact Hr.
  set (prs' := mkPresentation _).
  assert (Hlen : length (slides prs') = length (slides prs)).
  { unfold prs'. cbn [slides]. apply length_alter_nth. }
  rewrite (IH prs' Hrs).
  rewrite (filter_ext _ _ (fun x => in_range_length prs prs' x Hlen)).
  unfold Notions.in_range at 2.
  destruct (Z.leb_spec 0 (slide_num r)); [|lia]. cbn [andb].
  destruct (Z.ltb_spec (slide_num r) (Z.of_nat (length (slides prs)))) as [Hlt|Hge].
  - cbn [replace_content]. rewrite replace_in_slide_nonneg by exact Hr.
    fold prs'. reflexivity.
  - assert (Hid : prs' = prs).
    { unfold prs'. rewrite alter_nth_id; [destruct prs; reflexivity|].
      intros x Hx. apply nth_error_Some_lt in Hx. lia. }
    rewrite Hid. reflexivity.
Qed.

Lemma replace_content_skips_out_of_range_witness :
  Forall Replacement_valid [mkReplacement 5 "AI" "x"; mkReplacement 0 "more" "less"]
  /\ replace_content Samples.two_run_deck
       [mkReplacement 5 "AI" "x"; mkReplacement 0 "more" "less"]
     = replace_content Samples.two_run_deck [mkReplacement 0 "more" "less"].
Proof.
  assert (Hv : Forall Replacement_valid
                 [mkReplacement 5 "AI" "x"; mkReplacement 0 "more" "less"]).
  { repeat constructor; unfold Replacement_valid; cbn; lia. }
  split; [exact Hv|].
  exact (replace_content_skips_out_of_range _ Samples.two_run_deck Hv).
Defined.

(** X4: replacements aimed at different slides do not interfere: their
    order in the list does not matter. *)
Theorem replace_content_commutes_across_slides
    (prs : Presentation) (r1 r2 : Replacement) (rest : list Replacement) :
  Replacement_valid r1 -> Replacement_valid r2 ->
  slide_num r1 <> slide_num r2 ->
  replace_content prs (r1 :: r2 :: rest) = replace_content prs (r2 :: r1 :: rest).
Proof.
  unfold Replacement_valid. intros H1 H2 Hne. cbn [replace_content].
  rewrite (replace_in_slide_nonneg prs _ _ _ H1).
  rewrite (replace_in_slide_nonneg prs _ _ _ H2).
  rewrite (replace_in_slide_nonneg _ _ _ _ H1).
  rewrite (replace_in_slide_nonneg _ _ _ _ H2).
  cbn [slides]. rewrite alter_nth_comm; [reflexivity|].
  intros Heq. apply Hne. lia.
Qed.

Lemma replace_content_commutes_across_slides_witness :
  Replacement_valid (mkReplacement 0 "utilize" "use")
  /\ Replacement_valid (mkReplacement 2 "hand" "pen")
  /\ replace_content Samples.three_slide_deck
       [mkReplacement 0 "utilize" "use"; mkReplacement 2 "hand" "pen"]
     = replace_content Samples.three_slide_deck
         [mkReplacement 2 "hand" "pen"; mkReplacement 0 "utilize" "use"].
Proof.
  assert (H1 : Replacement_valid (mkReplacement 0 "utilize" "use")).
  { unfold Replacement_valid; cbn; lia. }
  assert (H2 : Replacement_valid (mkReplacement 2 "hand" "pen")).
  { unfold Replacement_valid; cbn; lia. }
  split; [exact H1|]. split; [exact H2|].
  apply (replace_content_commutes_across_slides _ _ _ [] H1 H2).
  cbn. lia.
Defined.

End ReplacementMore.

(** ** Style overrides, continued *)

Section FirstRaise.
Context {A B : Type}.
Variable g : A -> list B.
Variable f : B -> B.
Variable e : exn.
Variable body : A -> A * option exn.

(** The body raises exactly on an element that holds something, having
    touched the first thing it holds. *)
Hypothesis body_spec :
  forall x, g (fst (body x)) = Notions.touch_first f (g x)
            /\ snd (body x) = match g x with [] => None | _ :: _ => Some e end.

Lemma for_each_first_raise (l : list A) :
  flat_map g (fst (PPTStyles.for_each body l)) = Notions.touch_first f (flat_map g l)
  /\ snd (PPTStyles.for_each body l)
     = match flat_map g l with [] => None | _ :: _ => Some e end.
Proof.
  induction l as [|x l IH]; cbn [PPTStyles.for_each flat_map].
  - split; reflexivity.
  - destruct (body_spec x) as [Hg Hs].
    destruct (body x) as [x' [e'|]]; cbn [fst snd] in *.
    + destruct (g x) as [|b bs]; [discriminate|]. injection Hs as ->.
      cbn [flat_map]. rewrite Hg. split; reflexivity.
    + destruct (g x) as [|b bs]; [|discriminate].
      destruct (PPTStyles.for_each body l) as [l' r]. cbn [fst snd] in *.
      cbn [flat_map]. rewrite Hg. exact IH.
Qed.

End FirstRaise.

Section FirstRaiseIn.
Context {P A B : Type}.
Variable children : P -> list A.
Variable rebuild : list A -> P.
Hypothesis children_rebuild : forall l, children (rebuild l) = l.
Variable g : A -> list B.
Variable f : B -> B.
Variable e : exn.
Variable body : A -> A * option exn.
Hypothesis body_spec :
  forall x, g (fst (body x)) = Notions.touch_first f (g x)
            /\ snd (body x) = match g x with [] => None | _ :: _ => Some e end.

Lemma for_each_in_first_raise (p : P) :
  flat_map g (children (fst (PPTStyles.for_each_in children rebuild body p)))
  = Notions.touch_first f (flat_map g (children p))
  /\ snd (PPTStyles.for_each_in children rebuild body p)
     = match flat_map g (children p) with [] => None | _ :: _ => Some e end.
Proof.
  unfold PPTStyles.for_each_in.
  pose proof (for_each_first_raise g f e body body_spec (children p)) as H.
  destruct (PPTStyles.for_each body (children p)) as [l r].
  cbn [fst snd] in *. rewrite children_rebuild. exact H.
Qed.

End FirstRaiseIn.

Lemma flat_map_singleton {X : Type} (l : list X) : flat_map (fun x => [x]) l = l.
Proof. induction l as [|x l IH]; cbn; [reflexivity | rewrite IH; reflexivity]. Qed.

Section StyleFailure.
Import Pptx Models PPTStyles.
Variable cfg : StyleConfig.
Variable tc : string.
Variable e : exn.
Hypothesis colour_requested : requested_color cfg = Some tc.
Hypothesis colour_fails : bind (_hex_to_rgb tc) RGBColor = Raise e.

Lemma apply_styles_to_run_fails (r : Run) :
  apply_styles_to_run cfg r = (Notions.font_steps cfg r, Some e).
Proof.
  unfold apply_styles_to_run, apply_color.
  rewrite colour_requested, colour_fails. reflexivity.
Qed.

Lemma paragraph_first_raise (p : Paragraph) :
  runs (fst (apply_styles_to_paragraph cfg p)) = Notions.touch_first (Notions.font_steps cfg) (runs p)
  /\ snd (apply_styles_to_paragraph cfg p)
     = match runs p with [] => None | _ :: _ => Some e end.
Proof.
  assert (Hrun : forall r,
            [fst (apply_styles_to_run cfg r)]
            = Notions.touch_first (Notions.font_steps cfg) [r]
            /\ snd (apply_styles_to_run cfg r) = Some e).
  { intros r. rewrite apply_styles_to_run_fails. split; reflexivity. }
  pose proof (for_each_in_first_raise runs mkParagraph (fun _ => eq_refl)
                (fun r => [r]) (Notions.font_steps cfg) e
                (apply_styles_to_run cfg) Hrun p) as [H1 H2].
  rewrite !flat_map_singleton in H1. rewrite flat_map_singleton in H2.
  split; [exact H1 | exact H2].
Qed.

Lemma frame_first_raise (tf : TextFrame) :
  frame_runs (fst (_apply_styles_to_frame cfg tf))
  = Notions.touch_first (Notions.font_steps cfg) (frame_runs tf)
  /\ snd (_apply_styles_to_frame cfg tf)
     = match frame_runs tf with [] => None | _ :: _ => Some e end.
Proof.
  apply (for_each_in_first_raise paragraphs mkTextFrame (fun _ => eq_refl)
           runs (Notions.font_steps cfg) e (apply_styles_to_paragraph cfg)).
  exact paragraph_first_raise.
Qed.

Lemma cell_first_raise (c : Cell) :
  opt_frame_runs (cell_text_frame (fst (apply_styles_to_cell cfg c)))
  = Notions.touch_first (Notions.font_steps cfg) (opt_frame_runs (cell_text_frame c))
  /\ snd (apply_styles_to_cell cfg c)
     = match opt_frame_runs (cell_text_frame c) with
       | [] => None
       | _ :: _ => Some e
       end.
Proof.
  unfold apply_styles_to_cell. destruct c as [[tf|]]; cbn [cell_text_frame].
  - pose proof (frame_first_raise tf) as H.
    destruct (_apply_styles_to_frame cfg tf) as [tf' r]. exact H.
  - split; reflexivity.
Qed.

(** X7: when the colour cannot be converted, the walk over a table stops
    at its first run, which has got the font name and size; the exception
    is swallowed and every other run of the table is left as it was. *)
Theorem apply_styles_to_table_stops_at_first_run (tb : Table) :
  table_runs (_apply_styles_to_table cfg tb)
  = Notions.touch_first (Notions.font_steps cfg)
                        (table_runs tb).
Proof.
  unfold table_runs, _apply_styles_to_table.
  apply (for_each_in_first_raise rows mkTable (fun _ => eq_refl)
           (fun r => flat_map (fun c => opt_frame_runs (cell_text_frame c)) (cells r))
           (Notions.font_steps cfg) e (apply_styles_to_row cfg)).
  intros row.
  apply (for_each_in_first_raise cells mkRow (fun _ => eq_refl)
           (fun c => opt_frame_runs (cell_text_frame c))
           (Notions.font_steps cfg) e (apply_styles_to_cell cfg)).
  exact cell_first_raise.
Qed.

Lemma shape_first_raise (s : Shape) :
  opt_frame_runs (shape_text_frame (fst (apply_styles_to_shape cfg s)))
  = Notions.touch_first (Notions.font_steps cfg) (opt_frame_runs (shape_text_frame s))
  /\ snd (apply_styles_to_shape cfg s)
     = match opt_frame_runs (shape_text_frame s) with
       | [] => None
       | _ :: _ => Some e
       end.
Proof.
  unfold apply_styles_to_shape. destruct s as [[tf|] tb sub];
    cbn [shape_text_frame shape_table shape_shapes].
  - pose proof (frame_first_raise tf) as [Hr Hs].
    destruct (_apply_styles_to_frame cfg tf) as [tf' [e'|]];
      cbn [fst snd shape_text_frame opt_frame_runs] in *;
      split; assumption.
  - split; reflexivity.
Qed.

(** X6: when the colour cannot be converted, [modify_styles] raises
    exactly when a text frame of a shape of some slide holds a run; it
    raises at the first such run, which has got the font name and size,
    and touches no later one.  Runs in tables alone never make it raise. *)
Theorem modify_styles_raises_at_first_text_run (prs : Presentation) :
  snd (modify_styles cfg prs)
  = match Notions.text_frame_runs prs with [] => None | _ :: _ => Some e end
  /\ Notions.text_frame_runs (fst (modify_styles cfg prs))
     = Notions.touch_first (Notions.font_steps cfg)
                           (Notions.text_frame_runs prs).
Proof.
  unfold Notions.text_frame_runs, modify_styles.
  pose proof (for_each_in_first_raise slides mkPresentation (fun _ => eq_refl)
                (fun slide => flat_map (fun sh => opt_frame_runs (shape_text_frame sh))
                                       (slide_shapes slide))
                (Notions.font_steps cfg) e (apply_styles_to_slide cfg)) as H.
  split; apply H; intros slide;
    apply (for_each_in_first_raise slide_shapes mkSlide (fun _ => eq_refl)
             (fun sh => opt_frame_runs (shape_text_frame sh))
             (Notions.font_steps cfg) e (apply_styles_to_shape cfg));
    exact shape_first_raise.
Qed.

End StyleFailure.

Lemma apply_styles_to_table_stops_at_first_run_witness :
  PPTStyles.requested_color Notions.arial_crimson = Some "crimson"
  /\ bind (PPTStyles._hex_to_rgb "crimson") PPTStyles.RGBColor = Raise ValueError
  /\ map (fun r => Pptx.font_name (Pptx.run_font r))
         (Pptx.table_runs
            (PPTStyles._apply_styles_to_table Notions.arial_crimson
               Notions.two_cell_table))
     = [Some "Arial"; None].
Proof.
  split; [reflexivity|]. split; [reflexivity|].
  rewrite (apply_styles_to_table_stops_at_first_run Notions.arial_crimson
             "crimson" ValueError eq_refl eq_refl Notions.two_cell_table).
  reflexivity.
Defined.

Lemma modify_styles_raises_at_first_text_run_witness :
  PPTStyles.requested_color Notions.arial_crimson = Some "crimson"
  /\ bind (PPTStyles._hex_to_rgb "crimson") PPTStyles.RGBColor = Raise ValueError
  /\ snd (PPTStyles.modify_styles Notions.arial_crimson Notions.frame_and_table_deck)
     = Some ValueError
  /\ snd (PPTStyles.modify_styles Notions.arial_crimson
            (Pptx.mkPresentation
               [Pptx.mkSlide [Pptx.mkShape None (Some Notions.two_cell_table) None]]))
     = None.
Proof.
  split; [reflexivity|]. split; [reflexivity|]. split.
  - rewrite (proj1 (modify_styles_raises_at_first_text_run Notions.arial_crimson
                      "crimson" ValueError eq_refl eq_refl
                      Notions.frame_and_table_deck)).
    reflexivity.
  - reflexivity.
Defined.

Section StyleSuccess.
Import Pptx Models PPTStyles.

Lemma styled_run_styled_as (cfg : StyleConfig) (r : Run) :
  Samples.color_applies cfg = true ->
  Notions.styled_as cfg r (Samples.styled_run cfg r).
Proof.
  unfold Samples.color_applies, Notions.styled_as, Samples.styled_run,
    apply_styles_to_run, apply_color, apply_font_size, apply_font_name.
  intros Hc. destruct r as [t [fn fs fb fi fc]].
  destruct (requested_color cfg) as [tc|] eqn:Hreq;
    [destruct (bind (_hex_to_rgb tc) RGBColor) as [[[cr cg] cb]|e] eqn:Hb;
     [|discriminate]|];
    destruct (Models.font_name cfg) as [[|a n]|];
    destruct (Models.font_size cfg) as [z|];
    try destruct (Z.eqb_spec z 0); cbn;
    repeat split; intros;
    repeat match goal with
           | H : Some _ = Some _ |- _ => injection H as H; subst
           end;
    cbn in *; try discriminate; try congruence.
Qed.

(** X5: when the colour asked for converts, or none is asked for,
    [modify_styles] ends normally and every run of a text frame or table
    cell of the slides' shapes has the overrides: the font name, the size
    in points, the colour given; no text is changed. *)
Theorem modify_styles_reaches_every_run (cfg : StyleConfig) (prs : Presentation) :
  Samples.color_applies cfg = true ->
  snd (modify_styles cfg prs) = None
  /\ Forall2 (Notions.styled_as cfg)
             (presentation_runs prs)
             (presentation_runs (fst (modify_styles cfg prs))).
Proof.
  intros Hc. split; [apply modify_styles_no_raise, Hc|].
  apply modify_styles_rel.
  - intros r. apply styled_run_styled_as, Hc.
  - right. exact Hc.
Qed.

End StyleSuccess.

Lemma modify_styles_reaches_every_run_witness :
  Samples.color_applies Samples.arial_red = true
  /\ map (fun r => (Pptx.font_name (Pptx.run_font r), Pptx.font_color (Pptx.run_font r)))
         (Pptx.presentation_runs
            (fst (PPTStyles.modify_styles Samples.arial_red Notions.frame_and_table_deck)))
     = [(Some "Arial", Pptx.RGB 255 0 0); (Some "Arial", Pptx.RGB 255 0 0);
        (Some "Arial", Pptx.RGB 255 0 0); (Some "Arial", Pptx.RGB 255 0 0)].
Proof.
  split; [reflexivity|].
  pose proof (proj2 (modify_styles_reaches_every_run Samples.arial_red
                       Notions.frame_and_table_deck eq_refl)) as H.
  reflexivity.
Defined.

(** ** The document reader *)

Section Reader.
Import Pptx Models PPTAnalyzer.

Lemma nth_error_extract_from (l : list Slide) :
  forall i k, nth_error (extract_from i l) k
              = option_map (slide_text (i + k)) (nth_error l k).
Proof.
  induction l as [|s l IH]; intros i [|k]; cbn; try reflexivity.
  - rewrite Nat.add_0_r. reflexivity.
  - rewrite IH. f_equal. f_equal. lia.
Qed.

Lemma map_slide_number_extract_from (l : list Slide) :
  forall i, map slide_number (extract_from i l) = map Z.of_nat (seq i (length l)).
Proof.
  induction l as [|s l IH]; intros i; cbn; [reflexivity|].
  rewrite IH. reflexivity.
Qed.

Lemma map_shape_count_extract_from (l : list Slide) :
  forall i, map shape_count (extract_from i l)
            = map (fun s => Z.of_nat (length (slide_shapes s))) l.
Proof.
  induction l as [|s l IH]; intros i; cbn; [reflexivity|].
  rewrite IH. reflexivity.
Qed.

(** X8: reading a document of N slides gives N slide texts, numbered
    0..N-1 in slide order, each with the number of shapes directly on its
    slide. *)
Theorem extract_text_numbers_slides (prs : Presentation) :
  length (extract_text_from_pptx prs) = length (slides prs)
  /\ map slide_number (extract_text_from_pptx prs)
     = map Z.of_nat (seq 0 (length (slides prs)))
  /\ map shape_count (extract_text_from_pptx prs)
     = map (fun s => Z.of_nat (length (slide_shapes s))) (slides prs)
  /\ forall k st, nth_error (extract_text_from_pptx prs) k = Some st ->
       slide_number st = Z.of_nat k.
Proof.
  unfold extract_text_from_pptx. split; [apply length_extract_from|].
  split; [apply map_slide_number_extract_from|].
  split; [apply map_shape_count_extract_from|].
  intros k st H. rewrite nth_error_extract_from in H.
  destruct (nth_error (slides prs) k); [|discriminate].
  injection H as <-. reflexivity.
Qed.

Lemma has_ink_app (a b : string) :
  Notions.has_ink (a ++ b) = (Notions.has_ink a || Notions.has_ink b)%bool.
Proof.
  induction a as [|c a IH]; cbn; [reflexivity|].
  rewrite IH, orb_assoc. reflexivity.
Qed.

Lemma has_ink_rev_onto (s : string) :
  forall acc, Notions.has_ink (PyStr.rev_onto s acc)
              = (Notions.has_ink s || Notions.has_ink acc)%bool.
Proof.
  induction s as [|c s IH]; intros acc; cbn; [reflexivity|].
  rewrite IH. cbn. destruct (PyStr.isspace c), (Notions.has_ink s); reflexivity.
Qed.

Lemma has_ink_reverse (s : string) :
  Notions.has_ink (PyStr.reverse s) = Notions.has_ink s.
Proof. unfold PyStr.reverse. rewrite has_ink_rev_onto. cbn. apply orb_false_r. Qed.

Lemma has_ink_lstrip (s : string) :
  Notions.has_ink (PyStr.lstrip_with PyStr.isspace s) = Notions.has_ink s.
Proof.
  induction s as [|c s IH]; cbn; [reflexivity|].
  destruct (PyStr.isspace c) eqn:Hc; cbn; [exact IH | rewrite Hc; reflexivity].
Qed.

Lemma lstrip_no_ink (s : string) :
  Notions.has_ink s = false -> PyStr.lstrip_with PyStr.isspace s = "".
Proof.
  induction s as [|c s IH]; cbn; [reflexivity|].
  destruct (PyStr.isspace c); cbn; [exact IH | discriminate].
Qed.

Lemma has_ink_strip (s : string) :
  Notions.has_ink (PyStr.strip s) = Notions.has_ink s.
Proof.
  unfold PyStr.strip, PyStr.rstrip_with.
  rewrite has_ink_reverse, has_ink_lstrip, has_ink_reverse, has_ink_lstrip.
  reflexivity.
Qed.

(** [t.strip()] is not empty exactly when [t] has a character that is no
    white space. *)
Lemma truthy_strip (s : string) :
  PyStr.truthy (PyStr.strip s) = Notions.has_ink s.
Proof.
  destruct (Notions.has_ink s) eqn:H.
  - rewrite <- has_ink_strip in H. destruct (PyStr.strip s); [discriminate|reflexivity].
  - unfold PyStr.strip. rewrite (lstrip_no_ink s H). reflexivity.
Qed.

Lemma nonblank_has_ink (s : string) : nonblank s = Notions.has_ink s.
Proof. apply truthy_strip. Qed.

Lemma has_ink_join (parts : list string) :
  Notions.has_ink (PyStr.join " " parts) = existsb Notions.has_ink parts.
Proof.
  induction parts as [|p [|q ps] IH].
  - reflexivity.
  - cbn. rewrite orb_false_r. reflexivity.
  - change (PyStr.join " " (p :: q :: ps))
      with (p ++ " " ++ PyStr.join " " (q :: ps))%string.
    rewrite !has_ink_app, IH. reflexivity.
Qed.

Lemma existsb_filter {X : Type} (p : X -> bool) (l : list X) :
  existsb p (filter p l) = existsb p l.
Proof.
  induction l as [|x l IH]; cbn; [reflexivity|].
  destruct (p x) eqn:Hx; cbn; [rewrite Hx; reflexivity | exact IH].
Qed.

Lemma existsb_ext {X : Type} (p q : X -> bool) (l : list X) :
  (forall x, p x = q x) -> existsb p l = existsb q l.
Proof.
  intros H. induction l as [|x l IH]; cbn; [reflexivity|].
  rewrite H, IH. reflexivity.
Qed.

Lemma existsb_map {X Y : Type} (p : Y -> bool) (h : X -> Y) (l : list X) :
  existsb p (map h l) = existsb (fun x => p (h x)) l.
Proof. induction l as [|x l IH]; cbn; [reflexivity | rewrite IH; reflexivity]. Qed.

(** X9: the text read from a slide is blank exactly when the text read
    from each of its shapes is; it is then the empty string, so joining
    the parts never yields a text of white space only. *)
Theorem slide_text_blank_iff (i : nat) (slide : Slide) :
  nonblank (text (slide_text i slide))
  = existsb (fun sh => nonblank (_extract_text_from_shape sh)) (slide_shapes slide)
  /\ (nonblank (text (slide_text i slide)) = false -> text (slide_text i slide) = "").
Proof.
  assert (H : nonblank (text (slide_text i slide))
              = existsb (fun sh => nonblank (_extract_text_from_shape sh))
                        (slide_shapes slide)).
  { unfold slide_text. cbn [text].
    rewrite nonblank_has_ink, has_ink_join.
    rewrite (existsb_ext _ nonblank) by (intros; symmetry; apply nonblank_has_ink).
    rewrite existsb_filter, existsb_map. reflexivity. }
  split; [exact H|]. rewrite H. intros Hn.
  unfold slide_text. cbn [text].
  replace (filter nonblank (map _extract_text_from_shape (slide_shapes slide)))
    with (@nil string); [reflexivity|].
  symmetry. rewrite <- existsb_map in Hn.
  induction (map _extract_text_from_shape (slide_shapes slide)) as [|t l IH];
    cbn in *; [reflexivity|].
  apply orb_false_iff in Hn. destruct Hn as [Ht Hl].
  rewrite Ht. apply IH, Hl.
Qed.

(** X10: the text read from a shape is not blank exactly when one of its
    paragraphs, one of the cells of its table or, recursively, one of the
    shapes grouped in it has a character that is no white space. *)
Theorem extract_shape_nonblank (tf : option TextFrame) (tb : option Table)
    (sub : option (list Shape)) :
  nonblank (_extract_text_from_shape (mkShape tf tb sub))
  = (match tf with
     | Some tf => existsb (fun p => Notions.has_ink (paragraph_text p)) (paragraphs tf)
     | None => false
     end
     || match tb with
        | Some tb =>
            existsb (fun row => existsb (fun c => Notions.has_ink (cell_text c))
                                        (cells row)) (rows tb)
        | None => false
        end
     || match sub with
        | Some l => existsb (fun sh => nonblank (_extract_text_from_shape sh)) l
        | None => false
        end)%bool.
Proof.
  cbn [_extract_text_from_shape].
  rewrite nonblank_has_ink, has_ink_join, !existsb_app, orb_assoc.
  f_equal; [f_equal|].
  - destruct tf as [tf|]; [|reflexivity].
    induction (paragraphs tf) as [|p ps IH]; cbn; [reflexivity|].
    rewrite truthy_strip.
    destruct (Notions.has_ink (paragraph_text p)) eqn:Hp; cbn;
      [rewrite has_ink_strip, Hp; reflexivity | exact IH].
  - destruct tb as [tb|]; [|reflexivity].
    unfold _extract_table_text. cbn [filter].
    match goal with
    | |- existsb _ (if PyStr.truthy ?t then _ else _) = _ =>
        assert (Ht : Notions.has_ink t
                     = existsb (fun row => existsb (fun c => Notions.has_ink (cell_text c))
                                                   (cells row)) (rows tb));
        [|destruct t eqn:Et; cbn [PyStr.truthy existsb];
          [rewrite <- Ht; reflexivity | rewrite <- Ht, orb_false_r; reflexivity]]
    end.
    rewrite has_ink_join.
    induction (rows tb) as [|row rs IH]; cbn [flat_map]; [reflexivity|].
    rewrite filter_app, existsb_app. cbn [existsb]. rewrite IH. f_equal.
    induction (cells row) as [|c cs IHc]; cbn; [reflexivity|].
    rewrite <- IHc.
    destruct (PyStr.strip (cell_text c)) eqn:Es; cbn [PyStr.truthy existsb].
    + rewrite <- (has_ink_strip (cell_text c)), Es. reflexivity.
    + rewrite <- (has_ink_strip (cell_text c)), Es. reflexivity.
  - destruct sub as [l|]; [|reflexivity].
    rewrite (existsb_ext _ nonblank) by (intros; symmetry; apply nonblank_has_ink).
    rewrite existsb_filter, existsb_map. reflexivity.
Qed.

End Reader.

(** ** Grouped shapes *)

Section Groups.
Import Pptx Models.

Lemma Forall2_map_eq {X Y : Type} (h : X -> Y) (l l' : list X) :
  Forall2 (fun x x' => h x' = h x) l l' -> map h l' = map h l.
Proof. induction 1; cbn; congruence. Qed.

Lemma map_alter_nth {X Y : Type} (h : X -> Y) (f : X -> X) :
  (forall x, h (f x) = h x) ->
  forall l i, map h (alter_nth f i l) = map h l.
Proof.
  intros H. induction l as [|x l IH]; intros [|i]; cbn; try reflexivity.
  - rewrite H. reflexivity.
  - rewrite IH. reflexivity.
Qed.

Lemma replace_content_keeps_groups (rs : list Replacement) :
  forall prs, Notions.grouped (PPTModifier.replace_content prs rs) = Notions.grouped prs.
Proof.
  induction rs as [|r rs IH]; intros prs; cbn [PPTModifier.replace_content];
    [reflexivity|].
  destruct (replace_in_slide_cases prs (slide_num r) (old_text r) (new_text r))
    as [->|(i & ->)]; [apply IH|].
  rewrite IH. unfold Notions.grouped. cbn [slides]. apply map_alter_nth.
  intros s. unfold PPTModifier.replace_in_shapes. cbn [slide_shapes].
  rewrite map_map. reflexivity.
Qed.

Lemma modify_styles_keeps_groups (cfg : StyleConfig) (prs : Presentation) :
  Notions.grouped (fst (PPTStyles.modify_styles cfg prs)) = Notions.grouped prs.
Proof.
  unfold Notions.grouped, PPTStyles.modify_styles.
  apply (Forall2_map_eq (fun s => map shape_shapes (slide_shapes s))).
  apply (for_each_in_rel slides mkPresentation (PPTStyles.apply_styles_to_slide cfg)
           (fun _ => eq_refl)
           (fun s s' => map shape_shapes (slide_shapes s')
                        = map shape_shapes (slide_shapes s))).
  - intros s. apply (Forall2_map_eq shape_shapes).
    apply (for_each_in_rel slide_shapes mkSlide (PPTStyles.apply_styles_to_shape cfg)
             (fun _ => eq_refl) (fun a a' => shape_shapes a' = shape_shapes a)).
    + intros [tf tb sub]. unfold PPTStyles.apply_styles_to_shape.
      cbn [shape_text_frame shape_table shape_shapes].
      destruct tf as [tf|]; [|reflexivity].
      destruct (PPTStyles._apply_styles_to_frame cfg tf) as [tf' [e|]]; reflexivity.
    + left. reflexivity.
  - left. reflexivity.
Qed.

(** X11: the reader takes text from the shapes grouped in a shape, but
    neither content replacement nor style override ever changes anything
    inside a group. *)
Theorem writer_never_enters_groups
    (cfg : StyleConfig) (rs : list Replacement) (prs : Presentation) :
  Notions.grouped (PPTModifier.replace_content prs rs) = Notions.grouped prs
  /\ Notions.grouped (fst (PPTStyles.modify_styles cfg prs)) = Notions.grouped prs
  /\ Notions.grouped (fst (PPTStyles.modify_styles cfg (PPTModifier.replace_content prs rs)))
     = Notions.grouped prs.
Proof.
  split; [apply replace_content_keeps_groups|].
  split; [apply modify_styles_keeps_groups|].
  rewrite modify_styles_keeps_groups. apply replace_content_keeps_groups.
Qed.

End Groups.

(** ** Detection, continued *)

Section DetectionMore.
Import Models Detector TextDetection.
Variable E : Env.

Lemma detect_verdict (self : AIDetector) (text : string) (w : World) :
  detect E self text w
  = (if Notions.probable E self text
     then Ok (Notions.verdict E self text) else Raise ValidationError,
     mkWorld (_detector_instance w) (loads w) (inferences w ++ [text])).
Proof. rewrite detect_unfold. reflexivity. Qed.

Lemma detect_batch_from_ok (self : AIDetector) (texts : list string) :
  forall acc w,
    forallb (Notions.probable E self) texts = true ->
    detect_batch_from E self texts acc w
    = (Ok (acc ++ map (Notions.verdict E self) texts),
       mkWorld (_detector_instance w) (loads w) (inferences w ++ texts)).
Proof.
  induction texts as [|t texts IH]; intros acc w H; cbn [detect_batch_from].
  - unfold ret. rewrite !app_nil_r. destruct w; reflexivity.
  - cbn [forallb] in H. apply andb_true_iff in H. destruct H as [Ht Hrest].
    unfold bindM. rewrite detect_verdict, Ht, (IH _ _ Hrest).
    cbn [_detector_instance loads inferences map].
    rewrite <- !app_assoc. reflexivity.
Qed.

Lemma detect_batch_from_fails (self : AIDetector) (good : list string)
    (bad : string) (rest : list string) :
  forall acc w,
    forallb (Notions.probable E self) good = true ->
    Notions.probable E self bad = false ->
    detect_batch_from E self (good ++ bad :: rest) acc w
    = (Raise ValidationError,
       mkWorld (_detector_instance w) (loads w) (inferences w ++ good ++ [bad])).
Proof.
  induction good as [|t good IH]; intros acc w Hg Hb; cbn [detect_batch_from app].
  - unfold bindM. rewrite detect_verdict, Hb. reflexivity.
  - cbn [forallb] in Hg. apply andb_true_iff in Hg. destruct Hg as [Ht Hrest].
    unfold bindM. rewrite detect_verdict, Ht, (IH _ _ Hrest Hb).
    cbn [_detector_instance loads inferences].
    rewrite <- !app_assoc. reflexivity.
Qed.

(** X12: [detect_batch] gives one result per text, in order, each the one
    [detect] gives for that text, having run the classifier on the texts
    in order; at the first text whose value the result model refuses it
    raises, keeps no result, and runs the classifier on no later text. *)
Theorem detect_batch_all_or_nothing (self : AIDetector) (w : World) :
  (forall texts,
     forallb (Notions.probable E self) texts = true ->
     detect_batch E self texts w
     = (Ok (map (Notions.verdict E self) texts),
        mkWorld (_detector_instance w) (loads w) (inferences w ++ texts)))
  /\ (forall good bad rest,
        forallb (Notions.probable E self) good = true ->
        Notions.probable E self bad = false ->
        detect_batch E self (good ++ bad :: rest) w
        = (Raise ValidationError,
           mkWorld (_detector_instance w) (loads w)
                   (inferences w ++ good ++ [bad]))).
Proof.
  split.
  - intros texts H. apply (detect_batch_from_ok self texts [] w H).
  - intros good bad rest Hg Hb. apply detect_batch_from_fails; assumption.
Qed.

Lemma map_const_repeat {X Y : Type} (y : Y) (l : list X) :
  map (fun _ => y) l = repeat y (length l).
Proof. induction l as [|x l IH]; cbn; [reflexivity | rewrite IH; reflexivity]. Qed.

(** X13: a load that fails is not remembered.  In a sequence of calls to
    [get_detector] every call raises until the first one that names a
    model that loads; that model is loaded once and every later call
    returns its instance. *)
Theorem get_detector_retries_until_loaded (requests : list (option string)) :
  forall w,
    _detector_instance w = None ->
    get_detectors E requests w
    = match Notions.first_loadable E requests with
      | None => (map (fun _ => Raise OSError) requests, w)
      | Some name =>
          (repeat (Raise OSError) (Notions.failed_before E requests)
           ++ repeat (Ok (mkAIDetector name))
                     (length requests - Notions.failed_before E requests),
           mkWorld (Some (mkAIDetector name)) (loads w ++ [name]) (inferences w))
      end.
Proof.
  unfold Notions.first_loadable.
  induction requests as [|m rest IH]; intros w Hnone.
  - reflexivity.
  - cbn [get_detectors map find Notions.failed_before length].
    destruct (from_pretrained E (name_or_default E m)) eqn:Hload.
    + rewrite (get_detector_first E m w Hnone Hload).
      rewrite (get_detectors_existing E (mkAIDetector (name_or_default E m)) rest)
        by reflexivity.
      rewrite map_const_repeat. reflexivity.
    + rewrite (get_detector_load_fails E m w Hnone Hload), (IH w Hnone).
      destruct (find (from_pretrained E) (map (name_or_default E) rest));
        reflexivity.
Qed.

End DetectionMore.

Lemma detect_batch_all_or_nothing_witness :
  map Models.label
      (match fst (TextDetection.detect_batch Samples.keyword_env
                    (Detector.mkAIDetector "m")
                    ["please utilize this"; "written by hand"] Detector.fresh) with
       | Ok l => l
       | Raise _ => []
       end)
  = ["AI"; "Human"].
Proof.
  rewrite (proj1 (detect_batch_all_or_nothing Samples.keyword_env
                    (Detector.mkAIDetector "m") Detector.fresh)
                 ["please utilize this"; "written by hand"] eq_refl).
  reflexivity.
Defined.

Lemma get_detector_retries_until_loaded_witness :
  Detector._detector_instance Detector.fresh = None
  /\ Detector.get_detectors
       (Detector.mkEnv "default-model" (String.eqb "good") (fun _ _ => 0.5%float))
       [None; Some "bad"; Some "good"; Some "other"] Detector.fresh
     = ([Raise OSError; Raise OSError;
         Ok (Detector.mkAIDetector "good"); Ok (Detector.mkAIDetector "good")],
        Detector.mkWorld (Some (Detector.mkAIDetector "good")) ["good"] []).
Proof.
  split; [reflexivity|].
  rewrite (get_detector_retries_until_loaded
             (Detector.mkEnv "default-model" (String.eqb "good") (fun _ _ => 0.5%float))
             [None; Some "bad"; Some "good"; Some "other"] Detector.fresh eq_refl).
  reflexivity.
Defined.

(** ** Validation and the text route *)

Section TextRoute.
Import Models Detector TextDetection Validators.
Variable E : Env.

Lemma strip_empty : PyStr.strip "" = "".
Proof. reflexivity. Qed.

Lemma validate_text_input_rejects (text : string) (min_length max_length : Z) :
  validate_text_input text min_length max_length <> Ok tt ->
  validate_text_input text min_length max_length = Raise InputValidationError.
Proof.
  unfold validate_text_input.
  destruct (negb (PyStr.truthy text) || negb (PyStr.truthy (PyStr.strip text)))%bool;
    [reflexivity|].
  destruct (_ <? _)%Z; [reflexivity|].
  destruct (_ >? _)%Z; [reflexivity|].
  intros H. contradiction H. reflexivity.
Qed.

(** X14: [validate_text_input] accepts a text exactly when, stripped of
    surrounding white space, it is not empty and its length lies between
    the two bounds, both included; every rejection is a ValidationError. *)
Theorem validate_text_input_accepts (text : string) (min_length max_length : Z) :
  (validate_text_input text min_length max_length = Ok tt
   <-> PyStr.strip text <> ""
       /\ (min_length <= Z.of_nat (String.length (PyStr.strip text)) <= max_length)%Z)
  /\ (validate_text_input text min_length max_length <> Ok tt ->
      validate_text_input text min_length max_length = Raise InputValidationError).
Proof.
  unfold validate_text_input.
  destruct text as [|c text].
  - cbn [PyStr.truthy negb orb]. split; [|reflexivity].
    split; [discriminate | intros [H _]; contradiction H; reflexivity].
  - cbn [PyStr.truthy negb orb].
    destruct (PyStr.strip (String c text)) as [|c' s'] eqn:Hs;
      cbn [PyStr.truthy negb].
    + split; [|reflexivity].
      split; [discriminate | intros [H _]; contradiction H; reflexivity].
    + destruct (Z.ltb_spec (Z.of_nat (String.length (String c' s'))) min_length).
      * split; [|reflexivity]. split; [discriminate | intros [_ H']; lia].
      * destruct (Z.gtb_spec (Z.of_nat (String.length (String c' s'))) max_length).
        -- split; [|reflexivity]. split; [discriminate | intros [_ H']; lia].
        -- split; [|intros H'; contradiction H'; reflexivity].
           split; [|reflexivity]. intros _. split; [discriminate | lia].
Qed.

(** X15: [detect_text] answers 400 to a text the validation refuses, and
    then has loaded no model and run no classifier; once the validation
    has passed it never answers 400, and with the detector there and a
    probability from the classifier it answers the verdict on the text as
    it was sent, not stripped. *)
Theorem detect_text_validates_first (request : TextDetectionRequest) (w : World) :
  (validate_text_input (request_text request) 10 100000 <> Ok tt ->
   detect_text E request w = (HTTPException 400, w))
  /\ (validate_text_input (request_text request) 10 100000 = Ok tt ->
      fst (detect_text E request w) <> HTTPException 400
      /\ forall d w1,
           get_detector E (request_model request) w = (Ok d, w1) ->
           Notions.probable E d (request_text request) = true ->
           detect_text E request w
           = (Response (Notions.verdict E d (request_text request)),
              mkWorld (_detector_instance w1) (loads w1)
                      (inferences w1 ++ [request_text request]))).
Proof.
  unfold detect_text, bindM, lift. split.
  - intros H.
    apply validate_text_input_rejects in H. rewrite H. reflexivity.
  - intros H. rewrite H. split.
    + destruct (get_detector E (request_model request) w) as [[d|e] w1] eqn:Hg.
      * rewrite detect_verdict.
        destruct (Notions.probable E d (request_text request)); cbn; discriminate.
      * unfold get_detector, new_AIDetector in Hg.
        destruct (_detector_instance w); [discriminate|].
        destruct (from_pretrained E _); [discriminate|].
        injection Hg as <- <-. cbn. discriminate.
    + intros d w1 Hg Hp. rewrite Hg, detect_verdict, Hp. reflexivity.
Qed.

End TextRoute.

Lemma detect_text_validates_first_witness :
  TextDetection.detect_text Samples.keyword_env
    (TextDetection.mkTextDetectionRequest "   too short   " None) Detector.fresh
  = (TextDetection.HTTPException 400, Detector.fresh)
  /\ exists r w',
       TextDetection.detect_text Samples.keyword_env
         (TextDetection.mkTextDetectionRequest "  please utilize this  " (Some "m"))
         Detector.fresh
       = (TextDetection.Response r, w')
       /\ Models.label r = "AI"
       /\ Detector.inferences w' = ["  please utilize this  "].
Proof.
  split.
  - apply (proj1 (detect_text_validates_first Samples.keyword_env
                    (TextDetection.mkTextDetectionRequest "   too short   " None)
                    Detector.fresh)).
    discriminate.
  - eexists. eexists. split; [reflexivity|]. split; reflexivity.
Defined.

(** ** File validation *)

Section FileValidation.
Import Validators.

Lemma lower_char_idem (c : ascii) :
  PyText.lower_char (PyText.lower_char c) = PyText.lower_char c.
Proof.
  assert (H : Ascii.eqb (PyText.lower_char (PyText.lower_char c))
                        (PyText.lower_char c) = true).
  { apply (forall_ascii (fun c => Ascii.eqb (PyText.lower_char (PyText.lower_char c))
                                            (PyText.lower_char c))).
    vm_compute. reflexivity. }
  apply Ascii.eqb_eq. exact H.
Qed.

Lemma lower_idem (s : string) : PyText.lower (PyText.lower s) = PyText.lower s.
Proof.
  induction s as [|c s IH]; cbn; [reflexivity|].
  rewrite lower_char_idem, IH. reflexivity.
Qed.

Lemma mem_In (x : string) (l : list string) : PyText.mem x l = true <-> In x l.
Proof.
  unfold PyText.mem. rewrite existsb_exists. split.
  - intros (y & Hy & Hxy). apply String.eqb_eq in Hxy. subst. exact Hy.
  - intros H. exists x. split; [exact H | apply String.eqb_refl].
Qed.

(** X16: [validate_pptx_file] accepts a file exactly when the suffix of
    its name, in lower case, is one of the configured extensions and its
    size does not exceed the configured number of megabytes; a file of
    exactly that size is accepted.  It agrees with
    [validate_file_extension] on the name. *)
Theorem validate_pptx_file_accepts (s : Settings) (filename : string) (file_size : Z) :
  (validate_pptx_file s filename file_size = Ok tt
   <-> In (PyText.lower (PyText.path_suffix filename)) (allowed_extensions_list s)
       /\ (file_size <= max_upload_size_mb s * 1048576)%Z)
  /\ (validate_pptx_file s filename file_size = Ok tt
      <-> validate_file_extension s filename = true
          /\ validate_file_size s file_size = Ok tt)
  /\ (validate_pptx_file s filename file_size <> Ok tt ->
      validate_pptx_file s filename file_size = Raise InputValidationError).
Proof.
  unfold validate_pptx_file, validate_file_extension, validate_file_size,
    max_upload_size_bytes.
  rewrite <- mem_In.
  destruct (PyText.mem _ _); cbn [negb].
  - destruct (Z.gtb_spec file_size (max_upload_size_mb s * 1024 * 1024)).
    + split; [|split]; [| |reflexivity].
      * split; [discriminate | intros [_ H']; lia].
      * split; [discriminate | intros [_ H']; discriminate].
    + split; [|split]; [| |intros H'; contradiction H'; reflexivity].
      * split; [intros _; split; [reflexivity | lia] | reflexivity].
      * split; [intros _; split; reflexivity | reflexivity].
  - split; [|split]; [| |reflexivity].
    + split; [discriminate | intros [H' _]; discriminate].
    + split; [discriminate | intros [H' _]; discriminate].
Qed.

(** X17: the suffix is put in lower case before it is looked up, the
    configured extensions are not: an extension configured with a capital
    letter matches no file name at all. *)
Theorem capital_extension_never_matches (s : Settings) :
  Forall (fun ext => PyText.lower ext <> ext) (allowed_extensions_list s) ->
  forall filename file_size,
    validate_file_extension s filename = false
    /\ validate_pptx_file s filename file_size = Raise InputValidationError.
Proof.
  intros Hcap filename file_size.
  assert (H : validate_file_extension s filename = false).
  { unfold validate_file_extension.
    destruct (PyText.mem _ _) eqn:Hm; [|reflexivity].
    apply mem_In in Hm. rewrite Forall_forall in Hcap.
    specialize (Hcap _ Hm). contradiction Hcap. apply lower_idem. }
  split; [exact H|].
  unfold validate_pptx_file. unfold validate_file_extension in H.
  rewrite H. reflexivity.
Qed.

End FileValidation.

Lemma capital_extension_never_matches_witness :
  Forall (fun ext => PyText.lower ext <> ext)
         (Validators.allowed_extensions_list (Validators.mkSettings 10 ".PPTX, .Ppt"))
  /\ Validators.validate_pptx_file (Validators.mkSettings 10 ".PPTX, .Ppt")
       "deck.PPTX" 100
     = Raise InputValidationError
  /\ Validators.validate_pptx_file Validators.default_settings "deck.PPTX" 10485760
     = Ok tt.
Proof.
  assert (H : Forall (fun ext => PyText.lower ext <> ext)
                (Validators.allowed_extensions_list
                   (Validators.mkSettings 10 ".PPTX, .Ppt"))).
  { repeat constructor; discriminate. }
  split; [exact H|]. split; [|reflexivity].
  exact (proj2 (capital_extension_never_matches _ H "deck.PPTX" 100%Z)).
Defined.

(** ** The rewriter, continued *)

Section RewriterMore.
Import PyRe ContentGenerator.

(** A pattern that cannot match where the literal [l] does not start is
    never applied to a text in which [l] does not occur. *)
Lemma sub_from_no_match (p : list atom) (tmpl : list piece) (l : string) :
  (forall prev s, prefix_ci l s = false -> match_atoms p prev s 0 0 None = None) ->
  forall s prev, Notions.contains_ci l s = false -> sub_from p tmpl 0 prev s = s.
Proof.
  intros Hp. induction s as [|c s IH]; intros prev H; [reflexivity|].
  cbn [Notions.contains_ci] in H. apply orb_false_iff in H. destruct H as [H1 H2].
  cbn [sub_from]. rewrite (Hp _ _ H1), (IH _ H2). reflexivity.
Qed.

Lemma replace_phrase_no_match (text : string) (entry : string * string) :
  Notions.contains_ci (fst entry) text = false -> replace_phrase text entry = text.
Proof.
  destruct entry as [phrase replacement]. cbn [fst]. intros H.
  unfold replace_phrase, sub. apply (sub_from_no_match _ _ phrase); [|exact H].
  intros prev s Hs. cbn [match_atoms]. rewrite Hs. reflexivity.
Qed.

Lemma bounded_no_match (l : string) (rest : list atom) (tmpl : list piece)
    (text : string) :
  Notions.contains_ci l text = false ->
  sub (WordBoundary :: Lit l :: rest) tmpl text = text.
Proof.
  intros H. unfold sub. apply (sub_from_no_match _ _ l); [|exact H].
  intros prev s Hs. cbn [match_atoms]. rewrite Hs.
  destruct (xorb _ _); reflexivity.
Qed.

Lemma fold_replace_phrase_no_match (table : list (string * string)) :
  forall text,
    forallb (fun t => negb (Notions.contains_ci t text)) (map fst table) = true ->
    fold_left replace_phrase table text = text.
Proof.
  induction table as [|entry table IH]; intros text H; [reflexivity|].
  cbn [map forallb] in H. apply andb_true_iff in H. destruct H as [He Ht].
  apply negb_true_iff in He.
  cbn [fold_left]. rewrite (replace_phrase_no_match _ _ He). apply IH, Ht.
Qed.

(** X18: a text of code points below 256 in which none of the phrases of
    the table occurs, in any mix of capital and small letters, nor any of
    "that", "is being" and "very", comes out of the rewriter as it went
    in.  (Beyond code point 255 [re.IGNORECASE] matches four more
    characters with "i", "s" and "k"; a text holding one of them is not
    covered.) *)
Theorem generate_without_trigger (text : string) :
  forallb (fun t => negb (Notions.contains_ci t text)) Notions.triggers = true ->
  generate text = text.
Proof.
  unfold Notions.triggers. rewrite forallb_app. intros H.
  apply andb_true_iff in H. destruct H as [Htable Hclean].
  cbn [forallb] in Hclean.
  apply andb_true_iff in Hclean. destruct Hclean as [Hthat Hclean].
  apply andb_true_iff in Hclean. destruct Hclean as [Hbeing Hclean].
  apply andb_true_iff in Hclean. destruct Hclean as [Hvery _].
  apply negb_true_iff in Hthat, Hbeing, Hvery.
  unfold generate. rewrite (fold_replace_phrase_no_match _ _ Htable).
  unfold _simplify_sentences, that_that, is_being, very_very. cbv zeta.
  rewrite (bounded_no_match "that" _ _ text Hthat).
  rewrite (bounded_no_match "is being" _ _ text Hbeing).
  apply (bounded_no_match "very" _ _ text Hvery).
Qed.

End RewriterMore.

Lemma generate_without_trigger_witness :
  forallb (fun t => negb (Notions.contains_ci t "Sales rose by IN ORDER of 4% B2B."))
          Notions.triggers = true
  /\ ContentGenerator.generate "Sales rose by IN ORDER of 4% B2B."
     = "Sales rose by IN ORDER of 4% B2B.".
Proof.
  split; [reflexivity|].
  apply generate_without_trigger. reflexivity.
Defined.

(** ** The document routes, continued *)

Section RoutesMore.
Import Pptx Models Detector Routes.
Variable E : Env.

Lemma slide_entries_numbers (d : AIDetector) (sts : list SlideText)
    (new : list SlideDetection) :
  Forall2 (Samples.slide_entry E d) sts new ->
  map sd_slide_number new = map slide_number sts
  /\ map sd_text new
     = map (fun st => if PPTAnalyzer.nonblank (text st) then text st else "") sts
  /\ Forall (fun sd => model_name (detection sd) = self_model_name d) new.
Proof.
  induction 1 as [|st sd sts new Hsd _ IH].
  - repeat split; constructor.
  - destruct IH as (IH1 & IH2 & IH3). destruct Hsd as [Hnum Hrest].
    cbn [map]. rewrite IH1, IH2, Hnum.
    destruct (PPTAnalyzer.nonblank (text st)).
    + destruct Hrest as [Ht Hd]. rewrite Ht.
      split; [reflexivity|]. split; [reflexivity|].
      constructor; [|exact IH3].
      specialize (Hd fresh). rewrite detect_verdict in Hd. cbn [fst] in Hd.
      destruct (Notions.probable E d (text st)); [|discriminate].
      injection Hd as <-. reflexivity.
    + destruct Hrest as [Ht Hd]. rewrite Ht.
      split; [reflexivity|]. split; [reflexivity|].
      constructor; [rewrite Hd; reflexivity | exact IH3].
Qed.

(** X19: a result of [detect_pptx] lists the slides in order, numbered
    0..N-1, each with the text read from it (the empty string for a blank
    one), under the file name given; every entry carries the model name of
    the shared detector, which is the one already there if there is one,
    whatever the configured model. *)
Theorem detect_pptx_entries
    (filename : string) (prs : Presentation) (w : World) (r : PresentationDetection) :
  fst (detect_pptx E filename prs w) = Ok r ->
  file_name r = filename
  /\ map sd_slide_number (pd_slides r) = map Z.of_nat (seq 0 (length (slides prs)))
  /\ map sd_text (pd_slides r)
     = map (fun st => if PPTAnalyzer.nonblank (text st) then text st else "")
           (PPTAnalyzer.extract_text_from_pptx prs)
  /\ exists d,
       fst (get_detector E None w) = Ok d
       /\ Forall (fun sd => model_name (detection sd) = self_model_name d) (pd_slides r)
       /\ (forall d0, _detector_instance w = Some d0 -> d = d0).
Proof.
  intros Hr.
  destruct (detect_pptx_ok E _ _ _ _ Hr) as (d & w1 & new & w2 & Hg & _ & HF & ->).
  destruct (slide_entries_numbers d _ _ HF) as (H1 & H2 & H3).
  cbn [file_name pd_slides]. split; [reflexivity|].
  split.
  { rewrite H1. unfold PPTAnalyzer.extract_text_from_pptx.
    apply map_slide_number_extract_from. }
  split; [exact H2|].
  exists d. rewrite Hg. split; [reflexivity|]. split; [exact H3|].
  intros d0 Hd0. rewrite (get_detector_existing E d0 None w Hd0) in Hg.
  congruence.
Qed.

Lemma for_each_length {X : Type} (body : X -> X * option exn) (l : list X) :
  length (fst (PPTStyles.for_each body l)) = length l.
Proof.
  induction l as [|x l IH]; cbn [PPTStyles.for_each]; [reflexivity|].
  destruct (body x) as [x' [e|]]; [reflexivity|].
  destruct (PPTStyles.for_each body l) as [l' r]. cbn [fst length] in *.
  rewrite IH. reflexivity.
Qed.

Lemma modify_styles_keeps_texts (cfg : StyleConfig) (prs : Presentation) :
  map run_text (presentation_runs (fst (PPTStyles.modify_styles cfg prs)))
  = map run_text (presentation_runs prs)
  /\ length (slides (fst (PPTStyles.modify_styles cfg prs))) = length (slides prs).
Proof.
  split.
  - apply (Forall2_map_eq run_text).
    apply (modify_styles_rel cfg (fun r r' => run_text r' = run_text r)).
    + intros r. pose proof (styled_run_untouched cfg r) as H. apply H.
    + left. reflexivity.
  - unfold PPTStyles.modify_styles, PPTStyles.for_each_in.
    pose proof (for_each_length (PPTStyles.apply_styles_to_slide cfg) (slides prs)) as H.
    destruct (PPTStyles.for_each _ (slides prs)) as [l r]. exact H.
Qed.

Lemma style_step_keeps (fn tc : option string) (prs out : Presentation) :
  style_step fn tc prs = Ok out ->
  map run_text (presentation_runs out) = map run_text (presentation_runs prs)
  /\ length (slides out) = length (slides prs)
  /\ Notions.grouped out = Notions.grouped prs.
Proof.
  unfold style_step. intros H.
  destruct (PyStr.truthy_opt fn || PyStr.truthy_opt tc)%bool.
  - pose proof (modify_styles_keeps_texts (style_config_of fn tc) prs) as [Ht Hl].
    pose proof (modify_styles_keeps_groups (style_config_of fn tc) prs) as Hg.
    destruct (PPTStyles.modify_styles _ prs) as [out' [e|]]; [discriminate|].
    injection H as <-. repeat split; assumption.
  - injection H as <-. repeat split.
Qed.

(** X20: whatever is asked of [modify_pptx], the document it saves has
    the slides, the runs and the grouped shapes of the upload: none is
    added, removed or reordered.  With [replace_ai_content] off it loads
    no model, runs no classifier and changes no text. *)
Theorem modify_pptx_keeps_structure
    (prs : Presentation) (flag : bool) (fn tc : option string) (thr : float)
    (w : World) (out : Presentation) :
  fst (modify_pptx E prs flag fn tc thr w) = Ok out ->
  length (slides out) = length (slides prs)
  /\ length (presentation_runs out) = length (presentation_runs prs)
  /\ Notions.grouped out = Notions.grouped prs
  /\ (flag = false ->
      snd (modify_pptx E prs flag fn tc thr w) = w
      /\ map run_text (presentation_runs out) = map run_text (presentation_runs prs)).
Proof.
  rewrite modify_pptx_unfold. intros H.
  destruct (created_replacements E prs flag thr w) as [[reps|e] w'] eqn:Hc;
    [|discriminate].
  cbn [fst snd] in *.
  destruct (style_step_keeps _ _ _ _ H) as (Ht & Hl & Hg).
  destruct (replace_content_invariants reps prs) as (_ & Hrl & Hsl).
  split; [rewrite Hl; exact Hsl|].
  split.
  { rewrite <- Hrl, <- (length_map run_text), Ht, length_map. reflexivity. }
  split; [rewrite Hg; apply replace_content_keeps_groups|].
  intros ->. unfold created_replacements, ret in Hc. injection Hc as <- <-.
  split; [reflexivity | exact Ht].
Qed.

End RoutesMore.

Lemma detect_pptx_entries_witness :
  exists r,
    fst (Routes.detect_pptx Samples.keyword_env "deck.pptx" Samples.three_slide_deck
           (Detector.mkWorld (Some (Detector.mkAIDetector "other-model")) [] []))
    = Ok r
    /\ map Models.sd_text (Models.pd_slides r)
       = ["In order to utilize the system"; ""; "written by hand"]
    /\ map (fun sd => Models.model_name (Models.detection sd)) (Models.pd_slides r)
       = ["other-model"; "other-model"; "other-model"].
Proof.
  eexists. split; [reflexivity|].
  pose proof (detect_pptx_entries Samples.keyword_env "deck.pptx"
                Samples.three_slide_deck
                (Detector.mkWorld (Some (Detector.mkAIDetector "other-model")) [] [])
                _ eq_refl) as (_ & _ & Htext & _).
  split; [exact Htext | reflexivity].
Defined.

Lemma modify_pptx_keeps_structure_witness :
  exists out,
    fst (Routes.modify_pptx Samples.keyword_env Samples.three_slide_deck true
           (Some "Arial") (Some "#FF0000") 0.75%float Detector.fresh) = Ok out
    /\ length (Pptx.slides out) = 3%nat
    /\ length (Pptx.presentation_runs out) = 3%nat.
Proof.
  eexists. split; [reflexivity|].
  destruct (modify_pptx_keeps_structure Samples.keyword_env Samples.three_slide_deck
              true (Some "Arial") (Some "#FF0000") 0.75%float Detector.fresh
              _ eq_refl) as (Hs & Hr & _).
  split; [exact Hs | exact Hr].
Defined.

(** ** Temporary files *)

Section TemporaryFiles.
Import Pptx Models Detector TextDetection Uploads.
Variable F : Files.
Variable E : Env.
Variable S : Validators.Settings.

Lemma delete_fresh (path : string) (d : Disk) :
  ~ In path (map fst d) -> delete path d = d.
Proof.
  unfold delete. induction d as [|[p c] d IH]; intros H; cbn; [reflexivity|].
  cbn in H. destruct (String.eqb_spec p path) as [->|Hne].
  - contradiction H. left. reflexivity.
  - cbn. rewrite IH; [reflexivity|]. intros Hin. apply H. right. exact Hin.
Qed.

Lemma delete_delete (path : string) (d : Disk) :
  delete path (delete path d) = delete path d.
Proof.
  unfold delete. induction d as [|[p c] d IH]; cbn; [reflexivity|].
  destruct (String.eqb p path) eqn:Hp; cbn; [exact IH|].
  rewrite Hp. cbn. rewrite IH. reflexivity.
Qed.

Lemma delete_write (path content : string) (d : Disk) :
  delete path (write path content d) = delete path d.
Proof.
  unfold write. unfold delete at 1. cbn [filter fst].
  rewrite String.eqb_refl. cbn [negb]. apply delete_delete.
Qed.

Lemma read_write (path content : string) (d : Disk) :
  read path (write path content d) = Some content.
Proof. unfold read, write. cbn. rewrite String.eqb_refl. reflexivity. Qed.

Lemma validate_pptx_file_rejects (filename : string) (size : Z) (e : exn) :
  Validators.validate_pptx_file S filename size = Raise e ->
  e = InputValidationError.
Proof.
  unfold Validators.validate_pptx_file, Validators.validate_file_size.
  destruct (negb _); [congruence|].
  destruct (_ >? _)%Z; congruence.
Qed.

(** X21: [detect_pptx] answers 400 to an upload the validation refuses,
    having saved and parsed nothing; and whatever the outcome (a result, a
    file that does not parse, a model that does not load, a value the
    result model refuses) the temporary copy is gone at the end: the
    directory holds what it held before. *)
Theorem detect_pptx_removes_its_upload
    (filename : option string) (file_content : string) (s : Server) :
  PyStr.truthy (temp_name F (issued s)
                  (PyText.path_suffix (filename_or filename "upload.pptx"))) = true ->
  ~ In (temp_name F (issued s)
          (PyText.path_suffix (filename_or filename "upload.pptx")))
       (map fst (disk s)) ->
  disk (snd (Uploads.detect_pptx F E S filename file_content s)) = disk s
  /\ (Validators.validate_pptx_file S (filename_or filename "unknown.pptx")
        (Z.of_nat (String.length file_content)) <> Ok tt ->
      Uploads.detect_pptx F E S filename file_content s = (HTTPException 400, s))
  /\ (Validators.validate_pptx_file S (filename_or filename "unknown.pptx")
        (Z.of_nat (String.length file_content)) = Ok tt ->
      (parse F file_content = None ->
       fst (Uploads.detect_pptx F E S filename file_content s) = HTTPException 500)
      /\ forall prs,
           parse F file_content = Some prs ->
           fst (Uploads.detect_pptx F E S filename file_content s)
           = handle (fst (Routes.detect_pptx E (filename_or filename "unknown.pptx")
                            prs (process s)))).
Proof.
  intros Hname Hfresh. unfold Uploads.detect_pptx.
  destruct (Validators.validate_pptx_file S _ _) as [[]|e] eqn:Hv.
  - unfold save_uploaded_file, generate_temp_filename, open_presentation,
      finally_cleanup, cleanup_file.
    cbn [disk process issued]. rewrite read_write, Hname.
    split; [|split; [intros H; contradiction H; reflexivity|]].
    + destruct (parse F file_content) as [prs|];
        [destruct (Routes.detect_pptx E _ prs (process s)) as [r w]|];
        cbn [snd disk]; rewrite delete_write; apply delete_fresh, Hfresh.
    + intros _. split.
      * intros ->. reflexivity.
      * intros prs ->.
        destruct (Routes.detect_pptx E _ prs (process s)) as [r w]. reflexivity.
  - rewrite (validate_pptx_file_rejects _ _ _ Hv).
    split; [reflexivity|]. split; [reflexivity | discriminate].
Qed.

(** X22: [modify_pptx] removes the temporary copy of the upload whatever
    the outcome, but never the file it writes: after an answer with a file
    the directory holds that one file more, after an error it holds what
    it held before. *)
Theorem modify_pptx_leaves_its_output
    (filename : option string) (file_content : string) (flag : bool)
    (fn tc : option string) (thr : float) (s : Server) :
  PyStr.truthy (temp_name F (issued s)
                  (PyText.path_suffix (filename_or filename "upload.pptx"))) = true ->
  ~ In (temp_name F (issued s)
          (PyText.path_suffix (filename_or filename "upload.pptx")))
       (map fst (disk s)) ->
  ~ In (temp_name F (Datatypes.S (issued s)) ".pptx") (map fst (disk s)) ->
  temp_name F (Datatypes.S (issued s)) ".pptx"
  <> temp_name F (issued s) (PyText.path_suffix (filename_or filename "upload.pptx")) ->
  match fst (Uploads.modify_pptx F E S filename file_content flag fn tc thr s) with
  | Response fr =>
      response_path fr = temp_name F (Datatypes.S (issued s)) ".pptx"
      /\ response_filename fr
         = ("modified_" ++ filename_or filename "presentation.pptx")%string
      /\ exists prs out,
           parse F file_content = Some prs
           /\ fst (Routes.modify_pptx E prs flag fn tc thr (process s)) = Ok out
           /\ exists bytes,
                serialize F out = Some bytes
                /\ disk (snd (Uploads.modify_pptx F E S filename file_content
                                flag fn tc thr s))
                   = (response_path fr, bytes) :: disk s
  | HTTPException _ =>
      disk (snd (Uploads.modify_pptx F E S filename file_content flag fn tc thr s))
      = disk s
  end.
Proof.
  intros Hname Hin Hout Hne. unfold Uploads.modify_pptx.
  destruct (Validators.validate_pptx_file S _ _) as [[]|e] eqn:Hv.
  - unfold save_uploaded_file, generate_temp_filename, open_presentation,
      finally_cleanup, cleanup_file.
    cbn [disk process issued]. rewrite read_write, Hname.
    set (pin := temp_name F (issued s) _) in *.
    set (pout := temp_name F (Datatypes.S (issued s)) ".pptx") in *.
    assert (Hback : delete pin (write pin file_content (disk s)) = disk s).
    { rewrite delete_write. apply delete_fresh, Hin. }
    destruct (parse F file_content) as [prs|]; [|cbn; exact Hback].
    destruct (Routes.modify_pptx E prs flag fn tc thr (process s)) as [[out|e] w] eqn:Hm;
      [|destruct e; cbn; exact Hback].
    cbn [issued process disk].
    destruct (serialize F out) as [bytes|] eqn:Hs; [|cbn; exact Hback].
    cbn [handle fst snd disk response_path response_filename].
    split; [reflexivity|]. split; [reflexivity|].
    exists prs, out. split; [reflexivity|]. split; [rewrite Hm; reflexivity|].
    exists bytes. split; [exact Hs|].
    unfold write at 1. unfold delete at 1. cbn [filter fst].
    destruct (String.eqb_spec pout pin) as [Heq|_]; [contradiction|]. cbn [negb].
    f_equal.
    assert (Hd : delete pout (write pin file_content (disk s))
                 = write pin file_content (disk s)).
    { apply delete_fresh. unfold write. cbn [map fst]. intros [Heq|Hd].
      - apply Hne. symmetry. exact Heq.
      - apply Hout. unfold delete in Hd. rewrite in_map_iff in Hd.
        destruct Hd as (x & Hx & Hxin). apply filter_In in Hxin.
        apply in_map_iff. exists x. split; [exact Hx | apply Hxin]. }
    fold (delete pin (delete pout (write pin file_content (disk s)))).
    rewrite Hd. exact Hback.
  - rewrite (validate_pptx_file_rejects _ _ _ Hv). reflexivity.
Qed.

End TemporaryFiles.

Lemma detect_pptx_removes_its_upload_witness :
  Uploads.disk
    (snd (Uploads.detect_pptx Notions.sample_files Samples.keyword_env
            Validators.default_settings (Some "deck.pptx") "content"
            Notions.empty_server)) = []
  /\ Uploads.detect_pptx Notions.sample_files Samples.keyword_env
       Validators.default_settings (Some "deck.pdf") "content" Notions.empty_server
     = (TextDetection.HTTPException 400, Notions.empty_server).
Proof.
  destruct (detect_pptx_removes_its_upload Notions.sample_files Samples.keyword_env
              Validators.default_settings (Some "deck.pptx") "content"
              Notions.empty_server eq_refl (fun H => H)) as (Hdisk & _).
  split; [exact Hdisk | reflexivity].
Defined.

Lemma modify_pptx_leaves_its_output_witness :
  exists fr,
    Uploads.modify_pptx Notions.sample_files Samples.keyword_env
      Validators.default_settings (Some "deck.pptx") "content" true
      (Some "Arial") None 0.75%float Notions.empty_server
    = (TextDetection.Response fr,
       Uploads.mkServer
         (Detector.mkWorld (Some (Detector.mkAIDetector "roberta-base-openai-detector"))
            ["roberta-base-openai-detector"]
            ["In order to utilize the system"; "written by hand"])
         [("/tmp/post-automation/1.pptx", "PK")] 2)
    /\ Uploads.response_filename fr = "modified_deck.pptx".
Proof.
  pose proof (modify_pptx_leaves_its_output Notions.sample_files Samples.keyword_env
                Validators.default_settings (Some "deck.pptx") "content" true
                (Some "Arial") None 0.75%float Notions.empty_server
                eq_refl (fun H => H) (fun H => H)
                ltac:(discriminate)) as H.
  eexists. split; reflexivity.
Defined.
